(** * OpenAQ extraction pipeline: paged fetch, unit conversion, alignment,
      trimming and daily aggregation

    A shallow embedding of

    - [OPENAQ/extract_1000_points_la_v2.py]   (module [PointsLA]),
    - [OPENAQ/extract_1000_daily_la.py]       (module [DailyLA]),
    - [OPENAQ/no2/create_daily_no2.py]        (module [DailyNO2]),
    - [OPENAQ/split_air_quality_data.py]      (module [SplitAirQuality]).

    Modelling conventions.

    - A decoded JSON document is a [pyobj]: Python's [None], [bool], number,
      [str], [list] and [dict].  Numbers are exact rationals ([Qc], canonical
      fractions, so that Leibniz equality is numeric equality); Python keeps
      them as [int] or as binary64 [float], and the rounding error of binary64
      arithmetic is outside this model.
    - A pandas [Timestamp] is the integer number of nanoseconds since the
      epoch, UTC; a [datetime.date] is the integer number of days since the
      epoch.  A [DataFrame] is the list of its rows, in row order.
    - The timestamps that are read are those of the field
      [period.datetimeFrom.utc], which carry a zone.  pandas does not
      compare a [Timestamp] that carries a zone with one that carries
      none: a frame that holds both does not sort.  On such a frame
      [extract_measurements_from_sensor] returns the empty frame through
      its outer [except], and [sorted] raises in
      [extract_1000_points_los_angeles].  Timestamps without a zone are
      outside this model; what would depend on them is stated of a frame
      that has rows, or of the table that is produced.
    - [sort_values] keeps rows with equal keys in the order they had, as
      numpy does on a short column; on a long one the order of equal keys
      is numpy's.
    - A float64 column cell that holds [NaN] is [None : option _].
    - A Python exception is the [Raised] outcome of the [try] monad;
      [try: ... except Exception:] is a match on that outcome.
    - [pd.to_datetime] belongs to pandas, not to this repository: the fetch
      functions take it as a parameter that either returns a [Timestamp] or
      raises ([NaT], which it returns for a few strings such as "NaT",
      is outside this model).  [to_datetime_iso] is a concrete instance
      for the API's [YYYY-MM-DDTHH:MM:SSZ] strings, used in the examples.
    - The remote API is a function from the request that is sent to its
      [response]; console output and [time.sleep] are not modelled. *)

From Stdlib Require Import ZArith QArith Qcanon String Ascii.
From Stdlib Require Import Lqa.
From stdpp Require Import base option list functions strings gmap sorting.

Open Scope Z_scope.

(** ** Python objects *)

#[warnings="-register-all"]
Inductive pyobj : Type :=
| PyNone
| PyBool (b : bool)
| PyNum (q : Qc)
| PyStr (s : string)
| PyList (l : list pyobj)
| PyDict (items : list (string * pyobj)).

(** Python exceptions: a computation returns a value or raises. *)
Inductive try (A : Type) : Type :=
| Returned (a : A)
| Raised.
Arguments Returned {A} a.
Arguments Raised {A}.

#[global] Instance try_ret : MRet try := fun A a => Returned a.
#[global] Instance try_bind : MBind try := fun A B f m =>
  match m with
  | Returned a => f a
  | Raised => Raised
  end.

(** [bool(o)], as [if not o] takes it. *)
Definition truthy (o : pyobj) : bool :=
  match o with
  | PyNone => false
  | PyBool b => b
  | PyNum q => negb (bool_decide (q = Q2Qc 0))
  | PyStr s => negb (String.eqb s "")
  | PyList l => negb (bool_decide (length l = 0%nat))
  | PyDict items => negb (bool_decide (length items = 0%nat))
  end.

Definition is_none (o : pyobj) : bool :=
  match o with
  | PyNone => true
  | _ => false
  end.

Fixpoint dict_lookup (key : string) (items : list (string * pyobj)) : option pyobj :=
  match items with
  | [] => None
  | (k, v) :: rest => if String.eqb key k then Some v else dict_lookup key rest
  end.

(** [o.get(key, default)]: only a [dict] has the method. *)
Definition py_get (o : pyobj) (key : string) (default_value : pyobj) : try pyobj :=
  match o with
  | PyDict items => Returned (default default_value (dict_lookup key items))
  | _ => Raised
  end.

Definition ascii_lower (c : ascii) : ascii :=
  let n := nat_of_ascii c in
  if (65 <=? n)%nat && (n <=? 90)%nat then ascii_of_nat (n + 32) else c.

(** [s.lower()].  Strings are byte strings here and only the letters A to
    Z change; Python also lowers letters outside ASCII, none of which
    becomes a letter of "ppm", "no2", "o3" or "hcho", the only strings a
    lowered string is compared with. *)
Fixpoint lower (s : string) : string :=
  match s with
  | EmptyString => EmptyString
  | String c rest => String (ascii_lower c) (lower rest)
  end.

(** [o.lower()]: only a [str] has the method. *)
Definition py_lower (o : pyobj) : try string :=
  match o with
  | PyStr s => Returned (lower s)
  | _ => Raised
  end.

Fixpoint repeat_string (s : string) (n : nat) : string :=
  match n with
  | O => EmptyString
  | S n' => String.append s (repeat_string s n')
  end.

(** [o * k] for an [int] constant [k]: arithmetic on numbers ([bool] is an
    [int]), repetition on sequences, [TypeError] otherwise. *)
Definition py_mul (o : pyobj) (k : Z) : try pyobj :=
  match o with
  | PyNone => Raised
  | PyBool b => Returned (PyNum (Q2Qc (inject_Z (if b then k else 0))))
  | PyNum q => Returned (PyNum (q * Q2Qc (inject_Z k))%Qc)
  | PyStr s => Returned (PyStr (repeat_string s (Z.to_nat k)))
  | PyList l => Returned (PyList (mjoin (replicate (Z.to_nat k) l)))
  | PyDict _ => Raised
  end.

(** ** Timestamps *)

Definition ns_per_second : Z := 1000000000.
Definition ns_per_day : Z := 86400 * ns_per_second.

(** [Timestamp.date()] and [Series.dt.date]: the UTC calendar day. *)
Definition date_of (timestamp : Z) : Z := timestamp `div` ns_per_day.

(** [pd.to_datetime(d)] of a [date]: that day at midnight. *)
Definition midnight (day : Z) : Z := day * ns_per_day.

Definition digit (c : ascii) : option Z :=
  let n := nat_of_ascii c in
  if (48 <=? n)%nat && (n <=? 57)%nat then Some (Z.of_nat (n - 48)) else None.

Definition number2 (a b : ascii) : option Z :=
  x ← digit a; y ← digit b; Some (10 * x + y).

Definition number4 (a b c d : ascii) : option Z :=
  x ← number2 a b; y ← number2 c d; Some (100 * x + y).

Definition is_leap (y : Z) : bool :=
  ((y `mod` 4 =? 0) && negb (y `mod` 100 =? 0)) || (y `mod` 400 =? 0).

Definition days_in_month (y m : Z) : Z :=
  if m =? 2 then (if is_leap y then 29 else 28)
  else if (m =? 4) || (m =? 6) || (m =? 9) || (m =? 11) then 30
  else 31.

(** Days from 1970-01-01 to the civil date [y]-[m]-[d] (proleptic
    Gregorian calendar). *)
Definition days_from_civil (y m d : Z) : Z :=
  let y' := if m <=? 2 then y - 1 else y in
  let era := y' `div` 400 in
  let yoe := y' - era * 400 in
  let doy := (153 * (if 2 <? m then m - 3 else m + 9) + 2) `div` 5 + d - 1 in
  let doe := yoe * 365 + yoe `div` 4 - yoe `div` 100 + doy in
  era * 146097 + doe - 719468.

(** The instant written [YYYY-MM-DDTHH:MM:SSZ], in nanoseconds. *)
Definition parse_iso_utc (s : string) : option Z :=
  match list_ascii_of_string s with
  | [y1; y2; y3; y4; c1; m1; m2; c2; d1; d2; c3; h1; h2; c4; n1; n2; c5; s1; s2; c6] =>
      if Ascii.eqb c1 "-" && Ascii.eqb c2 "-" && Ascii.eqb c3 "T"
         && Ascii.eqb c4 ":" && Ascii.eqb c5 ":" && Ascii.eqb c6 "Z"
      then
        y ← number4 y1 y2 y3 y4;
        m ← number2 m1 m2;
        d ← number2 d1 d2;
        h ← number2 h1 h2;
        n ← number2 n1 n2;
        sec ← number2 s1 s2;
        if (1 <=? m) && (m <=? 12) && (1 <=? d) && (d <=? days_in_month y m)
           && (h <? 24) && (n <? 60) && (sec <? 60)
        then Some ((days_from_civil y m d * 86400 + h * 3600 + n * 60 + sec) * ns_per_second)
        else None
      else None
  | _ => None
  end.

(** An instance of [pd.to_datetime] on the strings the API sends; every
    other argument raises in this instance. *)
Definition to_datetime_iso (o : pyobj) : try Z :=
  match o with
  | PyStr s =>
      match parse_iso_utc s with
      | Some t => Returned t
      | None => Raised
      end
  | _ => Raised
  end.

(** ** The remote source *)

(** What one [session.get] sends: the endpoint under
    [/v3/sensors/<sensor>/], the length of the look-back window that ends
    now, the page size and the page number. *)
Record request : Type := Request {
  endpoint : string;
  sensor : Z;
  window_days : Z;
  limit : Z;
  page_number : nat
}.

(** What comes back: [TransportError] when [session.get],
    [raise_for_status], the decoding or [data.get] raises, otherwise the
    list under the key [results] (empty when the key is missing). *)
Inductive response : Type :=
| TransportError
| Results (results : list pyobj).

(** ** pandas operations *)

(** [df.tail(n)]: [iloc[0:0]] for [n = 0], [iloc[-n:]] otherwise. *)
Definition df_tail {A : Type} (n : Z) (df : list A) : list A :=
  if n =? 0 then []
  else if 0 <? n then drop (length df - Z.to_nat n) df
  else drop (Z.to_nat (- n)) df.

(** [if len(df) > target_points: df = df.tail(target_points)]. *)
Definition trim {A : Type} (target_points : Z) (df : list A) : list A :=
  if target_points <? Z.of_nat (length df) then df_tail target_points df else df.

(** [df.sort_values(column)]: the rows in ascending order of the key.
    Rows with equal keys keep the order they had, as they do when numpy
    sorts a short column (by insertion); on a long column the order of
    equal keys is numpy's. *)
Fixpoint sort_insert {A : Type} (key : A → Z) (x : A) (sorted : list A) : list A :=
  match sorted with
  | [] => [x]
  | y :: rest =>
      if key x <=? key y then x :: sorted else y :: sort_insert key x rest
  end.

Definition sort_by {A : Type} (key : A → Z) (df : list A) : list A :=
  foldr (sort_insert key) [] df.

(** [sorted(list(s))] of a set of keys. *)
Definition sorted_keys (s : gset Z) : list Z := merge_sort Z.le (elements s).

(** [left.merge(right, on=key, how="left")] where [right] brings one value
    column: every left row, in order, once for each right row with the same
    key (in the order of [right]), and once with [NaN] when there is none. *)
Definition merge_left {L R V : Type} (lkey : L → Z) (rkey : R → Z) (rval : R → V)
    (left : list L) (right : list R) : list (L * option V) :=
  left ≫= λ l,
    match filter (λ r, rkey r = lkey l) right with
    | [] => [(l, None)]
    | matches => (λ r, (l, Some (rval r))) <$> matches
    end.

(** [df[column] = np.nan]. *)
Definition nan_column {L V : Type} (left : list L) : list (L * option V) :=
  (λ l, (l, None)) <$> left.

(** ** [extract_1000_points_la_v2.py] *)

Module PointsLA.

(** One entry of [all_measurements], one row of the returned frame. *)
Record measurement : Type := Measurement {
  timestamp : Z;
  value : pyobj
}.

Definition timestamp_le (a b : measurement) : Prop := timestamp a ≤ timestamp b.

#[global] Instance timestamp_le_dec : RelDecision timestamp_le :=
  λ a b, decide (timestamp a ≤ timestamp b).

(** [df.sort_values("timestamp")]. *)
Definition sort_values (df : list measurement) : list measurement :=
  sort_by timestamp df.

Definition measurements_request (sensor_id : Z) (page : nat) : request :=
  {| endpoint := "measurements"; sensor := sensor_id; window_days := 730;
     limit := 10000; page_number := page |}.

Section Fetch.
Variable to_datetime : pyobj → try Z.
Variable session_get : request → response.

(** Lines 79-85: the conversion to micrograms per cubic metre. *)
Definition convert (parameter_name : string) (unit value : pyobj) : try pyobj :=
  u ← py_lower unit;
  if String.eqb u "ppm" then
    if String.eqb (lower parameter_name) "no2" then py_mul value 1880
    else if String.eqb (lower parameter_name) "o3" then py_mul value 1960
    else if String.eqb (lower parameter_name) "hcho" then py_mul value 1230
    else mret value
  else mret value.

(** The body of the inner [try], lines 65-87: [Returned None] is
    [continue] (nothing appended), [Returned (Some m)] appends [m]. *)
Definition record_body (parameter_name : string) (record : pyobj)
    : try (option measurement) :=
  period ← py_get record "period" (PyDict []);
  datetime_from ← py_get period "datetimeFrom" (PyDict []);
  timestamp_str ← py_get datetime_from "utc" PyNone;
  if negb (truthy timestamp_str) then mret None
  else
    timestamp ← to_datetime timestamp_str;
    value ← py_get record "value" PyNone;
    parameter ← py_get record "parameter" (PyDict []);
    unit ← py_get parameter "units" (PyStr "unknown");
    if negb (is_none value) then
      value ← convert parameter_name unit value;
      mret (Some {| timestamp := timestamp; value := value |})
    else mret None.

(** The inner [try ... except Exception: continue]. *)
Definition process_record (parameter_name : string) (record : pyobj)
    : option measurement :=
  match record_body parameter_name record with
  | Returned appended => appended
  | Raised => None
  end.

(** [for record in results: ...], lines 63-90. *)
Definition process_results (parameter_name : string) (results : list pyobj)
    (all_measurements : list measurement) : list measurement :=
  fold_left
    (λ all_measurements record,
       match process_record parameter_name record with
       | Some m => all_measurements ++ [m]
       | None => all_measurements
       end)
    results all_measurements.

(** The [while] loop, lines 42-103.  [fuel] bounds the number of
    iterations for the termination checker only ([None] when it runs
    out); the list returned with the outcome is the requests sent so
    far, oldest first. *)
Fixpoint fetch_loop (sensor_id : Z) (parameter_name : string) (target_points : Z)
    (fuel : nat) (page : nat) (all_measurements : list measurement)
    (sent : list request) : option (try (list measurement) * list request) :=
  match fuel with
  | O => None
  | S fuel =>
      if Z.of_nat (length all_measurements) <? target_points then
        let params := measurements_request sensor_id page in
        match session_get params with
        | TransportError => Some (Raised, sent ++ [params])
        | Results results =>
            if bool_decide (results = []) then
              Some (Returned all_measurements, sent ++ [params])
            else
              let all_measurements :=
                process_results parameter_name results all_measurements in
              if Z.of_nat (length all_measurements) >=? target_points then
                Some (Returned all_measurements, sent ++ [params])
              else
                let page := (page + 1)%nat in
                if (50 <? page)%nat then
                  Some (Returned all_measurements, sent ++ [params])
                else
                  fetch_loop sensor_id parameter_name target_points
                    fuel page all_measurements (sent ++ [params])
        end
      else Some (Returned all_measurements, sent)
  end.

(** Lines 105-120: the frame that is returned when nothing raised. *)
Definition to_frame (target_points : Z) (all_measurements : list measurement)
    : list measurement :=
  let df := all_measurements in
  if 0 <? Z.of_nat (length df) then trim target_points (sort_values df)
  else df.

(** [extract_measurements_from_sensor]: the returned frame and the
    requests that were sent. *)
Definition extract_measurements_from_sensor (sensor_id : Z)
    (parameter_name : string) (target_points : Z)
    : option (list measurement * list request) :=
  '(outcome, sent) ← fetch_loop sensor_id parameter_name target_points 50 1 [] [];
  Some (match outcome with
        | Returned all_measurements => to_frame target_points all_measurements
        | Raised => []
        end, sent).
End Fetch.

(** One row of [df_combined], the table written to the CSV file. *)
Record combined_row : Type := CombinedRow {
  row_timestamp : Z;
  no2_ug_m3 : option pyobj;
  o3_ug_m3 : option pyobj;
  hcho_ug_m3 : option pyobj
}.

(** [if len(df) > 0: all_timestamps.update(df["timestamp"].tolist())]. *)
Definition update_timestamps (all_timestamps : gset Z) (df : list measurement) : gset Z :=
  if 0 <? Z.of_nat (length df)
  then all_timestamps ∪ list_to_set (timestamp <$> df)
  else all_timestamps.

(** [if len(df) > 0: df_combined = df_combined.merge(df, on="timestamp",
    how="left") else: df_combined[column] = np.nan]. *)
Definition add_column {L : Type} (lkey : L → Z) (df_combined : list L)
    (df : list measurement) : list (L * option pyobj) :=
  if 0 <? Z.of_nat (length df)
  then merge_left lkey timestamp value df_combined df
  else nan_column df_combined.

(** Lines 196-223: the union of the timestamps, then one left join for
    each pollutant. *)
Definition combine (df_no2 df_o3 df_hcho : list measurement) : list combined_row :=
  let all_timestamps : gset Z := ∅ in
  let all_timestamps := update_timestamps all_timestamps df_no2 in
  let all_timestamps := update_timestamps all_timestamps df_o3 in
  let all_timestamps := update_timestamps all_timestamps df_hcho in
  let df_combined := sorted_keys all_timestamps in
  let df_combined := add_column id df_combined df_no2 in
  let df_combined := add_column fst df_combined df_o3 in
  let df_combined := add_column (fst ∘ fst) df_combined df_hcho in
  (λ '(t, no2, o3, hcho), CombinedRow t no2 o3 hcho) <$> df_combined.

(** [extract_1000_points_los_angeles]: the table that is written.  There
    is no HCHO sensor ([HCHO_SENSOR = None]), so [df_hcho] is the empty
    frame. *)
Definition extract_1000_points_los_angeles (to_datetime : pyobj → try Z)
    (session_get : request → response) : option (list combined_row) :=
  '(df_no2, _) ← extract_measurements_from_sensor to_datetime session_get 25192 "no2" 10000;
  '(df_o3, _) ← extract_measurements_from_sensor to_datetime session_get 25193 "o3" 10000;
  let df_hcho := [] in
  Some (trim 10000 (combine df_no2 df_o3 df_hcho)).

End PointsLA.

(** ** [extract_1000_daily_la.py] *)

Module DailyLA.

Record measurement : Type := Measurement {
  date : Z;
  value : pyobj
}.

Definition date_le (a b : measurement) : Prop := date a ≤ date b.

#[global] Instance date_le_dec : RelDecision date_le :=
  λ a b, decide (date a ≤ date b).

(** [df.sort_values("date")]. *)
Definition sort_values (df : list measurement) : list measurement :=
  sort_by date df.

Definition days_request (sensor_id : Z) (page : nat) : request :=
  {| endpoint := "days"; sensor := sensor_id; window_days := 1100;
     limit := 1000; page_number := page |}.

Section Fetch.
Variable to_datetime : pyobj → try Z.
Variable session_get : request → response.

(** Lines 79-83: only NO2 and O3 are converted. *)
Definition convert (parameter_name : string) (unit value : pyobj) : try pyobj :=
  u ← py_lower unit;
  if String.eqb u "ppm" then
    if String.eqb (lower parameter_name) "no2" then py_mul value 1880
    else if String.eqb (lower parameter_name) "o3" then py_mul value 1960
    else mret value
  else mret value.

(** The body of the inner [try], lines 62-85. *)
Definition record_body (parameter_name : string) (record : pyobj)
    : try (option measurement) :=
  period ← py_get record "period" (PyDict []);
  datetime_from ← py_get period "datetimeFrom" (PyDict []);
  timestamp_str ← py_get datetime_from "utc" PyNone;
  if negb (truthy timestamp_str) then mret None
  else
    timestamp ← to_datetime timestamp_str;
    let timestamp := date_of timestamp in
    value ← py_get record "value" PyNone;
    parameter ← py_get record "parameter" (PyDict []);
    unit ← py_get parameter "units" (PyStr "unknown");
    if negb (is_none value) then
      value ← convert parameter_name unit value;
      mret (Some {| date := timestamp; value := value |})
    else mret None.

Definition process_record (parameter_name : string) (record : pyobj)
    : option measurement :=
  match record_body parameter_name record with
  | Returned appended => appended
  | Raised => None
  end.

Definition process_results (parameter_name : string) (results : list pyobj)
    (all_measurements : list measurement) : list measurement :=
  fold_left
    (λ all_measurements record,
       match process_record parameter_name record with
       | Some m => all_measurements ++ [m]
       | None => all_measurements
       end)
    results all_measurements.

(** The [while] loop, lines 40-101; [fuel] and [sent] as in
    [PointsLA.fetch_loop]. *)
Fixpoint fetch_loop (sensor_id : Z) (parameter_name : string) (target_points : Z)
    (fuel : nat) (page : nat) (all_measurements : list measurement)
    (sent : list request) : option (try (list measurement) * list request) :=
  match fuel with
  | O => None
  | S fuel =>
      if Z.of_nat (length all_measurements) <? target_points then
        let params := days_request sensor_id page in
        match session_get params with
        | TransportError => Some (Raised, sent ++ [params])
        | Results results =>
            if bool_decide (results = []) then
              Some (Returned all_measurements, sent ++ [params])
            else
              let all_measurements :=
                process_results parameter_name results all_measurements in
              if Z.of_nat (length all_measurements) >=? target_points then
                Some (Returned all_measurements, sent ++ [params])
              else
                let page := (page + 1)%nat in
                if (50 <? page)%nat then
                  Some (Returned all_measurements, sent ++ [params])
                else
                  fetch_loop sensor_id parameter_name target_points
                    fuel page all_measurements (sent ++ [params])
        end
      else Some (Returned all_measurements, sent)
  end.

Definition to_frame (target_points : Z) (all_measurements : list measurement)
    : list measurement :=
  let df := all_measurements in
  if 0 <? Z.of_nat (length df) then trim target_points (sort_values df)
  else df.

Definition extract_daily_measurements_from_sensor (sensor_id : Z)
    (parameter_name : string) (target_points : Z)
    : option (list measurement * list request) :=
  '(outcome, sent) ← fetch_loop sensor_id parameter_name target_points 50 1 [] [];
  Some (match outcome with
        | Returned all_measurements => to_frame target_points all_measurements
        | Raised => []
        end, sent).
End Fetch.

Record combined_row : Type := CombinedRow {
  row_date : Z;
  no2_ug_m3 : option pyobj;
  o3_ug_m3 : option pyobj
}.

Definition update_dates (all_dates : gset Z) (df : list measurement) : gset Z :=
  if 0 <? Z.of_nat (length df)
  then all_dates ∪ list_to_set (date <$> df)
  else all_dates.

Definition add_column {L : Type} (lkey : L → Z) (df_combined : list L)
    (df : list measurement) : list (L * option pyobj) :=
  if 0 <? Z.of_nat (length df)
  then merge_left lkey date value df_combined df
  else nan_column df_combined.

(** Lines 175-195. *)
Definition combine (df_no2 df_o3 : list measurement) : list combined_row :=
  let all_dates : gset Z := ∅ in
  let all_dates := update_dates all_dates df_no2 in
  let all_dates := update_dates all_dates df_o3 in
  let df_combined := sorted_keys all_dates in
  let df_combined := add_column id df_combined df_no2 in
  let df_combined := add_column fst df_combined df_o3 in
  (λ '(d, no2, o3), CombinedRow d no2 o3) <$> df_combined.

Definition extract_1000_daily_points_los_angeles (to_datetime : pyobj → try Z)
    (session_get : request → response) : option (list combined_row) :=
  '(df_no2, _) ← extract_daily_measurements_from_sensor to_datetime session_get 25192 "no2" 1000;
  '(df_o3, _) ← extract_daily_measurements_from_sensor to_datetime session_get 25193 "o3" 1000;
  Some (trim 1000 (combine df_no2 df_o3)).

End DailyLA.

(** ** [no2/create_daily_no2.py] *)

Module DailyNO2.

(** One row of the hourly table that is read, and of the daily table that
    is written: the column [no2_ug_m3] is a float64 column, empty cells are
    [NaN]. *)
Record row : Type := Row {
  timestamp : Z;
  no2_ug_m3 : option Qc
}.

Definition sum (values : list Qc) : Qc := foldr Qcplus (Q2Qc 0) values.

(** The aggregation ["mean"]: [NaN] cells are skipped, and the mean of no
    value at all is [NaN]. *)
Definition mean (cells : list (option Qc)) : option Qc :=
  let values := omap id cells in
  if bool_decide (values = []) then None
  else Some (sum values / Q2Qc (inject_Z (Z.of_nat (length values))))%Qc.

(** Rounding to the nearest integer, halves to the even one. *)
Definition rint (q : Qc) : Z :=
  let n := Qnum q in
  let d := Z.pos (Qden q) in
  let f := n `div` d in
  let r2 := 2 * (n `mod` d) in
  if r2 <? d then f
  else if d <? r2 then f + 1
  else if Z.even f then f else f + 1.

(** [.round(3)]: scale by [10**3], round, scale back. *)
Definition round3 (q : Qc) : Qc :=
  Q2Qc (Qmake (rint (q * Q2Qc (inject_Z 1000))%Qc) 1000).

(** [df["timestamp"].dt.date], line 29: the calendar day of every row.
    The accessor [.dt] exists on a datetime column only.  [read_csv]
    parses the dates of the rows it reads; with no row to read it leaves
    the column at dtype [object], and [.dt] raises [AttributeError]. *)
Definition dt_date (df : list row) : try (list Z) :=
  match df with
  | [] => Raised
  | _ => Returned ((λ r, date_of (timestamp r)) <$> df)
  end.

(** [df.groupby("date")], where [date] is the column that line 29 added:
    the groups in ascending order of their key, each with its rows in
    frame order. *)
Definition groupby_date (date : list Z) (df : list row) : list (Z * list row) :=
  let dates : gset Z := list_to_set date in
  (λ d, (d, snd <$> filter (λ '(key, _), key = d) (zip date df))) <$> sorted_keys dates.

(** Lines 29-37 of [create_daily_no2]: from the hourly frame to the daily
    frame. *)
Definition create_daily_no2 (df : list row) : try (list row) :=
  date ← dt_date df;
  let daily_df :=
    (λ '(d, group), (d, mean (no2_ug_m3 <$> group))) <$> groupby_date date df in
  let daily_df :=
    (λ '(d, no2), {| timestamp := midnight d; no2_ug_m3 := no2 |}) <$> daily_df in
  mret ((λ r, {| timestamp := timestamp r; no2_ug_m3 := round3 <$> no2_ug_m3 r |})
          <$> daily_df).

End DailyNO2.

(** ** [split_air_quality_data.py] *)

Module SplitAirQuality.

(** A table as [pd.read_csv] returns it and as [to_csv(index=False)]
    stores it: the names of its columns, which [read_csv] makes distinct,
    and its rows of cells.  A cell is a number, a string, or [PyNone] for
    [NaN]; [read_csv] fills a row that is too short with [NaN]. *)
Record frame : Type := Frame {
  columns : list string;
  rows : list (list pyobj)
}.

Definition column_position (name : string) (columns : list string) : option nat :=
  fst <$> list_find (λ c, c = name) columns.

(** [df[names]]: [KeyError] when one of the names is no column. *)
Definition select (names : list string) (df : frame) : try frame :=
  match mapM (M := option) (λ name, column_position name (columns df)) names with
  | Some positions =>
      Returned {| columns := names;
                  rows := (λ row : list pyobj,
                             (λ i : nat, default PyNone (row !! i)) <$> positions)
                            <$> rows df |}
  | None => Raised
  end.

Definition input_file : string := "la_air_quality_1000points.csv".
Definition no2_output : string := "no2/la_no2_1000points.csv".
Definition o3_output : string := "o3/la_o3_1000points.csv".

(** [split_air_quality_data]: from the files before the call to the files
    after it, and whether the call returned or raised.  The files are the
    tables held under their paths; directories are not modelled. *)
Definition split_air_quality_data (files : gmap string frame)
    : gmap string frame * try unit :=
  match files !! input_file with
  | None => (files, Returned ())
  | Some df =>
      match select ["timestamp"; "no2_ug_m3"] df with
      | Raised => (files, Raised)
      | Returned no2_df =>
          let files := <[no2_output := no2_df]> files in
          match select ["timestamp"; "o3_ug_m3"] df with
          | Raised => (files, Raised)
          | Returned o3_df => (<[o3_output := o3_df]> files, Returned ())
          end
      end
  end.

End SplitAirQuality.


(** ** The algorithm the two fetch functions share

    [PointsLA.extract_measurements_from_sensor] and
    [DailyLA.extract_daily_measurements_from_sensor] with what differs
    between them taken as parameters: the request that is sent for a page,
    what a record contributes (or nothing), and the sort key. *)

Section PagedSeriesFetcher.
Context {M : Type}.
Variable key : M → Z.
Variable make_request : nat → request.
Variable process : pyobj → option M.
Variable session_get : request → response.

Definition key_le (a b : M) : Prop := key a ≤ key b.

#[global] Instance key_le_dec : RelDecision key_le :=
  λ a b, decide (key a ≤ key b).

Fixpoint paged_loop (target_points : Z) (fuel : nat) (page : nat)
    (accumulator : list M) (sent : list request)
    : option (try (list M) * list request) :=
  match fuel with
  | O => None
  | S fuel =>
      if Z.of_nat (length accumulator) <? target_points then
        let params := make_request page in
        match session_get params with
        | TransportError => Some (Raised, sent ++ [params])
        | Results results =>
            if bool_decide (results = []) then
              Some (Returned accumulator, sent ++ [params])
            else
              let accumulator := accumulator ++ omap process results in
              if Z.of_nat (length accumulator) >=? target_points then
                Some (Returned accumulator, sent ++ [params])
              else
                let page := (page + 1)%nat in
                if (50 <? page)%nat then
                  Some (Returned accumulator, sent ++ [params])
                else
                  paged_loop target_points fuel page accumulator (sent ++ [params])
        end
      else Some (Returned accumulator, sent)
  end.

Definition sort_trim (target_points : Z) (accumulator : list M) : list M :=
  if 0 <? Z.of_nat (length accumulator)
  then trim target_points (sort_by key accumulator)
  else accumulator.

Definition paged_series_fetcher (target_points : Z)
    : option (list M * list request) :=
  '(outcome, sent) ← paged_loop target_points 50 1 [] [];
  Some (match outcome with
        | Returned accumulator => sort_trim target_points accumulator
        | Raised => []
        end, sent).

Definition records_of (r : response) : list pyobj :=
  match r with
  | Results results => results
  | TransportError => []
  end.

(** The records of pages [page], [page + 1], ..., [page + count - 1], in
    the order they arrive. *)
Definition pages_from (page count : nat) : list pyobj :=
  seq page count ≫= λ p, records_of (session_get (make_request p)).

(** Two sources that fail on the same requests, are exhausted on the same
    requests and contribute the same measurements page by page are
    indistinguishable. *)
Definition same_contribution (r1 r2 : response) : Prop :=
  match r1, r2 with
  | TransportError, TransportError => True
  | Results results1, Results results2 =>
      (results1 = [] ↔ results2 = []) ∧ omap process results1 = omap process results2
  | _, _ => False
  end.

End PagedSeriesFetcher.

(** ** Pollutants and example data *)

Inductive pollutant : Type := NO2 | O3 | HCHO.

(** The [parameter_name] the callers pass for a pollutant. *)
Definition pollutant_name (p : pollutant) : string :=
  match p with
  | NO2 => "no2"
  | O3 => "o3"
  | HCHO => "hcho"
  end.

(** Micrograms per cubic metre in one part per million. *)
Definition factor (p : pollutant) : Z :=
  match p with
  | NO2 => 1880
  | O3 => 1960
  | HCHO => 1230
  end.

Definition num (z : Z) : pyobj := PyNum (Q2Qc (inject_Z z)).

(** The unit "ppm" in every letter case it can be written in. *)
Definition ppm_in_any_case : list string :=
  ["ppm"; "ppM"; "pPm"; "pPM"; "Ppm"; "PpM"; "PPm"; "PPM"].

(** A record as the API sends it. *)
Definition api_record (utc : string) (value : pyobj) (units : string) : pyobj :=
  PyDict [("period", PyDict [("datetimeFrom", PyDict [("utc", PyStr utc)])]);
          ("value", value);
          ("parameter", PyDict [("units", PyStr units)])].

(** A source whose first page holds one record and whose second request
    fails. *)
Definition failing_source (r : request) : response :=
  match page_number r with
  | 1%nat => Results [api_record "2024-01-01T00:00:00Z" (num 5) "ug/m3"]
  | _ => TransportError
  end.

(** A source that never runs dry: one record on every page. *)
Definition endless_source (r : request) : response :=
  Results [api_record "2024-01-01T00:00:00Z" (num (Z.of_nat (page_number r))) "ug/m3"].

(** The argument [n] below 100 in two decimal digits. *)
Definition two_digits (n : Z) : string :=
  String (ascii_of_nat (Z.to_nat (48 + n `div` 10)))
    (String (ascii_of_nat (Z.to_nat (48 + n `mod` 10))) "").

(** The second [i] of 2024-01-01 as the API writes it. *)
Definition second_of_day (i : Z) : string :=
  "2024-01-01T" +:+ two_digits (i `div` 3600) +:+ ":"
  +:+ two_digits ((i `div` 60) `mod` 60) +:+ ":" +:+ two_digits (i `mod` 60) +:+ "Z".

(** The reading [i] at the second [i] of 2024-01-01. *)
Definition record_at (i : Z) : pyobj :=
  api_record (second_of_day i) (num i) "ug/m3".

(** [first], [first + 1], ..., [count] numbers in all. *)
Fixpoint range (first : Z) (count : nat) : list Z :=
  match count with
  | O => []
  | S count => first :: range (first + 1) count
  end.

(** Pages of 1000, 1000 and 200 records, newest record first, then
    nothing. *)
Definition three_page_source (r : request) : response :=
  match page_number r with
  | 1%nat => Results (record_at <$> reverse (range 1200 1000))
  | 2%nat => Results (record_at <$> reverse (range 200 1000))
  | 3%nat => Results (record_at <$> reverse (range 0 200))
  | _ => Results []
  end.

(** The same in small: pages of 3, 3 and 1 records. *)
Definition small_three_page_source (r : request) : response :=
  match page_number r with
  | 1%nat => Results (record_at <$> reverse (range 4 3))
  | 2%nat => Results (record_at <$> reverse (range 1 3))
  | 3%nat => Results (record_at <$> reverse (range 0 1))
  | _ => Results []
  end.

#[global] Instance request_eq_dec : EqDecision request.
Proof. solve_decision. Defined.

(** A record that carries no timestamp: the empty object. *)
Definition empty_record : pyobj := PyDict [].

(** A page whose second record has a timestamp that does not parse. *)
Definition page_with_bad_record : list pyobj :=
  [api_record "2024-01-01T00:00:00Z" (num 1) "ug/m3";
   api_record "not-a-date" (num 2) "ug/m3";
   api_record "2024-01-01T01:00:00Z" (num 3) "ug/m3"].

Definition bad_record_source (r : request) : response :=
  match page_number r with
  | 1%nat => Results page_with_bad_record
  | 2%nat => Results [api_record "2024-01-01T02:00:00Z" (num 4) "ug/m3"]
  | _ => Results []
  end.

(** What the daily fetch keeps of a measurement of the other fetch: the
    calendar day of its timestamp, and its value. *)
Definition to_daily (m : PointsLA.measurement) : DailyLA.measurement :=
  {| DailyLA.date := date_of (PointsLA.timestamp m);
     DailyLA.value := PointsLA.value m |}.

(** The row [create_daily_no2] writes for the day [d] of the frame [df]. *)
Definition daily_row (df : list DailyNO2.row) (d : Z) : DailyNO2.row :=
  {| DailyNO2.timestamp := midnight d;
     DailyNO2.no2_ug_m3 :=
       DailyNO2.round3
         <$> DailyNO2.mean
               (DailyNO2.no2_ug_m3
                  <$> filter (λ r, date_of (DailyNO2.timestamp r) = d) df) |}.

Definition hours (h : Z) : Z := h * 3600 * ns_per_second.

(** Two readings of 2024-01-01, at 02:00 and at 14:00. *)
Definition two_readings : list DailyNO2.row :=
  [ {| DailyNO2.timestamp := midnight 19723 + hours 2;
       DailyNO2.no2_ug_m3 := Some (Q2Qc 10) |};
    {| DailyNO2.timestamp := midnight 19723 + hours 14;
       DailyNO2.no2_ug_m3 := Some (Q2Qc 20) |} ].

(** Three readings of 2024-01-01, 10.0, 10.0 and 11.0: their mean is
    10.333... *)
Definition three_readings : list DailyNO2.row :=
  [ {| DailyNO2.timestamp := midnight 19723 + hours 2;
       DailyNO2.no2_ug_m3 := Some (Q2Qc 10) |};
    {| DailyNO2.timestamp := midnight 19723 + hours 8;
       DailyNO2.no2_ug_m3 := Some (Q2Qc 10) |};
    {| DailyNO2.timestamp := midnight 19723 + hours 14;
       DailyNO2.no2_ug_m3 := Some (Q2Qc 11) |} ].

(** A series that is daily already: one reading, 0.03125, on 2024-01-01. *)
Definition already_daily : list DailyNO2.row :=
  [ {| DailyNO2.timestamp := midnight 19723;
       DailyNO2.no2_ug_m3 := Some (Q2Qc (1 # 32)) |} ].

(** Pages that overlap: the NO2 sensor sends the record of 01:00 at the
    end of its first page and again at the start of its second page; the
    O3 sensor has nothing. *)
Definition overlapping_source (r : request) : response :=
  if bool_decide (sensor r = 25192) then
    match page_number r with
    | 1%nat => Results [api_record "2024-01-01T00:00:00Z" (num 5) "ug/m3";
                        api_record "2024-01-01T01:00:00Z" (num 6) "ug/m3"]
    | 2%nat => Results [api_record "2024-01-01T01:00:00Z" (num 6) "ug/m3";
                        api_record "2024-01-01T02:00:00Z" (num 7) "ug/m3"]
    | _ => Results []
    end
  else Results [].

(** The first value a frame holds at the timestamp [t], if it holds one. *)
Definition value_at (df : list PointsLA.measurement) (t : Z) : option pyobj :=
  PointsLA.value <$> head (filter (λ m, PointsLA.timestamp m = t) df).

(** A source that has nothing: every page is empty. *)
Definition exhausted_source (r : request) : response := Results [].

(** A source that is down: every request fails. *)
Definition down_source (r : request) : response := TransportError.

(** The cell [cell] is what the frame [right] has at the key [k]: the
    value of one of its rows with that key, or nothing when it has no such
    row. *)
Definition cell_agrees {R V : Type} (rkey : R → Z) (rval : R → V)
    (right : list R) (k : Z) (cell : option V) : Prop :=
  match cell with
  | Some v => ∃ r, r ∈ right ∧ rkey r = k ∧ rval r = v
  | None => k ∉ rkey <$> right
  end.

(** A stored table of the combined shape, with two rows, and the same
    table without its O3 column. *)
Definition stored_table : SplitAirQuality.frame :=
  {| SplitAirQuality.columns := ["timestamp"; "no2_ug_m3"; "o3_ug_m3"; "hcho_ug_m3"];
     SplitAirQuality.rows :=
       [ [PyStr "2024-01-01 00:00:00+00:00"; num 5; PyNone; PyNone];
         [PyStr "2024-01-01 01:00:00+00:00"; PyNone; num 7; PyNone] ] |}.

Definition stored_table_without_o3 : SplitAirQuality.frame :=
  {| SplitAirQuality.columns := ["timestamp"; "no2_ug_m3"];
     SplitAirQuality.rows :=
       [ [PyStr "2024-01-01 00:00:00+00:00"; num 5];
         [PyStr "2024-01-01 01:00:00+00:00"; PyNone] ] |}.

(** The cell of a row of [df] under the column [name]; [NaN] when the
    row is too short. *)
Definition cell_under (df : SplitAirQuality.frame) (name : string)
    (row : list pyobj) : pyobj :=
  default PyNone
    (SplitAirQuality.column_position name (SplitAirQuality.columns df) ≫= λ p, row !! p).

(** The table of the two columns [a] and [b] of [df]: every row of [df],
    in order, cut down to its cells under [a] and [b]. *)
Definition two_columns (df : SplitAirQuality.frame) (a b : string)
    : SplitAirQuality.frame :=
  {| SplitAirQuality.columns := [a; b];
     SplitAirQuality.rows :=
       (λ row, [cell_under df a row; cell_under df b row]) <$> SplitAirQuality.rows df |}.

(** Two hourly rows of 2024-01-02, neither with a value. *)
Definition day_without_values : list DailyNO2.row :=
  [ {| DailyNO2.timestamp := midnight 19724 + hours 3; DailyNO2.no2_ug_m3 := None |};
    {| DailyNO2.timestamp := midnight 19724 + hours 5; DailyNO2.no2_ug_m3 := None |} ].

(** The series A and B with the timestamps 1, 2 and 2, 3. *)
Definition series_a : list PointsLA.measurement :=
  [ {| PointsLA.timestamp := 1; PointsLA.value := num 5 |};
    {| PointsLA.timestamp := 2; PointsLA.value := num 6 |} ].

Definition series_b : list PointsLA.measurement :=
  [ {| PointsLA.timestamp := 2; PointsLA.value := num 7 |};
    {| PointsLA.timestamp := 3; PointsLA.value := num 8 |} ].

(** The first value a daily frame holds at the date [d], if it holds
    one. *)
Definition daily_value_at (df : list DailyLA.measurement) (d : Z) : option pyobj :=
  DailyLA.value <$> head (filter (λ m, DailyLA.date m = d) df).

(** Daily series with the dates 19723, 19724 and 19724, 19725. *)
Definition daily_series_a : list DailyLA.measurement :=
  [ {| DailyLA.date := 19723; DailyLA.value := num 5 |};
    {| DailyLA.date := 19724; DailyLA.value := num 6 |} ].

Definition daily_series_b : list DailyLA.measurement :=
  [ {| DailyLA.date := 19724; DailyLA.value := num 7 |};
    {| DailyLA.date := 19725; DailyLA.value := num 8 |} ].

(** ** Facts about the shared algorithm *)

Section PagedSeriesFetcherFacts.
Context {M : Type}.
Variable key : M → Z.
Variable make_request : nat → request.
Variable process : pyobj → option M.
Variable session_get : request → response.

Local Abbreviation loop := (paged_loop make_request process session_get).

Lemma paged_loop_enough_fuel target fuel page acc sent :
  (page ≤ 50)%nat → (51 ≤ fuel + page)%nat →
  is_Some (loop target fuel page acc sent).
Proof.
  revert page acc sent.
  induction fuel as [|fuel IH]; intros page acc sent Hpage Hfuel; [lia|].
  simpl. destruct (_ <? target); [|by eexists].
  destruct (session_get _) as [|results]; [by eexists|].
  case_bool_decide; [by eexists|].
  destruct (_ >=? target); [by eexists|].
  destruct (Nat.ltb_spec 50 (page + 1)); [by eexists|].
  apply IH; lia.
Qed.

Lemma paged_loop_sent_bound target fuel page acc sent outcome sent' :
  (page ≤ 50)%nat →
  loop target fuel page acc sent = Some (outcome, sent') →
  (length sent' + page ≤ length sent + 51)%nat.
Proof.
  revert page acc sent.
  induction fuel as [|fuel IH]; intros page acc sent Hpage; [done|].
  simpl. destruct (_ <? target); [|intros [= _ <-]; lia].
  destruct (session_get _) as [|results];
    [intros [= _ <-]; rewrite length_app; simpl; lia|].
  case_bool_decide; [intros [= _ <-]; rewrite length_app; simpl; lia|].
  destruct (_ >=? target); [intros [= _ <-]; rewrite length_app; simpl; lia|].
  destruct (Nat.ltb_spec 50 (page + 1));
    [intros [= _ <-]; rewrite length_app; simpl; lia|].
  intros Hloop. apply IH in Hloop; [|lia].
  rewrite length_app in Hloop. simpl in Hloop. lia.
Qed.

Lemma paged_loop_unfold target fuel page acc sent :
  loop target (S fuel) page acc sent =
  if Z.of_nat (length acc) <? target then
    match session_get (make_request page) with
    | TransportError => Some (Raised, sent ++ [make_request page])
    | Results results =>
        if bool_decide (results = []) then
          Some (Returned acc, sent ++ [make_request page])
        else if Z.of_nat (length (acc ++ omap process results)) >=? target then
          Some (Returned (acc ++ omap process results), sent ++ [make_request page])
        else if (50 <? page + 1)%nat then
          Some (Returned (acc ++ omap process results), sent ++ [make_request page])
        else
          loop target fuel (page + 1)%nat (acc ++ omap process results)
            (sent ++ [make_request page])
    end
  else Some (Returned acc, sent).
Proof. reflexivity. Qed.

(** The loop raises exactly when one of the requests it sent failed. *)
Lemma paged_loop_raised target fuel page acc sent outcome sent' :
  loop target fuel page acc sent = Some (outcome, sent') →
  Forall (λ r, session_get r ≠ TransportError) sent →
  outcome = Raised ↔ Exists (λ r, session_get r = TransportError) sent'.
Proof.
  revert page acc sent.
  induction fuel as [|fuel IH]; intros page acc sent; [done|].
  rewrite paged_loop_unfold.
  assert (Hno : ∀ l, Forall (λ r, session_get r ≠ TransportError) l →
                 ¬ Exists (λ r, session_get r = TransportError) l).
  { intros l Hl Hex. apply Exists_exists in Hex as (r & Hr & Hfail).
    rewrite Forall_forall in Hl. by apply (Hl r). }
  destruct (_ <? target).
  2:{ intros [= <- <-] Hsent. split; [done|]. intros Hex. by apply Hno in Hex. }
  destruct (session_get (make_request page)) as [|results] eqn:Hget.
  { intros [= <- <-] _. split; [|done]. intros _.
    apply Exists_app. right. by constructor. }
  assert (Hok : Forall (λ r, session_get r ≠ TransportError) sent →
                Forall (λ r, session_get r ≠ TransportError) (sent ++ [make_request page])).
  { intros Hsent. apply Forall_app. split; [done|].
    constructor; [|constructor]. by rewrite Hget. }
  case_bool_decide.
  { intros [= <- <-] Hsent. split; [done|]. intros Hex. by apply Hno in Hex; auto. }
  destruct (_ >=? target).
  { intros [= <- <-] Hsent. split; [done|]. intros Hex. by apply Hno in Hex; auto. }
  destruct (50 <? page + 1)%nat.
  { intros [= <- <-] Hsent. split; [done|]. intros Hex. by apply Hno in Hex; auto. }
  intros Hloop Hsent. eapply IH; eauto.
Qed.

Lemma paged_loop_same_contribution (session_get' : request → response)
    target fuel page acc sent :
  (∀ r, same_contribution process (session_get r) (session_get' r)) →
  loop target fuel page acc sent =
  paged_loop make_request process session_get' target fuel page acc sent.
Proof.
  intros Hsame. revert page acc sent.
  induction fuel as [|fuel IH]; intros page acc sent; [done|].
  simpl. destruct (_ <? target); [|done].
  specialize (Hsame (make_request page)).
  destruct (session_get _) as [|results], (session_get' _) as [|results'];
    simpl in Hsame; try done.
  destruct Hsame as [Hnil Heq].
  rewrite <- Heq.
  repeat case_bool_decide; try tauto; try done.
  destruct (_ >=? target); [done|].
  destruct (50 <? page + 1)%nat; [done|].
  apply IH.
Qed.

Lemma pages_from_S page count :
  pages_from make_request session_get page (S count) =
  records_of (session_get (make_request page))
  ++ pages_from make_request session_get (S page) count.
Proof. reflexivity. Qed.

(** When every page up to the fiftieth is non-empty and the measurements
    of all of them stay below the target, the loop sends the remaining
    requests up to page 50 and returns all it accumulated. *)
Lemma paged_loop_ceiling target fuel page acc sent :
  (1 ≤ page ≤ 50)%nat → (51 ≤ fuel + page)%nat →
  (∀ p, (page ≤ p ≤ 50)%nat →
     ∃ results, session_get (make_request p) = Results results ∧ results ≠ []) →
  Z.of_nat (length (acc ++ omap process
              (pages_from make_request session_get page (51 - page)))) < target →
  loop target fuel page acc sent =
  Some (Returned (acc ++ omap process
                    (pages_from make_request session_get page (51 - page))),
        sent ++ (make_request <$> seq page (51 - page))).
Proof.
  revert page acc sent.
  induction fuel as [|fuel IH]; intros page acc sent Hpage Hfuel Hpages Hlen; [lia|].
  rewrite paged_loop_unfold.
  replace (51 - page)%nat with (S (50 - page)) in * by lia.
  rewrite pages_from_S in *.
  destruct (Hpages page) as (results & Hget & Hne); [lia|].
  rewrite Hget in *. simpl records_of in *.
  rewrite omap_app, !length_app in Hlen.
  destruct (Z.ltb_spec (Z.of_nat (length acc)) target); [|lia].
  rewrite bool_decide_eq_false_2 by done.
  rewrite length_app.
  destruct (Z.geb_spec (Z.of_nat (length acc + length (omap process results))) target);
    [lia|].
  destruct (Nat.ltb_spec 50 (page + 1)).
  - assert (page = 50%nat) as -> by lia. simpl.
    by rewrite !app_nil_r.
  - rewrite IH; try lia.
    + replace (51 - (page + 1))%nat with (50 - page)%nat by lia.
      replace (page + 1)%nat with (S page) by lia.
      rewrite omap_app. simpl. by rewrite <- !(assoc_L (++)).
    + intros p Hp. apply Hpages. lia.
    + replace (51 - (page + 1))%nat with (50 - page)%nat by lia.
      replace (page + 1)%nat with (S page) by lia.
      rewrite !length_app. lia.
Qed.

End PagedSeriesFetcherFacts.

(** ** Facts about the pandas operations *)

Section SortBy.
Context {A : Type}.
Variable key : A → Z.

Lemma sort_insert_Permutation (x : A) (l : list A) : sort_insert key x l ≡ₚ x :: l.
Proof.
  induction l as [|y l IH]; [done|]. simpl.
  destruct (key x <=? key y); [done|].
  rewrite IH. apply Permutation_swap.
Qed.

Lemma sort_by_Permutation (l : list A) : sort_by key l ≡ₚ l.
Proof.
  induction l as [|x l IH]; [done|].
  unfold sort_by in *. simpl. by rewrite sort_insert_Permutation, IH.
Qed.

Lemma sort_insert_StronglySorted (x : A) (l : list A) :
  StronglySorted (key_le key) l → StronglySorted (key_le key) (sort_insert key x l).
Proof.
  induction 1 as [|y l Hl IH Hy]; simpl; [by repeat constructor|].
  destruct (Z.leb_spec (key x) (key y)).
  - constructor; [by constructor|]. constructor; [done|].
    eapply Forall_impl; [exact Hy|]. unfold key_le. intros z Hz. simpl in *. lia.
  - constructor; [done|].
    rewrite sort_insert_Permutation. constructor; [|done]. unfold key_le. lia.
Qed.

Lemma StronglySorted_sort_by (l : list A) : StronglySorted (key_le key) (sort_by key l).
Proof.
  induction l as [|x l IH]; [constructor|].
  by apply sort_insert_StronglySorted.
Qed.

Lemma Sorted_sort_by (l : list A) : Sorted (key_le key) (sort_by key l).
Proof. apply StronglySorted_Sorted, StronglySorted_sort_by. Qed.

(** Rows with equal keys keep their order: a row goes in front of the
    first row whose key is not smaller than its own. *)
Lemma sort_by_ascending (l : list A) :
  StronglySorted (key_le key) l → sort_by key l = l.
Proof.
  induction 1 as [|x l Hl IH Hx]; [done|].
  unfold sort_by in *. simpl. rewrite IH.
  destruct l as [|y l]; [done|]. simpl.
  apply Forall_cons_1 in Hx as [Hxy _]. unfold key_le in Hxy.
  by destruct (Z.leb_spec (key x) (key y)); [|lia].
Qed.

End SortBy.

Lemma trim_spec {A : Type} (target_points : nat) (df : list A) :
  trim (Z.of_nat target_points) df =
  if decide (target_points < length df)%nat
  then drop (length df - target_points) df
  else df.
Proof.
  unfold trim, df_tail.
  destruct (Z.ltb_spec (Z.of_nat target_points) (Z.of_nat (length df)));
    case_decide; try lia; [|done].
  destruct (Z.eqb_spec (Z.of_nat target_points) 0) as [Hz|Hz].
  - assert (target_points = 0%nat) as -> by lia.
    by rewrite Nat.sub_0_r, drop_all.
  - destruct (Z.ltb_spec 0 (Z.of_nat target_points)); [|lia].
    by rewrite Nat2Z.id.
Qed.

Lemma trim_noop {A : Type} (target_points : Z) (df : list A) :
  Z.of_nat (length df) ≤ target_points → trim target_points df = df.
Proof.
  intros Hle. unfold trim.
  by destruct (Z.ltb_spec target_points (Z.of_nat (length df))); [lia|].
Qed.

Lemma trim_length {A : Type} (target_points : nat) (df : list A) :
  length (trim (Z.of_nat target_points) df) = (target_points `min` length df)%nat.
Proof.
  rewrite trim_spec. case_decide; [rewrite length_drop|]; lia.
Qed.

(** What [trim] returns is the end of the frame it is given. *)
Lemma trim_suffix {A : Type} (target_points : Z) (df : list A) :
  ∃ older, df = older ++ trim target_points df.
Proof.
  unfold trim, df_tail.
  destruct (target_points <? Z.of_nat (length df)); [|by exists []].
  destruct (target_points =? 0); [exists df; by rewrite app_nil_r|].
  destruct (0 <? target_points); eexists; symmetry; apply take_drop.
Qed.

Lemma trim_bound {A : Type} (target_points : Z) (df : list A) :
  0 ≤ target_points → Z.of_nat (length (trim target_points df)) ≤ target_points.
Proof.
  intros Hpos. replace target_points with (Z.of_nat (Z.to_nat target_points)) by lia.
  rewrite trim_length. lia.
Qed.

Lemma sorted_keys_elem_of (s : gset Z) (k : Z) : k ∈ sorted_keys s ↔ k ∈ s.
Proof.
  unfold sorted_keys. rewrite merge_sort_Permutation. apply elem_of_elements.
Qed.

Lemma sorted_keys_NoDup (s : gset Z) : NoDup (sorted_keys s).
Proof.
  unfold sorted_keys. rewrite merge_sort_Permutation. apply NoDup_elements.
Qed.

Lemma sorted_keys_Sorted (s : gset Z) : Sorted Z.le (sorted_keys s).
Proof. apply (Sorted_merge_sort Z.le). Qed.

(** A list in ascending order without repetition is in strictly
    ascending order. *)
Lemma Sorted_le_NoDup_lt (l : list Z) :
  Sorted Z.le l → NoDup l → StronglySorted Z.lt l.
Proof.
  intros Hs%(Sorted_StronglySorted _). induction Hs as [|x l Hs IH Hx];
    intros Hnd; [constructor|].
  apply NoDup_cons in Hnd as [Hnotin Hnd].
  constructor; [auto|].
  rewrite Forall_forall in Hx |- *. intros y Hy.
  specialize (Hx y Hy). assert (x ≠ y) by (intros ->; done). lia.
Qed.

Lemma sorted_keys_strictly_ascending (s : gset Z) :
  StronglySorted Z.lt (sorted_keys s).
Proof. auto using Sorted_le_NoDup_lt, sorted_keys_Sorted, sorted_keys_NoDup. Qed.

(** The sorted keys of the set of a list that is already in strictly
    ascending order are that list. *)
Lemma sorted_keys_of_ascending (l : list Z) :
  StronglySorted Z.lt l → sorted_keys (list_to_set l) = l.
Proof.
  intros Hl.
  assert (NoDup l) as Hnd.
  { induction Hl as [|x l Hl IH Hx]; constructor; [|done].
    intros Hin. rewrite Forall_forall in Hx. specialize (Hx x Hin). lia. }
  apply (Sorted_unique Z.le).
  - apply sorted_keys_Sorted.
  - apply StronglySorted_Sorted.
    rewrite <- (list_fmap_id l).
    apply (StronglySorted_fmap id Z.lt Z.le); [|done]. intros; simpl; lia.
  - unfold sorted_keys. rewrite merge_sort_Permutation.
    by apply elements_list_to_set.
Qed.

(** ** The fetch functions are instances of the shared algorithm *)

Section Refinement.
Variable to_datetime : pyobj → try Z.
Variable session_get : request → response.

Lemma points_process_results_app parameter_name results all_measurements :
  PointsLA.process_results to_datetime parameter_name results all_measurements =
  all_measurements ++ omap (PointsLA.process_record to_datetime parameter_name) results.
Proof.
  unfold PointsLA.process_results. revert all_measurements.
  induction results as [|record results IH]; intros acc; simpl.
  - by rewrite app_nil_r.
  - rewrite IH. destruct (PointsLA.process_record _ _ record); [|done].
    by rewrite <- (assoc_L (++)).
Qed.

Lemma daily_process_results_app parameter_name results all_measurements :
  DailyLA.process_results to_datetime parameter_name results all_measurements =
  all_measurements ++ omap (DailyLA.process_record to_datetime parameter_name) results.
Proof.
  unfold DailyLA.process_results. revert all_measurements.
  induction results as [|record results IH]; intros acc; simpl.
  - by rewrite app_nil_r.
  - rewrite IH. destruct (DailyLA.process_record _ _ record); [|done].
    by rewrite <- (assoc_L (++)).
Qed.

Lemma points_fetch_loop_paged sensor_id parameter_name target fuel page acc sent :
  PointsLA.fetch_loop to_datetime session_get sensor_id parameter_name target
    fuel page acc sent =
  paged_loop (PointsLA.measurements_request sensor_id)
    (PointsLA.process_record to_datetime parameter_name) session_get
    target fuel page acc sent.
Proof.
  revert page acc sent. induction fuel as [|fuel IH]; intros page acc sent; [done|].
  simpl. destruct (_ <? target); [|done].
  destruct (session_get _) as [|results]; [done|].
  case_bool_decide; [done|].
  rewrite points_process_results_app.
  destruct (_ >=? target); [done|].
  destruct (50 <? page + 1)%nat; [done|].
  apply IH.
Qed.

Lemma daily_fetch_loop_paged sensor_id parameter_name target fuel page acc sent :
  DailyLA.fetch_loop to_datetime session_get sensor_id parameter_name target
    fuel page acc sent =
  paged_loop (DailyLA.days_request sensor_id)
    (DailyLA.process_record to_datetime parameter_name) session_get
    target fuel page acc sent.
Proof.
  revert page acc sent. induction fuel as [|fuel IH]; intros page acc sent; [done|].
  simpl. destruct (_ <? target); [|done].
  destruct (session_get _) as [|results]; [done|].
  case_bool_decide; [done|].
  rewrite daily_process_results_app.
  destruct (_ >=? target); [done|].
  destruct (50 <? page + 1)%nat; [done|].
  apply IH.
Qed.

Lemma points_extract_paged sensor_id parameter_name target :
  PointsLA.extract_measurements_from_sensor to_datetime session_get
    sensor_id parameter_name target =
  paged_series_fetcher PointsLA.timestamp (PointsLA.measurements_request sensor_id)
    (PointsLA.process_record to_datetime parameter_name) session_get target.
Proof.
  unfold PointsLA.extract_measurements_from_sensor, paged_series_fetcher.
  by rewrite points_fetch_loop_paged.
Qed.

Lemma daily_extract_paged sensor_id parameter_name target :
  DailyLA.extract_daily_measurements_from_sensor to_datetime session_get
    sensor_id parameter_name target =
  paged_series_fetcher DailyLA.date (DailyLA.days_request sensor_id)
    (DailyLA.process_record to_datetime parameter_name) session_get target.
Proof.
  unfold DailyLA.extract_daily_measurements_from_sensor, paged_series_fetcher.
  by rewrite daily_fetch_loop_paged.
Qed.

End Refinement.

(** ** The fetch as a whole *)

Section PagedSeriesFetcherResults.
Context {M : Type}.
Variable key : M → Z.
Variable make_request : nat → request.
Variable process : pyobj → option M.
Variable session_get : request → response.

Local Abbreviation fetch := (paged_series_fetcher key make_request process session_get).

(** The fetch returns, and it sent at most 50 requests. *)
Lemma paged_series_fetcher_returns target :
  ∃ series sent, fetch target = Some (series, sent) ∧ (length sent ≤ 50)%nat.
Proof.
  unfold paged_series_fetcher.
  destruct (paged_loop_enough_fuel make_request process session_get target 50 1 [] [])
    as [[outcome sent] Hloop]; [lia..|].
  rewrite Hloop. simpl. eexists _, _. split; [done|].
  apply paged_loop_sent_bound in Hloop; [|lia]. simpl in Hloop. lia.
Qed.

(** A failed request empties the result. *)
Lemma paged_series_fetcher_failure target series sent :
  fetch target = Some (series, sent) →
  (∃ r, r ∈ sent ∧ session_get r = TransportError) →
  series = [].
Proof.
  unfold paged_series_fetcher.
  destruct (paged_loop _ _ _ _ _ _ _ _) as [[outcome sent']|] eqn:Hloop; [|done].
  simpl. intros [= <- <-] Hfail.
  apply paged_loop_raised in Hloop; [|constructor].
  apply Exists_exists, Hloop in Hfail. by subst.
Qed.

Lemma sort_trim_below target acc :
  Z.of_nat (length acc) ≤ target →
  sort_trim key target acc = sort_by key acc.
Proof.
  intros Hlen. unfold sort_trim.
  destruct (Z.ltb_spec 0 (Z.of_nat (length acc))).
  - apply trim_noop. by rewrite sort_by_Permutation.
  - by destruct acc; simpl in *; [|lia].
Qed.

(** The soft stop at the page ceiling. *)
Lemma paged_series_fetcher_ceiling target :
  (∀ p, (1 ≤ p ≤ 50)%nat →
     ∃ results, session_get (make_request p) = Results results ∧ results ≠ []) →
  Z.of_nat (length (omap process (pages_from make_request session_get 1 50))) < target →
  fetch target =
  Some (sort_by key (omap process (pages_from make_request session_get 1 50)),
        make_request <$> seq 1 50).
Proof.
  intros Hpages Hlen. unfold paged_series_fetcher.
  rewrite (paged_loop_ceiling make_request process session_get target 50 1 [] []);
    [|lia|lia|done|done].
  simpl. by rewrite sort_trim_below by lia.
Qed.

#[global] Instance key_le_total : Total (key_le key).
Proof. intros a b. unfold key_le. lia. Qed.

#[global] Instance key_le_trans : Transitive (key_le key).
Proof. intros a b c. unfold key_le. lia. Qed.

(** Above the target the frame is the trailing part of the sorted
    accumulator. *)
Lemma sort_trim_above (target : nat) acc :
  (target < length acc)%nat →
  ∃ older,
    sort_by key acc = older ++ sort_trim key (Z.of_nat target) acc
    ∧ length older = (length acc - target)%nat
    ∧ length (sort_trim key (Z.of_nat target) acc) = target.
Proof.
  intros Hlen. unfold sort_trim.
  destruct (Z.ltb_spec 0 (Z.of_nat (length acc))); [|lia].
  assert (Hsorted : length (sort_by key acc) = length acc)
    by by rewrite sort_by_Permutation.
  exists (take (length acc - target) (sort_by key acc)).
  rewrite trim_spec, Hsorted.
  case_decide; [|lia].
  rewrite take_drop, length_take, length_drop, Hsorted. repeat split; lia.
Qed.

(** A fetch that reaches the target on its second page. *)
Lemma paged_series_fetcher_two_pages target results1 results2 :
  session_get (make_request 1) = Results results1 →
  session_get (make_request 2) = Results results2 →
  results1 ≠ [] → results2 ≠ [] →
  Z.of_nat (length (omap process results1)) < target →
  target ≤ Z.of_nat (length (omap process (results1 ++ results2))) →
  fetch target =
  Some (sort_trim key target (omap process (results1 ++ results2)),
        [make_request 1; make_request 2]).
Proof.
  intros Hget1 Hget2 Hne1 Hne2 Hbelow Hreached.
  unfold paged_series_fetcher.
  change 50%nat with (S (S 48)).
  rewrite paged_loop_unfold, Hget1.
  change (length (@nil M)) with 0%nat. change ([] ++ ?l) with l.
  destruct (Z.ltb_spec (Z.of_nat 0) target); [|lia].
  rewrite bool_decide_eq_false_2 by done.
  destruct (Z.geb_spec (Z.of_nat (length (omap process results1))) target); [lia|].
  change (50 <? 1 + 1)%nat with false. change (1 + 1)%nat with 2%nat.
  rewrite paged_loop_unfold, Hget2, <- omap_app.
  destruct (Z.ltb_spec (Z.of_nat (length (omap process results1))) target); [|lia].
  rewrite bool_decide_eq_false_2 by done.
  by destruct (Z.geb_spec (Z.of_nat (length (omap process (results1 ++ results2))))
              target); [|lia].
Qed.

Lemma omap_length_all (results : list pyobj) :
  Forall (λ record, is_Some (process record)) results →
  length (omap process results) = length results.
Proof.
  induction 1 as [|record results [m Hm] _ IH]; [done|].
  csimpl. rewrite Hm. simpl. by rewrite IH.
Qed.

End PagedSeriesFetcherResults.

(** ** Unit conversion *)

Lemma ascii_lower_p (c : ascii) :
  ascii_lower c = "p"%char ↔ c = "p"%char ∨ c = "P"%char.
Proof.
  destruct c as [[] [] [] [] [] [] [] []]; vm_compute;
    (split; [intros H; first [by left | by right | discriminate H]
            |intros [H|H]; first [reflexivity | discriminate H]]).
Qed.

Lemma ascii_lower_m (c : ascii) :
  ascii_lower c = "m"%char ↔ c = "m"%char ∨ c = "M"%char.
Proof.
  destruct c as [[] [] [] [] [] [] [] []]; vm_compute;
    (split; [intros H; first [by left | by right | discriminate H]
            |intros [H|H]; first [reflexivity | discriminate H]]).
Qed.

(** [unit.lower() == "ppm"] holds of the eight spellings of "ppm" and of
    no other string. *)
Lemma lower_is_ppm (unit : string) :
  lower unit = "ppm" ↔ unit ∈ ppm_in_any_case.
Proof.
  split.
  - destruct unit as [|c1 [|c2 [|c3 [|c4 rest]]]]; simpl; try discriminate.
    intros [= [-> | ->]%ascii_lower_p [-> | ->]%ascii_lower_p [-> | ->]%ascii_lower_m];
      apply list_elem_of_In; simpl; tauto.
  - intros Hin. unfold ppm_in_any_case in Hin.
    repeat (apply elem_of_cons in Hin as [-> | Hin]; [reflexivity|]).
    by apply elem_of_nil in Hin.
Qed.

(** C3. The conversion of a numeric value with a string unit never raises.
    When the unit is "ppm" in any letter case the value is multiplied by
    1880 for NO2, by 1960 for O3 and by 1230 for HCHO; with any other unit
    (the canonical "ug/m3", an unknown string) the value is returned
    unchanged.  In particular 1.0 ppm of NO2 is 1880.0 and 5.0 ug/m3 of O3
    stays 5.0; 1.0 PPM of NO2 is 1880.0, 2.0 Ppm of HCHO is 2460.0, and 3.0
    of the unknown unit "ppb" stays 3.0. *)
Theorem C3_unit_conversion :
  (∀ (value : Qc) (unit : string) (p : pollutant),
     PointsLA.convert (pollutant_name p) (PyStr unit) (PyNum value) =
     Returned (PyNum (if bool_decide (unit ∈ ppm_in_any_case)
                      then (value * Q2Qc (inject_Z (factor p)))%Qc
                      else value)))
  ∧ PointsLA.convert "no2" (PyStr "ppm") (num 1) = Returned (num 1880)
  ∧ PointsLA.convert "o3" (PyStr "ug/m3") (num 5) = Returned (num 5)
  ∧ PointsLA.convert "NO2" (PyStr "PPM") (num 1) = Returned (num 1880)
  ∧ PointsLA.convert "hcho" (PyStr "Ppm") (num 2) = Returned (num 2460)
  ∧ PointsLA.convert "no2" (PyStr "ppb") (num 3) = Returned (num 3).
Proof.
  split; [|repeat split; vm_compute; reflexivity].
  intros value unit p. unfold PointsLA.convert. simpl.
  destruct (String.eqb_spec (lower unit) "ppm") as [Hppm | Hother].
  - rewrite bool_decide_eq_true_2 by by apply lower_is_ppm. by destruct p.
  - rewrite bool_decide_eq_false_2; [done|]. by rewrite <- lower_is_ppm.
Qed.

(** ** Trimming *)

(** C9. Trimming a table to [target_points] rows returns its trailing
    [target_points] rows, in unchanged order, when it has more rows than
    that, and the table itself otherwise; a table of 1500 rows trimmed to
    1000 keeps exactly its rows 501 to 1500. *)
Theorem C9_trim_keeps_trailing_rows {A : Type} (table : list A) (target_points : nat) :
  trim (Z.of_nat target_points) table =
    (if decide (target_points < length table)%nat
     then drop (length table - target_points) table
     else table)
  ∧ length (trim (Z.of_nat target_points) table) = (target_points `min` length table)%nat
  ∧ (length table = 1500%nat →
     trim 1000 table = drop 500 table ∧ length (trim 1000 table) = 1000%nat).
Proof.
  split; [apply trim_spec|]. split; [apply trim_length|].
  intros Hlen. change 1000 with (Z.of_nat 1000).
  rewrite trim_length, trim_spec, Hlen. by case_decide; [|lia].
Qed.

Lemma C9_trim_witness :
  trim 1000 (range 1 1500) = range 501 1000
  ∧ length (trim 1000 (range 1 1500)) = 1000%nat.
Proof.
  destruct (C9_trim_keeps_trailing_rows (range 1 1500) 1000) as (_ & _ & Hrows).
  destruct Hrows as [Htrim Hlen]; [reflexivity|].
  split; [|exact Hlen].
  rewrite Htrim. vm_compute. reflexivity.
Defined.

(** ** Transport errors *)

(** C1 as it is stated fails.  The first page contributes one
    measurement, the second request fails, and the function returns the
    empty frame: the measurement of the first page is not in it. *)
Lemma C1_failure_discards_accumulated :
  PointsLA.process_record to_datetime_iso "no2"
    (api_record "2024-01-01T00:00:00Z" (num 5) "ug/m3")
  = Some {| PointsLA.timestamp := 1704067200000000000; PointsLA.value := num 5 |}
  ∧ failing_source (PointsLA.measurements_request 25192 2) = TransportError
  ∧ PointsLA.extract_measurements_from_sensor to_datetime_iso failing_source 25192 "no2" 2
    = Some ([], [PointsLA.measurements_request 25192 1;
                 PointsLA.measurements_request 25192 2])
  ∧ DailyLA.extract_daily_measurements_from_sensor to_datetime_iso failing_source 25192 "no2" 2
    = Some ([], [DailyLA.days_request 25192 1; DailyLA.days_request 25192 2]).
Proof. repeat split; vm_compute; reflexivity. Qed.

(** C1, amended.  Both fetch functions always return a frame, never an
    error; when one of the requests they sent met a transport error, the
    frame is empty: the measurements accumulated from the earlier pages
    are discarded. *)
Theorem C1_transport_error_returns_empty
    (to_datetime : pyobj → try Z) (session_get : request → response)
    (sensor_id : Z) (parameter_name : string) (target_points : Z) :
  (∃ series sent,
     PointsLA.extract_measurements_from_sensor to_datetime session_get
       sensor_id parameter_name target_points = Some (series, sent)
     ∧ ((∃ r, r ∈ sent ∧ session_get r = TransportError) → series = []))
  ∧ (∃ series sent,
       DailyLA.extract_daily_measurements_from_sensor to_datetime session_get
         sensor_id parameter_name target_points = Some (series, sent)
       ∧ ((∃ r, r ∈ sent ∧ session_get r = TransportError) → series = [])).
Proof.
  split.
  - rewrite points_extract_paged.
    destruct (paged_series_fetcher_returns PointsLA.timestamp
                (PointsLA.measurements_request sensor_id)
                (PointsLA.process_record to_datetime parameter_name)
                session_get target_points) as (series & sent & Hfetch & _).
    exists series, sent. split; [done|].
    by apply paged_series_fetcher_failure with (1 := Hfetch).
  - rewrite daily_extract_paged.
    destruct (paged_series_fetcher_returns DailyLA.date
                (DailyLA.days_request sensor_id)
                (DailyLA.process_record to_datetime parameter_name)
                session_get target_points) as (series & sent & Hfetch & _).
    exists series, sent. split; [done|].
    by apply paged_series_fetcher_failure with (1 := Hfetch).
Qed.

Lemma C1_transport_error_witness :
  ∃ sent,
    PointsLA.extract_measurements_from_sensor to_datetime_iso failing_source
      25192 "no2" 2 = Some ([], sent)
    ∧ PointsLA.measurements_request 25192 2 ∈ sent.
Proof.
  destruct (C1_transport_error_returns_empty to_datetime_iso failing_source
              25192 "no2" 2) as [(series & sent & Hfetch & Hfail) _].
  assert (Hsent : sent = [PointsLA.measurements_request 25192 1;
                          PointsLA.measurements_request 25192 2]).
  { vm_compute in Hfetch. by injection Hfetch as _ <-. }
  assert (Hin : PointsLA.measurements_request 25192 2 ∈ sent).
  { rewrite Hsent. apply list_elem_of_In. right. left. reflexivity. }
  exists sent. split; [|exact Hin].
  rewrite Hfetch. rewrite Hfail; [reflexivity|].
  exists (PointsLA.measurements_request 25192 2). split; [exact Hin|reflexivity].
Defined.

(** ** The page ceiling *)

(** C6. For every source both fetch functions return after at most 50
    page requests.  When all 50 pages are non-empty and their
    measurements together stay below [target_points], the requests are
    those for pages 1 to 50 and the frame returned holds every
    measurement accumulated from them, sorted. *)
Theorem C6_at_most_fifty_pages
    (to_datetime : pyobj → try Z) (session_get : request → response)
    (sensor_id : Z) (parameter_name : string) (target_points : Z) :
  (∃ series sent,
     PointsLA.extract_measurements_from_sensor to_datetime session_get
       sensor_id parameter_name target_points = Some (series, sent)
     ∧ (length sent ≤ 50)%nat)
  ∧ (∃ series sent,
       DailyLA.extract_daily_measurements_from_sensor to_datetime session_get
         sensor_id parameter_name target_points = Some (series, sent)
       ∧ (length sent ≤ 50)%nat)
  ∧ (∀ accumulated,
       accumulated = omap (PointsLA.process_record to_datetime parameter_name)
         (pages_from (PointsLA.measurements_request sensor_id) session_get 1 50) →
       (∀ p, (1 ≤ p ≤ 50)%nat →
          ∃ results, session_get (PointsLA.measurements_request sensor_id p)
                     = Results results ∧ results ≠ []) →
       Z.of_nat (length accumulated) < target_points →
       PointsLA.extract_measurements_from_sensor to_datetime session_get
         sensor_id parameter_name target_points
       = Some (PointsLA.sort_values accumulated,
               PointsLA.measurements_request sensor_id <$> seq 1 50)
       ∧ PointsLA.sort_values accumulated ≡ₚ accumulated)
  ∧ (∀ accumulated,
       accumulated = omap (DailyLA.process_record to_datetime parameter_name)
         (pages_from (DailyLA.days_request sensor_id) session_get 1 50) →
       (∀ p, (1 ≤ p ≤ 50)%nat →
          ∃ results, session_get (DailyLA.days_request sensor_id p)
                     = Results results ∧ results ≠ []) →
       Z.of_nat (length accumulated) < target_points →
       DailyLA.extract_daily_measurements_from_sensor to_datetime session_get
         sensor_id parameter_name target_points
       = Some (DailyLA.sort_values accumulated,
               DailyLA.days_request sensor_id <$> seq 1 50)
       ∧ DailyLA.sort_values accumulated ≡ₚ accumulated).
Proof.
  rewrite points_extract_paged, daily_extract_paged.
  split; [apply paged_series_fetcher_returns|].
  split; [apply paged_series_fetcher_returns|].
  split; intros accumulated -> Hpages Hlen.
  - split; [|apply sort_by_Permutation].
    by apply paged_series_fetcher_ceiling.
  - split; [|apply sort_by_Permutation].
    by apply paged_series_fetcher_ceiling.
Qed.

Lemma C6_ceiling_witness :
  ∃ series,
    PointsLA.extract_measurements_from_sensor to_datetime_iso endless_source
      25192 "no2" 100
    = Some (series, PointsLA.measurements_request 25192 <$> seq 1 50)
    ∧ length series = 50%nat.
Proof.
  destruct (C6_at_most_fifty_pages to_datetime_iso endless_source 25192 "no2" 100)
    as (_ & _ & Hceiling & _).
  edestruct (Hceiling _ eq_refl) as [Hfetch Hperm].
  - intros p _. eexists. split; [reflexivity|discriminate].
  - vm_compute. reflexivity.
  - eexists. split; [exact Hfetch|].
    rewrite Hperm. vm_compute. reflexivity.
Defined.

(** ** Reaching the target *)

(** C2. Let the first three pages hold 1000, 1000 and 200 records, each
    of which yields a measurement, and let the fourth be empty.  With
    [target_points = 1500] the function requests pages 1 and 2 and no
    other.  It sorts the 2000 accumulated measurements once and returns
    the trailing 1500 of them: a frame of exactly 1500 rows in ascending
    order of timestamp, none of them older than any of the 500 rows that
    were cut. *)
Theorem C2_stops_after_second_page
    (to_datetime : pyobj → try Z) (session_get : request → response)
    (sensor_id : Z) (parameter_name : string) (page1 page2 page3 : list pyobj) :
  session_get (PointsLA.measurements_request sensor_id 1) = Results page1 →
  session_get (PointsLA.measurements_request sensor_id 2) = Results page2 →
  session_get (PointsLA.measurements_request sensor_id 3) = Results page3 →
  session_get (PointsLA.measurements_request sensor_id 4) = Results [] →
  length page1 = 1000%nat → length page2 = 1000%nat → length page3 = 200%nat →
  Forall (λ record, is_Some (PointsLA.process_record to_datetime parameter_name record))
    (page1 ++ page2 ++ page3) →
  ∃ series cut accumulated,
    accumulated = omap (PointsLA.process_record to_datetime parameter_name) (page1 ++ page2)
    ∧ PointsLA.extract_measurements_from_sensor to_datetime session_get
        sensor_id parameter_name 1500
      = Some (series, [PointsLA.measurements_request sensor_id 1;
                       PointsLA.measurements_request sensor_id 2])
    ∧ length accumulated = 2000%nat
    ∧ length series = 1500%nat
    ∧ length cut = 500%nat
    ∧ PointsLA.sort_values accumulated = cut ++ series
    ∧ cut ++ series ≡ₚ accumulated
    ∧ Sorted PointsLA.timestamp_le series
    ∧ ∀ old kept, old ∈ cut → kept ∈ series →
        PointsLA.timestamp old ≤ PointsLA.timestamp kept.
Proof.
  intros Hget1 Hget2 _ _ Hlen1 Hlen2 _ Hvalid.
  apply Forall_app in Hvalid as [Hvalid1 Hvalid23].
  apply Forall_app in Hvalid23 as [Hvalid2 _].
  pose proof (omap_length_all _ _ Hvalid1) as Hacc1.
  pose proof (omap_length_all _ _ Hvalid2) as Hacc2.
  set (process := PointsLA.process_record to_datetime parameter_name) in *.
  assert (Hacc : length (omap process (page1 ++ page2)) = 2000%nat).
  { rewrite omap_app, length_app. lia. }
  destruct (sort_trim_above PointsLA.timestamp 1500 (omap process (page1 ++ page2)))
    as (cut & Hsplit & Hcut & Hseries); [lia|].
  change (Z.of_nat 1500) with 1500 in *.
  assert (Hsorted : StronglySorted (key_le PointsLA.timestamp)
                      (cut ++ sort_trim PointsLA.timestamp 1500
                                (omap process (page1 ++ page2)))).
  { rewrite <- Hsplit. apply StronglySorted_sort_by. }
  exists (sort_trim PointsLA.timestamp 1500 (omap process (page1 ++ page2))), cut,
    (omap process (page1 ++ page2)).
  split; [reflexivity|].
  split.
  { rewrite points_extract_paged.
    apply paged_series_fetcher_two_pages; try done.
    - intros ->. done.
    - intros ->. done.
    - fold process. lia.
    - fold process. lia. }
  repeat split.
  - done.
  - done.
  - lia.
  - exact Hsplit.
  - rewrite <- Hsplit. apply sort_by_Permutation.
  - apply StronglySorted_Sorted. by apply StronglySorted_app_1_r in Hsorted.
  - intros old kept Hold Hkept.
    exact (StronglySorted_app_1_elem_of _ _ _ _ _ Hsorted Hold Hkept).
Qed.

Lemma C2_three_page_witness :
  ∃ series,
    PointsLA.extract_measurements_from_sensor to_datetime_iso three_page_source
      25192 "no2" 1500
    = Some (series, [PointsLA.measurements_request 25192 1;
                     PointsLA.measurements_request 25192 2])
    ∧ length series = 1500%nat
    ∧ Sorted PointsLA.timestamp_le series.
Proof.
  destruct (C2_stops_after_second_page to_datetime_iso three_page_source 25192 "no2"
              _ _ _ eq_refl eq_refl eq_refl eq_refl)
    as (series & cut & accumulated & _ & Hfetch & _ & Hlen & _ & _ & _ & Hsorted & _).
  - vm_compute. reflexivity.
  - vm_compute. reflexivity.
  - vm_compute. reflexivity.
  - apply (bool_decide_unpack _). vm_compute. reflexivity.
  - exists series. split; [exact Hfetch|]. split; [exact Hlen|exact Hsorted].
Defined.

(** In small: with pages of 3, 3 and 1 records and a target of 4, the
    frame holds the seconds 3 to 6 of the day, oldest first, and the third
    page is not requested. *)
Example small_three_page_source_frame :
  PointsLA.extract_measurements_from_sensor to_datetime_iso small_three_page_source
    25192 "no2" 4
  = Some ((λ i, {| PointsLA.timestamp := (1704067200 + i) * ns_per_second;
                   PointsLA.value := num i |}) <$> range 3 4,
          [PointsLA.measurements_request 25192 1;
           PointsLA.measurements_request 25192 2]).
Proof. vm_compute. reflexivity. Qed.

(** ** Malformed records *)

Lemma points_empty_record_skipped to_datetime parameter_name :
  PointsLA.process_record to_datetime parameter_name empty_record = None.
Proof. reflexivity. Qed.

Lemma daily_empty_record_skipped to_datetime parameter_name :
  DailyLA.process_record to_datetime parameter_name empty_record = None.
Proof. reflexivity. Qed.

(** Replacing, on one page, a record that contributes nothing by another
    one that contributes nothing is invisible to the fetch. *)
Lemma paged_series_fetcher_skipped_record {M : Type} (key : M → Z)
    (make_request : nat → request) (process : pyobj → option M)
    (session_get : request → response) (target : Z) (page : nat)
    (before after : list pyobj) (bad other : pyobj) :
  process bad = None → process other = None →
  session_get (make_request page) = Results (before ++ bad :: after) →
  paged_series_fetcher key make_request process session_get target =
  paged_series_fetcher key make_request process
    (<[make_request page := Results (before ++ other :: after)]> session_get) target.
Proof.
  intros Hbad Hother Hget. unfold paged_series_fetcher.
  rewrite (paged_loop_same_contribution make_request process session_get
             (<[make_request page := Results (before ++ other :: after)]> session_get));
    [done|].
  intros r. destruct (decide (r = make_request page)) as [->|Hne].
  - rewrite fn_lookup_insert, Hget. simpl. split.
    + split; intros Hnil; by destruct before.
    + rewrite !omap_app. csimpl. by rewrite Hbad, Hother.
  - rewrite fn_lookup_insert_ne by done.
    destruct (session_get r); simpl; done.
Qed.

(** C10. A record on which the body of the inner [try] raises (as it does
    on a timestamp string that [pd.to_datetime] rejects) contributes
    nothing and disturbs nothing: the page yields the measurements of the
    records before it, appended to what was accumulated, followed by those
    of the records after it; and the whole fetch returns what it would
    return if that record were an empty object, which has no timestamp and
    is skipped.  This holds for both fetch functions. *)
Theorem C10_raising_record_skipped_alone
    (to_datetime : pyobj → try Z) (parameter_name : string) :
  (∀ utc value units,
     utc ≠ "" → to_datetime (PyStr utc) = Raised →
     PointsLA.record_body to_datetime parameter_name (api_record utc value units) = Raised
     ∧ DailyLA.record_body to_datetime parameter_name (api_record utc value units) = Raised)
  ∧ (∀ bad,
       PointsLA.record_body to_datetime parameter_name bad = Raised →
       (∀ before after accumulated,
          PointsLA.process_results to_datetime parameter_name
            (before ++ bad :: after) accumulated
          = accumulated
            ++ omap (PointsLA.process_record to_datetime parameter_name) before
            ++ omap (PointsLA.process_record to_datetime parameter_name) after)
       ∧ (∀ session_get sensor_id target_points page before after,
            session_get (PointsLA.measurements_request sensor_id page)
            = Results (before ++ bad :: after) →
            PointsLA.extract_measurements_from_sensor to_datetime session_get
              sensor_id parameter_name target_points
            = PointsLA.extract_measurements_from_sensor to_datetime
                (<[PointsLA.measurements_request sensor_id page
                   := Results (before ++ empty_record :: after)]> session_get)
                sensor_id parameter_name target_points))
  ∧ (∀ bad,
       DailyLA.record_body to_datetime parameter_name bad = Raised →
       (∀ before after accumulated,
          DailyLA.process_results to_datetime parameter_name
            (before ++ bad :: after) accumulated
          = accumulated
            ++ omap (DailyLA.process_record to_datetime parameter_name) before
            ++ omap (DailyLA.process_record to_datetime parameter_name) after)
       ∧ (∀ session_get sensor_id target_points page before after,
            session_get (DailyLA.days_request sensor_id page)
            = Results (before ++ bad :: after) →
            DailyLA.extract_daily_measurements_from_sensor to_datetime session_get
              sensor_id parameter_name target_points
            = DailyLA.extract_daily_measurements_from_sensor to_datetime
                (<[DailyLA.days_request sensor_id page
                   := Results (before ++ empty_record :: after)]> session_get)
                sensor_id parameter_name target_points)).
Proof.
  split; [|split].
  - intros utc value units Hutc Hraise.
    unfold PointsLA.record_body, DailyLA.record_body.
    simpl. destruct (String.eqb_spec utc ""); [done|].
    simpl. by rewrite Hraise.
  - intros bad Hraise.
    assert (Hbad : PointsLA.process_record to_datetime parameter_name bad = None)
      by (unfold PointsLA.process_record; by rewrite Hraise).
    split.
    + intros before after accumulated.
      rewrite points_process_results_app, omap_app. csimpl. by rewrite Hbad.
    + intros session_get sensor_id target_points page before after Hget.
      rewrite !points_extract_paged.
      by apply paged_series_fetcher_skipped_record with (bad := bad).
  - intros bad Hraise.
    assert (Hbad : DailyLA.process_record to_datetime parameter_name bad = None)
      by (unfold DailyLA.process_record; by rewrite Hraise).
    split.
    + intros before after accumulated.
      rewrite daily_process_results_app, omap_app. csimpl. by rewrite Hbad.
    + intros session_get sensor_id target_points page before after Hget.
      rewrite !daily_extract_paged.
      by apply paged_series_fetcher_skipped_record with (bad := bad).
Qed.

Lemma C10_unparseable_timestamp_witness :
  PointsLA.extract_measurements_from_sensor to_datetime_iso bad_record_source
    25192 "no2" 10
  = PointsLA.extract_measurements_from_sensor to_datetime_iso
      (<[PointsLA.measurements_request 25192 1
         := Results ([api_record "2024-01-01T00:00:00Z" (num 1) "ug/m3"]
                     ++ empty_record
                     :: [api_record "2024-01-01T01:00:00Z" (num 3) "ug/m3"])]>
         bad_record_source)
      25192 "no2" 10.
Proof.
  destruct (C10_raising_record_skipped_alone to_datetime_iso "no2")
    as (_ & Hpoints & _).
  destruct (Hpoints (api_record "not-a-date" (num 2) "ug/m3")) as [_ Hfetch].
  - reflexivity.
  - apply (Hfetch bad_record_source 25192 10 1%nat
             [api_record "2024-01-01T00:00:00Z" (num 1) "ug/m3"]
             [api_record "2024-01-01T01:00:00Z" (num 3) "ug/m3"]).
    reflexivity.
Defined.

(** With the record that does not parse on its first page, the fetch
    still returns the three other measurements of pages 1 and 2. *)
Example bad_record_source_frame :
  PointsLA.extract_measurements_from_sensor to_datetime_iso bad_record_source
    25192 "no2" 10
  = Some ([ {| PointsLA.timestamp := 1704067200 * ns_per_second; PointsLA.value := num 1 |};
            {| PointsLA.timestamp := 1704070800 * ns_per_second; PointsLA.value := num 3 |};
            {| PointsLA.timestamp := 1704074400 * ns_per_second; PointsLA.value := num 4 |} ],
          PointsLA.measurements_request 25192 <$> [1; 2; 3]%nat).
Proof. vm_compute. reflexivity. Qed.

(** ** The two fetch functions compared *)

Lemma convert_agree (parameter_name : string) (unit value : pyobj) :
  lower parameter_name = "no2" ∨ lower parameter_name = "o3" →
  DailyLA.convert parameter_name unit value = PointsLA.convert parameter_name unit value.
Proof.
  intros Hname. unfold DailyLA.convert, PointsLA.convert.
  destruct (py_lower unit) as [u|]; [|done]. simpl.
  destruct (String.eqb u "ppm"); [|done].
  by destruct Hname as [-> | ->].
Qed.

Lemma process_record_agree (to_datetime : pyobj → try Z) (parameter_name : string)
    (record : pyobj) :
  lower parameter_name = "no2" ∨ lower parameter_name = "o3" →
  DailyLA.process_record to_datetime parameter_name record =
  to_daily <$> PointsLA.process_record to_datetime parameter_name record.
Proof.
  intros Hname.
  unfold DailyLA.process_record, PointsLA.process_record,
    DailyLA.record_body, PointsLA.record_body.
  destruct (py_get record "period" _) as [period|]; [|done]. simpl.
  destruct (py_get period "datetimeFrom" _) as [datetime_from|]; [|done]. simpl.
  destruct (py_get datetime_from "utc" _) as [timestamp_str|]; [|done]. simpl.
  destruct (negb (truthy timestamp_str)); [done|].
  destruct (to_datetime timestamp_str) as [timestamp|]; [|done]. simpl.
  destruct (py_get record "value" _) as [value|]; [|done]. simpl.
  destruct (py_get record "parameter" _) as [parameter|]; [|done]. simpl.
  destruct (py_get parameter "units" _) as [unit|]; [|done]. simpl.
  destruct (negb (is_none value)); [|done].
  rewrite convert_agree by done.
  by destruct (PointsLA.convert parameter_name unit value).
Qed.

(** C8 as it is stated fails for HCHO: one part per million of HCHO is
    1230 micrograms per cubic metre to [extract_measurements_from_sensor]
    and stays 1 in [extract_daily_measurements_from_sensor]. *)
Lemma C8_hcho_not_converted_by_daily :
  PointsLA.process_record to_datetime_iso "hcho"
    (api_record "2024-01-01T00:00:00Z" (num 1) "ppm")
  = Some {| PointsLA.timestamp := 1704067200000000000; PointsLA.value := num 1230 |}
  ∧ DailyLA.process_record to_datetime_iso "hcho"
      (api_record "2024-01-01T00:00:00Z" (num 1) "ppm")
    = Some {| DailyLA.date := 19723; DailyLA.value := num 1 |}
  ∧ num 1230 ≠ num 1.
Proof. repeat split; [vm_compute; reflexivity..|discriminate]. Qed.

(** C8, amended.  For NO2 and O3 the two fetch functions are one
    algorithm, [paged_series_fetcher], run with the request each one
    sends, its sort key and its record processing; and on every record
    the daily function keeps or skips exactly as the other one does, with
    the same converted value, and stores the calendar day of the timestamp
    the other one stores. *)
Theorem C8_one_algorithm_for_no2_and_o3
    (to_datetime : pyobj → try Z) (session_get : request → response)
    (sensor_id : Z) (parameter_name : string) (target_points : Z) :
  lower parameter_name = "no2" ∨ lower parameter_name = "o3" →
  PointsLA.extract_measurements_from_sensor to_datetime session_get
    sensor_id parameter_name target_points
  = paged_series_fetcher PointsLA.timestamp (PointsLA.measurements_request sensor_id)
      (PointsLA.process_record to_datetime parameter_name) session_get target_points
  ∧ DailyLA.extract_daily_measurements_from_sensor to_datetime session_get
      sensor_id parameter_name target_points
    = paged_series_fetcher DailyLA.date (DailyLA.days_request sensor_id)
        (DailyLA.process_record to_datetime parameter_name) session_get target_points
  ∧ ∀ record,
      DailyLA.process_record to_datetime parameter_name record
      = to_daily <$> PointsLA.process_record to_datetime parameter_name record.
Proof.
  intros Hname. split; [apply points_extract_paged|].
  split; [apply daily_extract_paged|].
  intros record. by apply process_record_agree.
Qed.

Lemma C8_no2_witness :
  DailyLA.process_record to_datetime_iso "NO2"
    (api_record "2024-01-01T02:00:00Z" (num 1) "ppm")
  = to_daily <$> PointsLA.process_record to_datetime_iso "NO2"
                   (api_record "2024-01-01T02:00:00Z" (num 1) "ppm").
Proof.
  destruct (C8_one_algorithm_for_no2_and_o3 to_datetime_iso failing_source
              25192 "NO2" 1000) as (_ & _ & Hrecord).
  - left. reflexivity.
  - apply Hrecord.
Defined.

(** ** Daily aggregation *)

Lemma groupby_date_group (df : list DailyNO2.row) (d : Z) :
  snd <$> filter (λ '(key, _), key = d)
            (zip ((λ r, date_of (DailyNO2.timestamp r)) <$> df) df)
  = filter (λ r, date_of (DailyNO2.timestamp r) = d) df.
Proof.
  induction df as [|r df IH]; [done|]. csimpl.
  destruct (decide (date_of (DailyNO2.timestamp r) = d)) as [Hd|Hd].
  - rewrite !filter_cons_True by done. csimpl. by rewrite <- IH.
  - by rewrite !filter_cons_False by done.
Qed.

Lemma create_daily_no2_rows (df : list DailyNO2.row) :
  df ≠ [] →
  DailyNO2.create_daily_no2 df =
  Returned (daily_row df
              <$> sorted_keys (list_to_set ((λ r, date_of (DailyNO2.timestamp r)) <$> df))).
Proof.
  intros Hdf. unfold DailyNO2.create_daily_no2, DailyNO2.groupby_date.
  assert (DailyNO2.dt_date df
          = Returned ((λ r, date_of (DailyNO2.timestamp r)) <$> df)) as ->
    by by destruct df.
  csimpl. unfold mret, try_ret. f_equal.
  rewrite <- !list_fmap_compose. apply list_fmap_ext. intros i d _. simpl.
  unfold daily_row. by rewrite groupby_date_group.
Qed.

Lemma midnight_lt (d1 d2 : Z) : d1 < d2 → midnight d1 < midnight d2.
Proof. unfold midnight, ns_per_day, ns_per_second. lia. Qed.

Lemma mean_present (cells : list (option Qc)) (values : list Qc) :
  omap id cells = values → values ≠ [] →
  DailyNO2.mean cells =
  Some (DailyNO2.sum values / Q2Qc (inject_Z (Z.of_nat (length values))))%Qc.
Proof.
  intros <- Hne. unfold DailyNO2.mean. by rewrite bool_decide_eq_false_2.
Qed.

Lemma mean_single (cell : option Qc) : DailyNO2.mean [cell] = cell.
Proof.
  destruct cell as [v|]; [|done].
  rewrite (mean_present _ [v]) by done. f_equal.
  unfold DailyNO2.sum. cbn [foldr length].
  change (Q2Qc (inject_Z (Z.of_nat 1))) with 1%Qc. change (Q2Qc 0) with 0%Qc.
  rewrite Qcplus_0_r. unfold Qcdiv. change (/ 1)%Qc with 1%Qc.
  apply Qcmult_1_r.
Qed.

Lemma Qred_inject_Z (n : Z) : Qred (inject_Z n) = inject_Z n.
Proof. apply Qred_identity. simpl. apply Z.gcd_1_r. Qed.

Lemma rint_integer (n : Z) : DailyNO2.rint (Q2Qc (inject_Z n)) = n.
Proof.
  unfold DailyNO2.rint. simpl this. rewrite Qred_inject_Z. simpl.
  rewrite Z.div_1_r, Z.mod_1_r. reflexivity.
Qed.

(** A value with at most three decimal digits is its own rounding. *)
Lemma round3_thousandths (n : Z) :
  DailyNO2.round3 (Q2Qc (n # 1000)) = Q2Qc (n # 1000).
Proof.
  unfold DailyNO2.round3.
  assert (Hscaled : (Q2Qc (n # 1000) * Q2Qc (inject_Z 1000))%Qc = Q2Qc (inject_Z n)).
  { apply Qc_is_canon. simpl. rewrite !Qred_correct.
    unfold Qeq. simpl. lia. }
  by rewrite Hscaled, rint_integer.
Qed.

(** In a frame whose rows have distinct keys, a row is alone in its
    group. *)
Lemma filter_unique_key {A : Type} (f : A → Z) (l : list A) (r : A) :
  NoDup (f <$> l) → r ∈ l → filter (λ x, f x = f r) l = [r].
Proof.
  induction l as [|x l IH]; intros Hnd Hin; [by apply elem_of_nil in Hin|].
  rewrite fmap_cons in Hnd. apply NoDup_cons in Hnd as [Hx Hnd].
  apply elem_of_cons in Hin as [->|Hin].
  - rewrite filter_cons_True by done. f_equal.
    apply elem_of_nil_inv. intros y Hy%list_elem_of_filter.
    destruct Hy as [Heq Hy]. apply Hx. rewrite <- Heq.
    by apply list_elem_of_fmap_2.
  - rewrite filter_cons_False; [by apply IH|].
    intros Heq. apply Hx. rewrite Heq. by apply list_elem_of_fmap_2.
Qed.

Lemma ascending_NoDup (l : list Z) : StronglySorted Z.lt l → NoDup l.
Proof.
  induction 1 as [|x l Hl IH Hx]; constructor; [|done].
  intros Hin. rewrite Forall_forall in Hx. specialize (Hx x Hin). lia.
Qed.

Lemma rint_within_half (q : Qc) :
  - Z.pos (Qden q) ≤ 2 * DailyNO2.rint q * Z.pos (Qden q) - 2 * Qnum q ≤ Z.pos (Qden q).
Proof.
  unfold DailyNO2.rint.
  set (n := Qnum q). set (d := Z.pos (Qden q)).
  assert (0 < d) by done.
  pose proof (Z.div_mod n d). pose proof (Z.mod_pos_bound n d).
  destruct (Z.ltb_spec (2 * (n `mod` d)) d); [nia|].
  destruct (Z.ltb_spec d (2 * (n `mod` d))); [nia|].
  destruct (Z.even (n `div` d)); nia.
Qed.

Lemma round3_close (q : Qc) :
  (DailyNO2.round3 q - q <= Q2Qc (1 # 2000))%Qc
  ∧ (q - DailyNO2.round3 q <= Q2Qc (1 # 2000))%Qc.
Proof.
  unfold DailyNO2.round3.
  pose proof (rint_within_half (q * Q2Qc (inject_Z 1000))%Qc) as Hhalf.
  set (n := DailyNO2.rint _) in *.
  assert (Hs : (this (q * Q2Qc (inject_Z 1000))%Qc == this q * inject_Z 1000)%Q).
  { simpl. rewrite !Qred_correct. reflexivity. }
  destruct (this (q * Q2Qc (inject_Z 1000))%Qc) as [a b].
  unfold Qcle, Qcminus, Qcplus, Qcopp. simpl this.
  rewrite !Qred_correct.
  destruct (this q) as [nq dq].
  unfold Qeq, Qle in *. simpl in *.
  split; nia.
Qed.

(** C5 as it is stated fails on the empty input: a frame without rows is
    not aggregated to the empty frame, the function raises on it. *)
Lemma C5_empty_frame_raises :
  DailyNO2.create_daily_no2 [] = Raised
  ∧ DailyNO2.create_daily_no2 [] ≠ Returned [].
Proof. split; [reflexivity|discriminate]. Qed.

(** C5, amended.  On a frame that has rows, [create_daily_no2] writes one
    row for each UTC calendar day on which the frame has a row, and no
    other row; the row of a day holds that day at midnight and the mean of
    the day's values rounded to three decimal digits, that is, to the
    nearest whole number of thousandths; the rows are in ascending order
    of day, each day once.  The readings 10.0 at 02:00 and 20.0 at 14:00
    of one day yield the single row 15.0 at that day's midnight, and the
    readings 10.0, 10.0 and 11.0 of one day the single row 10.333. *)
Theorem C5_daily_mean_per_date (df : list DailyNO2.row) :
  df ≠ [] →
  ∃ daily,
    DailyNO2.create_daily_no2 df = Returned daily
    ∧ (∀ r, r ∈ daily
          ↔ ∃ d, (∃ h, h ∈ df ∧ date_of (DailyNO2.timestamp h) = d) ∧ r = daily_row df d)
    ∧ (∀ d values,
         omap id (DailyNO2.no2_ug_m3
                    <$> filter (λ r, date_of (DailyNO2.timestamp r) = d) df) = values →
         values ≠ [] →
         daily_row df d =
         {| DailyNO2.timestamp := midnight d;
            DailyNO2.no2_ug_m3 :=
              Some (DailyNO2.round3
                      (DailyNO2.sum values
                       / Q2Qc (inject_Z (Z.of_nat (length values))))%Qc) |})
    ∧ (∀ q : Qc,
         (∃ n : Z, DailyNO2.round3 q = Q2Qc (n # 1000))
         ∧ (DailyNO2.round3 q - q <= Q2Qc (1 # 2000))%Qc
         ∧ (q - DailyNO2.round3 q <= Q2Qc (1 # 2000))%Qc)
    ∧ StronglySorted Z.lt (DailyNO2.timestamp <$> daily)
    ∧ DailyNO2.create_daily_no2 two_readings =
      Returned [ {| DailyNO2.timestamp := midnight 19723;
                    DailyNO2.no2_ug_m3 := Some (Q2Qc 15) |} ]
    ∧ DailyNO2.create_daily_no2 three_readings =
      Returned [ {| DailyNO2.timestamp := midnight 19723;
                    DailyNO2.no2_ug_m3 := Some (Q2Qc (10333 # 1000)) |} ].
Proof.
  intros Hdf. eexists. split; [by apply create_daily_no2_rows|].
  split; [|split; [|split; [|split; [|split]]]].
  - intros r. rewrite list_elem_of_fmap.
    split.
    + intros (d & -> & Hd). exists d. split; [|done].
      apply sorted_keys_elem_of, elem_of_list_to_set, list_elem_of_fmap in Hd
        as (h & -> & Hh).
      by exists h.
    + intros (d & (h & Hh & Hd) & ->). exists d. split; [done|].
      apply sorted_keys_elem_of, elem_of_list_to_set, list_elem_of_fmap.
      by exists h.
  - intros d values Hvalues Hne. unfold daily_row.
    by rewrite (mean_present _ values).
  - intros q. split; [by eexists|apply round3_close].
  - rewrite <- list_fmap_compose.
    apply (StronglySorted_fmap _ Z.lt Z.lt); [|apply sorted_keys_strictly_ascending].
    intros d1 d2. apply midnight_lt.
  - vm_compute. do 4 f_equal. apply Qc_is_canon. reflexivity.
  - vm_compute. reflexivity.
Qed.

Lemma C5_two_readings_witness :
  ∃ daily,
    DailyNO2.create_daily_no2 two_readings = Returned daily
    ∧ StronglySorted Z.lt (DailyNO2.timestamp <$> daily)
    ∧ daily_row two_readings 19723 =
      {| DailyNO2.timestamp := midnight 19723;
         DailyNO2.no2_ug_m3 :=
           Some (DailyNO2.round3
                   (DailyNO2.sum [Q2Qc 10; Q2Qc 20]
                    / Q2Qc (inject_Z (Z.of_nat (length [Q2Qc 10; Q2Qc 20]))))%Qc) |}.
Proof.
  destruct (C5_daily_mean_per_date two_readings)
    as (daily & Hdaily & _ & Hmean & _ & Hsorted & _).
  - discriminate.
  - exists daily. split; [exact Hdaily|]. split; [exact Hsorted|].
    apply (Hmean 19723 [Q2Qc 10; Q2Qc 20]).
    + vm_compute. reflexivity.
    + discriminate.
Defined.

(** C7 as it is stated fails: the single reading 0.03125 of an
    already-daily series comes back as 0.031. *)
Lemma C7_rounding_changes_a_daily_value :
  StronglySorted Z.lt ((λ r, date_of (DailyNO2.timestamp r)) <$> already_daily)
  ∧ DailyNO2.no2_ug_m3 <$> already_daily = [Some (Q2Qc (1 # 32))]
  ∧ DailyNO2.create_daily_no2 already_daily
    = Returned [ {| DailyNO2.timestamp := midnight 19723;
                    DailyNO2.no2_ug_m3 := Some (Q2Qc (31 # 1000)) |} ]
  ∧ Q2Qc (31 # 1000) ≠ Q2Qc (1 # 32).
Proof.
  split; [repeat constructor|]. split; [reflexivity|]. split.
  - vm_compute. reflexivity.
  - intros Heq. apply (f_equal this) in Heq. vm_compute in Heq. discriminate.
Qed.

(** C7, amended.  Aggregating a series that has rows, one for each day,
    in ascending order of day, returns one row for each of its rows, in
    the same order: the day of the row at midnight, and the value of the
    row rounded to three decimal digits, that is, to the nearest whole
    number of thousandths.  A value that has at most three decimal digits
    is returned unchanged. *)
Theorem C7_daily_series_is_rounded (df : list DailyNO2.row) :
  df ≠ [] →
  StronglySorted Z.lt ((λ r, date_of (DailyNO2.timestamp r)) <$> df) →
  DailyNO2.create_daily_no2 df =
    Returned
      ((λ r, {| DailyNO2.timestamp := midnight (date_of (DailyNO2.timestamp r));
                DailyNO2.no2_ug_m3 := DailyNO2.round3 <$> DailyNO2.no2_ug_m3 r |}) <$> df)
  ∧ (∀ n : Z, DailyNO2.round3 (Q2Qc (n # 1000)) = Q2Qc (n # 1000))
  ∧ (∀ q : Qc,
       (∃ n : Z, DailyNO2.round3 q = Q2Qc (n # 1000))
       ∧ (DailyNO2.round3 q - q <= Q2Qc (1 # 2000))%Qc
       ∧ (q - DailyNO2.round3 q <= Q2Qc (1 # 2000))%Qc).
Proof.
  intros Hdf Hdays. split; [|split; [apply round3_thousandths|]].
  2:{ intros q. split; [by eexists|apply round3_close]. }
  rewrite create_daily_no2_rows, sorted_keys_of_ascending by done. f_equal.
  rewrite <- list_fmap_compose.
  apply list_fmap_ext. intros i r Hr%list_elem_of_lookup_2. simpl.
  unfold daily_row.
  rewrite (filter_unique_key (λ r, date_of (DailyNO2.timestamp r)) df r);
    [|by apply ascending_NoDup|done].
  simpl. by rewrite mean_single.
Qed.

Lemma C7_three_decimals_witness :
  DailyNO2.create_daily_no2
    [ {| DailyNO2.timestamp := midnight 19723; DailyNO2.no2_ug_m3 := Some (Q2Qc (12345 # 1000)) |};
      {| DailyNO2.timestamp := midnight 19724; DailyNO2.no2_ug_m3 := None |} ]
  = Returned
      [ {| DailyNO2.timestamp := midnight 19723; DailyNO2.no2_ug_m3 := Some (Q2Qc (12345 # 1000)) |};
        {| DailyNO2.timestamp := midnight 19724; DailyNO2.no2_ug_m3 := None |} ].
Proof.
  destruct (C7_daily_series_is_rounded
    [ {| DailyNO2.timestamp := midnight 19723; DailyNO2.no2_ug_m3 := Some (Q2Qc (12345 # 1000)) |};
      {| DailyNO2.timestamp := midnight 19724; DailyNO2.no2_ug_m3 := None |} ])
    as (Hrows & Hround & _).
  - discriminate.
  - apply (bool_decide_unpack _). vm_compute. reflexivity.
  - rewrite Hrows. simpl. rewrite Hround. reflexivity.
Defined.

(** ** Alignment *)

Lemma filter_key_at_most_one {A : Type} (f : A → Z) (l : list A) (k : Z) :
  NoDup (f <$> l) →
  filter (λ x, f x = k) l = [] ∨ ∃ r, filter (λ x, f x = k) l = [r].
Proof.
  intros Hnd. destruct (filter (λ x, f x = k) l) as [|r rest] eqn:Hfilter; [by left|].
  right. exists r.
  assert (Hr : r ∈ filter (λ x, f x = k) l) by (rewrite Hfilter; left).
  apply list_elem_of_filter in Hr as [<- Hr].
  by rewrite <- Hfilter, (filter_unique_key f l r).
Qed.

(** On a right frame without repeated keys a left join keeps the rows of
    the left frame as they are and gives each its one match, if any. *)
Lemma merge_left_distinct {L R V : Type} (lkey : L → Z) (rkey : R → Z) (rval : R → V)
    (left : list L) (right : list R) :
  NoDup (rkey <$> right) →
  merge_left lkey rkey rval left right =
  (λ l, (l, rval <$> head (filter (λ r, rkey r = lkey l) right))) <$> left.
Proof.
  intros Hnd. unfold merge_left.
  induction left as [|l left IH]; [done|].
  rewrite bind_cons, IH, fmap_cons.
  by destruct (filter_key_at_most_one rkey right (lkey l) Hnd) as [->|[r ->]].
Qed.

Lemma add_column_distinct {L : Type} (lkey : L → Z) (df_combined : list L)
    (df : list PointsLA.measurement) :
  NoDup (PointsLA.timestamp <$> df) →
  PointsLA.add_column lkey df_combined df =
  (λ l, (l, value_at df (lkey l))) <$> df_combined.
Proof.
  intros Hnd. unfold PointsLA.add_column.
  destruct df as [|m df]; [done|].
  change (0 <? Z.of_nat (length (m :: df))) with true. cbv iota.
  by rewrite merge_left_distinct.
Qed.

Lemma update_timestamps_union (all_timestamps : gset Z) (df : list PointsLA.measurement) :
  PointsLA.update_timestamps all_timestamps df =
  all_timestamps ∪ list_to_set (PointsLA.timestamp <$> df).
Proof.
  unfold PointsLA.update_timestamps. destruct df as [|m df]; [|done].
  simpl. by rewrite (right_id_L ∅ (∪)).
Qed.

(** When no frame repeats a timestamp, the combined table has one row
    for each timestamp of the union, in strictly ascending order, and the
    cell of a pollutant is the value its frame holds at the row's
    timestamp, absent exactly when the frame has no such row. *)
Lemma combine_distinct_timestamps (df_no2 df_o3 df_hcho : list PointsLA.measurement) :
  NoDup (PointsLA.timestamp <$> df_no2) →
  NoDup (PointsLA.timestamp <$> df_o3) →
  NoDup (PointsLA.timestamp <$> df_hcho) →
  PointsLA.combine df_no2 df_o3 df_hcho =
    (λ t, PointsLA.CombinedRow t (value_at df_no2 t) (value_at df_o3 t) (value_at df_hcho t))
      <$> sorted_keys (list_to_set (PointsLA.timestamp <$> df_no2)
                       ∪ list_to_set (PointsLA.timestamp <$> df_o3)
                       ∪ list_to_set (PointsLA.timestamp <$> df_hcho))
  ∧ StronglySorted Z.lt
      (PointsLA.row_timestamp <$> PointsLA.combine df_no2 df_o3 df_hcho)
  ∧ (∀ t, t ∈ PointsLA.row_timestamp <$> PointsLA.combine df_no2 df_o3 df_hcho
          ↔ t ∈ PointsLA.timestamp <$> df_no2 ++ df_o3 ++ df_hcho)
  ∧ (∀ df t, value_at df t = None ↔ t ∉ PointsLA.timestamp <$> df).
Proof.
  intros Hno2 Ho3 Hhcho.
  assert (Hcombine :
    PointsLA.combine df_no2 df_o3 df_hcho =
    (λ t, PointsLA.CombinedRow t (value_at df_no2 t) (value_at df_o3 t) (value_at df_hcho t))
      <$> sorted_keys (list_to_set (PointsLA.timestamp <$> df_no2)
                       ∪ list_to_set (PointsLA.timestamp <$> df_o3)
                       ∪ list_to_set (PointsLA.timestamp <$> df_hcho))).
  { unfold PointsLA.combine.
    rewrite !update_timestamps_union, (left_id_L ∅ (∪)).
    rewrite !add_column_distinct by done.
    rewrite <- !list_fmap_compose. reflexivity. }
  split; [exact Hcombine|].
  assert (Hkeys : PointsLA.row_timestamp <$> PointsLA.combine df_no2 df_o3 df_hcho =
                  sorted_keys (list_to_set (PointsLA.timestamp <$> df_no2)
                               ∪ list_to_set (PointsLA.timestamp <$> df_o3)
                               ∪ list_to_set (PointsLA.timestamp <$> df_hcho))).
  { rewrite Hcombine, <- list_fmap_compose. apply list_fmap_id. }
  split; [rewrite Hkeys; apply sorted_keys_strictly_ascending|].
  split.
  - intros t. rewrite Hkeys, sorted_keys_elem_of, !fmap_app, !elem_of_app,
      !elem_of_union, !elem_of_list_to_set. tauto.
  - intros df t. unfold value_at.
    destruct (filter (λ m, PointsLA.timestamp m = t) df) as [|m rest] eqn:Hfilter.
    + split; [|done]. intros _ (m & -> & Hm)%list_elem_of_fmap.
      by eapply (filter_nil_not_elem_of _ _ m) in Hfilter.
    + split; [done|]. intros Hnotin. exfalso. apply Hnotin.
      assert (Hm : m ∈ filter (λ m, PointsLA.timestamp m = t) df)
        by (rewrite Hfilter; left).
      apply list_elem_of_filter in Hm as [<- Hm]. by apply list_elem_of_fmap_2.
Qed.

(** C4, the defect.  When the pages of the NO2 sensor overlap in the
    record of 01:00, [extract_1000_points_los_angeles] writes two rows with
    that timestamp; and two NO2 measurements of one instant with the
    values 5 and 6 are combined into two rows with that one timestamp.
    The base frame is built from the set of the timestamps, one row each,
    and the left join then repeats the row for every measurement of its
    timestamp. *)
Theorem C4_repeated_timestamp_repeats_row :
  PointsLA.extract_1000_points_los_angeles to_datetime_iso overlapping_source =
  Some [ PointsLA.CombinedRow (1704067200 * ns_per_second) (Some (num 5)) None None;
         PointsLA.CombinedRow (1704070800 * ns_per_second) (Some (num 6)) None None;
         PointsLA.CombinedRow (1704070800 * ns_per_second) (Some (num 6)) None None;
         PointsLA.CombinedRow (1704074400 * ns_per_second) (Some (num 7)) None None ]
  ∧ PointsLA.combine
      [ {| PointsLA.timestamp := 1704067200 * ns_per_second; PointsLA.value := num 5 |};
        {| PointsLA.timestamp := 1704067200 * ns_per_second; PointsLA.value := num 6 |} ]
      [] []
    = [ PointsLA.CombinedRow (1704067200 * ns_per_second) (Some (num 5)) None None;
        PointsLA.CombinedRow (1704067200 * ns_per_second) (Some (num 6)) None None ].
Proof. split; vm_compute; reflexivity. Qed.

(** ** The requests a fetch sends and what it returns for them *)

Section PagedSeriesFetcherTrace.
Context {M : Type}.
Variable key : M → Z.
Variable make_request : nat → request.
Variable process : pyobj → option M.
Variable session_get : request → response.

Local Abbreviation loop := (paged_loop make_request process session_get).
Local Abbreviation fetch := (paged_series_fetcher key make_request process session_get).
Local Abbreviation pages := (pages_from make_request session_get).

(** The loop asks for consecutive pages; every page before the last one
    it asked for was a non-empty page; and what it returns is what it
    had, followed by the measurements of the pages it asked for. *)
Lemma paged_loop_trace target fuel page acc sent outcome sent' :
  loop target fuel page acc sent = Some (outcome, sent') →
  ∃ k, sent' = sent ++ (make_request <$> seq page k)
       ∧ ((page ≤ 50)%nat → (page + k ≤ 51)%nat)
       ∧ (∀ p, (page ≤ p)%nat → (S p < page + k)%nat →
            ∃ results, session_get (make_request p) = Results results ∧ results ≠ [])
       ∧ (∀ acc', outcome = Returned acc' → acc' = acc ++ omap process (pages page k)).
Proof.
  revert page acc sent.
  induction fuel as [|fuel IH]; intros page acc sent; [done|].
  rewrite paged_loop_unfold.
  assert (Hone : ∀ acc1,
    (∀ acc', Returned acc1 = outcome → acc' = acc1 →
       acc' = acc ++ omap process (pages page 1)) →
    Some (Returned acc1, sent ++ [make_request page]) = Some (outcome, sent') →
    ∃ k, sent' = sent ++ (make_request <$> seq page k)
         ∧ ((page ≤ 50)%nat → (page + k ≤ 51)%nat)
         ∧ (∀ p, (page ≤ p)%nat → (S p < page + k)%nat →
              ∃ results, session_get (make_request p) = Results results ∧ results ≠ [])
         ∧ (∀ acc', outcome = Returned acc' → acc' = acc ++ omap process (pages page k))).
  { intros acc1 Hacc [= <- <-]. exists 1%nat.
    split; [done|]. split; [lia|]. split; [intros; lia|].
    intros acc' [= <-]. by apply Hacc. }
  destruct (_ <? target).
  2:{ intros [= <- <-]. exists 0%nat. rewrite !app_nil_r.
      split; [done|]. split; [lia|]. split; [intros; lia|].
      by intros acc' [= <-]. }
  destruct (session_get (make_request page)) as [|results] eqn:Hget.
  { intros [= <- <-]. exists 1%nat.
    split; [done|]. split; [lia|]. split; [intros; lia|]. done. }
  assert (Hpage1 : pages page 1 = results).
  { unfold pages_from. simpl. rewrite Hget. simpl. by rewrite app_nil_r. }
  case_bool_decide as Hnil.
  { apply Hone. intros acc' _ ->. rewrite Hpage1, Hnil. by rewrite app_nil_r. }
  destruct (_ >=? target).
  { apply Hone. intros acc' _ ->. by rewrite Hpage1. }
  destruct (Nat.ltb_spec 50 (page + 1)).
  { apply Hone. intros acc' _ ->. by rewrite Hpage1. }
  intros (k & -> & Hbound & Hbefore & Hacc)%IH. exists (S k).
  split; [|split; [|split]].
  - rewrite <- (assoc_L (++)). simpl. by rewrite Nat.add_1_r.
  - lia.
  - intros p Hp1 Hp2. destruct (decide (p = page)) as [->|Hne].
    + by exists results.
    + apply Hbefore; lia.
  - intros acc' Hout. rewrite (Hacc acc' Hout).
    rewrite pages_from_S, Hget, omap_app, <- (assoc_L (++)). simpl.
    by rewrite Nat.add_1_r.
Qed.

Lemma paged_series_fetcher_trace target :
  ∃ series k,
    fetch target = Some (series, make_request <$> seq 1 k)
    ∧ (k ≤ 50)%nat
    ∧ (∀ p, (1 ≤ p)%nat → (p < k)%nat →
         ∃ results, session_get (make_request p) = Results results ∧ results ≠ [])
    ∧ ((∀ p, (1 ≤ p ≤ k)%nat → session_get (make_request p) ≠ TransportError) →
       series = sort_trim key target (omap process (pages 1 k))).
Proof.
  unfold paged_series_fetcher.
  destruct (paged_loop_enough_fuel make_request process session_get target 50 1 [] [])
    as [[outcome sent] Hloop]; [lia..|].
  rewrite Hloop. simpl.
  pose proof Hloop as (k & -> & Hbound & Hbefore & Hacc)%paged_loop_trace.
  exists (match outcome with
          | Returned acc => sort_trim key target acc
          | Raised => []
          end), k.
  split; [done|]. split; [lia|]. split; [intros; apply Hbefore; lia|].
  intros Hok.
  destruct outcome as [acc|].
  - by rewrite (Hacc acc eq_refl).
  - exfalso.
    assert (Hex : Exists (λ r, session_get r = TransportError)
                    ([] ++ (make_request <$> seq 1 k))).
    { by apply (paged_loop_raised make_request process session_get _ _ _ _ _ _ _ Hloop). }
    apply Exists_exists in Hex as (r & Hr & Hfail). simpl in Hr.
    apply list_elem_of_fmap in Hr as (p & -> & Hp).
    apply elem_of_seq in Hp. apply (Hok p); [lia|done].
Qed.

(** The frame is in ascending order of its key and never longer than the
    target. *)
Lemma paged_series_fetcher_sorted_bounded target :
  ∃ series sent,
    fetch target = Some (series, sent)
    ∧ Sorted (key_le key) series
    ∧ Z.of_nat (length series) ≤ Z.max 0 target.
Proof.
  unfold paged_series_fetcher.
  destruct (paged_loop_enough_fuel make_request process session_get target 50 1 [] [])
    as [[outcome sent] Hloop]; [lia..|].
  rewrite Hloop. simpl. eexists _, _. split; [done|].
  destruct outcome as [acc|]; [|split; [constructor|simpl; lia]].
  destruct (Z.ltb_spec 0 target) as [Hpos|Hneg].
  - unfold sort_trim. destruct (0 <? Z.of_nat (length acc)) eqn:Hlen.
    2:{ destruct acc; [|done]. split; [constructor|simpl; lia]. }
    replace target with (Z.of_nat (Z.to_nat target)) by lia.
    rewrite trim_spec. split.
    + pose proof (Sorted_sort_by key acc) as Hsorted.
      case_decide; [|done].
      apply StronglySorted_Sorted.
      apply (Sorted_StronglySorted _) in Hsorted.
      rewrite <- (take_drop (length (sort_by key acc) - Z.to_nat target)
                    (sort_by key acc)) in Hsorted.
      by apply StronglySorted_app_1_r in Hsorted.
    + case_decide; [rewrite length_drop|]; lia.
  - change 50%nat with (S 49) in Hloop. rewrite paged_loop_unfold in Hloop.
    simpl length in Hloop.
    destruct (Z.ltb_spec (Z.of_nat 0) target); [lia|].
    injection Hloop as <- <-. split; [constructor|simpl; lia].
Qed.

Lemma paged_series_fetcher_no_target target :
  target ≤ 0 → fetch target = Some ([], []).
Proof.
  intros Hneg. unfold paged_series_fetcher.
  change 50%nat with (S 49). rewrite paged_loop_unfold. simpl length.
  by destruct (Z.ltb_spec (Z.of_nat 0) target); [lia|].
Qed.

Lemma paged_series_fetcher_exhausted target :
  0 < target → session_get (make_request 1) = Results [] →
  fetch target = Some ([], [make_request 1]).
Proof.
  intros Hpos Hget. unfold paged_series_fetcher.
  change 50%nat with (S 49). rewrite paged_loop_unfold, Hget. simpl length.
  by destruct (Z.ltb_spec (Z.of_nat 0) target); [|lia].
Qed.

End PagedSeriesFetcherTrace.

(** A source with an empty first page gives the empty frame after one
    request, without error. *)
Theorem fetch_exhausted_source_is_empty
    (to_datetime : pyobj → try Z) (session_get : request → response)
    (sensor_id : Z) (parameter_name : string) (target_points : Z) :
  0 < target_points →
  (session_get (PointsLA.measurements_request sensor_id 1) = Results [] →
   PointsLA.extract_measurements_from_sensor to_datetime session_get
     sensor_id parameter_name target_points
   = Some ([], [PointsLA.measurements_request sensor_id 1]))
  ∧ (session_get (DailyLA.days_request sensor_id 1) = Results [] →
     DailyLA.extract_daily_measurements_from_sensor to_datetime session_get
       sensor_id parameter_name target_points
     = Some ([], [DailyLA.days_request sensor_id 1])).
Proof.
  intros Hpos. rewrite points_extract_paged, daily_extract_paged.
  split; intros Hget; by apply paged_series_fetcher_exhausted.
Qed.

Lemma fetch_exhausted_source_witness :
  PointsLA.extract_measurements_from_sensor to_datetime_iso exhausted_source
    25193 "o3" 10000
  = Some ([], [PointsLA.measurements_request 25193 1]).
Proof.
  destruct (fetch_exhausted_source_is_empty to_datetime_iso exhausted_source
              25193 "o3" 10000) as [Hpoints _].
  - reflexivity.
  - apply Hpoints. reflexivity.
Defined.

(** With a target that is not positive no request is sent at all. *)
Theorem fetch_without_target_sends_nothing
    (to_datetime : pyobj → try Z) (session_get : request → response)
    (sensor_id : Z) (parameter_name : string) (target_points : Z) :
  target_points ≤ 0 →
  PointsLA.extract_measurements_from_sensor to_datetime session_get
    sensor_id parameter_name target_points = Some ([], [])
  ∧ DailyLA.extract_daily_measurements_from_sensor to_datetime session_get
      sensor_id parameter_name target_points = Some ([], []).
Proof.
  intros Hneg. rewrite points_extract_paged, daily_extract_paged.
  split; by apply paged_series_fetcher_no_target.
Qed.

Lemma fetch_without_target_witness :
  PointsLA.extract_measurements_from_sensor to_datetime_iso endless_source
    25192 "no2" 0 = Some ([], []).
Proof.
  apply (fetch_without_target_sends_nothing to_datetime_iso endless_source
           25192 "no2" 0).
  discriminate.
Defined.

(** Whatever the source does, the frame a fetch returns is in ascending
    order of its key and has at most [target_points] rows. *)
Theorem fetch_frame_sorted_and_bounded
    (to_datetime : pyobj → try Z) (session_get : request → response)
    (sensor_id : Z) (parameter_name : string) (target_points : Z) :
  (∃ series sent,
     PointsLA.extract_measurements_from_sensor to_datetime session_get
       sensor_id parameter_name target_points = Some (series, sent)
     ∧ Sorted PointsLA.timestamp_le series
     ∧ Z.of_nat (length series) ≤ Z.max 0 target_points)
  ∧ (∃ series sent,
       DailyLA.extract_daily_measurements_from_sensor to_datetime session_get
         sensor_id parameter_name target_points = Some (series, sent)
       ∧ Sorted DailyLA.date_le series
       ∧ Z.of_nat (length series) ≤ Z.max 0 target_points).
Proof.
  rewrite points_extract_paged, daily_extract_paged.
  split; apply paged_series_fetcher_sorted_bounded.
Qed.

(** The requests of a fetch are those for the pages 1, 2, ..., k in this
    order, for some k up to 50, and every page before the last requested
    one came back non-empty. *)
Theorem fetch_requests_consecutive_pages
    (to_datetime : pyobj → try Z) (session_get : request → response)
    (sensor_id : Z) (parameter_name : string) (target_points : Z) :
  (∃ series k,
     PointsLA.extract_measurements_from_sensor to_datetime session_get
       sensor_id parameter_name target_points
     = Some (series, PointsLA.measurements_request sensor_id <$> seq 1 k)
     ∧ (k ≤ 50)%nat
     ∧ ∀ p, (1 ≤ p)%nat → (p < k)%nat →
         ∃ results, session_get (PointsLA.measurements_request sensor_id p)
                    = Results results ∧ results ≠ [])
  ∧ (∃ series k,
       DailyLA.extract_daily_measurements_from_sensor to_datetime session_get
         sensor_id parameter_name target_points
       = Some (series, DailyLA.days_request sensor_id <$> seq 1 k)
       ∧ (k ≤ 50)%nat
       ∧ ∀ p, (1 ≤ p)%nat → (p < k)%nat →
           ∃ results, session_get (DailyLA.days_request sensor_id p)
                      = Results results ∧ results ≠ []).
Proof.
  rewrite points_extract_paged, daily_extract_paged. split.
  - destruct (paged_series_fetcher_trace PointsLA.timestamp
                (PointsLA.measurements_request sensor_id)
                (PointsLA.process_record to_datetime parameter_name)
                session_get target_points) as (series & k & ? & ? & ? & _).
    by exists series, k.
  - destruct (paged_series_fetcher_trace DailyLA.date
                (DailyLA.days_request sensor_id)
                (DailyLA.process_record to_datetime parameter_name)
                session_get target_points) as (series & k & ? & ? & ? & _).
    by exists series, k.
Qed.

Lemma seq_fmap_request_inj (make_request : nat → request) (k k' : nat) :
  make_request <$> seq 1 k = make_request <$> seq 1 k' → k = k'.
Proof.
  intros Heq. apply (f_equal length) in Heq.
  by rewrite !length_fmap, !length_seq in Heq.
Qed.

(** ** What a fetch keeps and what it cuts *)

Section PagedSeriesFetcherKeeps.
Context {M : Type}.
Variable key : M → Z.
Variable make_request : nat → request.
Variable process : pyobj → option M.
Variable session_get : request → response.

Lemma sort_trim_keeps_the_latest (target : Z) (acc : list M) :
  acc = [] ∨ 0 < target →
  ∃ cut,
    sort_by key acc = cut ++ sort_trim key target acc
    ∧ Z.of_nat (length (sort_trim key target acc))
      = Z.max 0 target `min` Z.of_nat (length acc)
    ∧ ∀ old kept, old ∈ cut → kept ∈ sort_trim key target acc → key old ≤ key kept.
Proof.
  intros Hcase. unfold sort_trim.
  destruct (Z.ltb_spec 0 (Z.of_nat (length acc))) as [Hlen|Hlen].
  - destruct Hcase as [-> | Hpos]; [simpl in Hlen; lia|].
    destruct (trim_suffix target (sort_by key acc)) as [cut Hcut].
    exists cut. split; [done|]. split.
    + replace target with (Z.of_nat (Z.to_nat target)) by lia.
      rewrite trim_length, sort_by_Permutation. lia.
    + intros old kept Hold Hkept.
      pose proof (StronglySorted_sort_by key acc) as Hsorted.
      rewrite Hcut in Hsorted.
      exact (StronglySorted_app_1_elem_of _ _ _ _ _ Hsorted Hold Hkept).
  - destruct acc; [|simpl in Hlen; lia]. exists []. split; [done|].
    split; [simpl; lia|]. intros old kept Hold. by apply elem_of_nil in Hold.
Qed.

Lemma paged_series_fetcher_keeps_the_latest target series k :
  paged_series_fetcher key make_request process session_get target
  = Some (series, make_request <$> seq 1 k) →
  (∀ p, (1 ≤ p ≤ k)%nat → session_get (make_request p) ≠ TransportError) →
  ∃ cut,
    sort_by key (omap process (pages_from make_request session_get 1 k))
    = cut ++ series
    ∧ Z.of_nat (length series)
      = Z.max 0 target
        `min` Z.of_nat (length (omap process (pages_from make_request session_get 1 k)))
    ∧ ∀ old kept, old ∈ cut → kept ∈ series → key old ≤ key kept.
Proof.
  intros Hfetch Hok.
  destruct (paged_series_fetcher_trace key make_request process session_get target)
    as (series' & k' & Hfetch' & _ & _ & Hseries).
  rewrite Hfetch in Hfetch'. injection Hfetch' as -> Hk%seq_fmap_request_inj.
  subst k'. rewrite (Hseries Hok).
  apply sort_trim_keeps_the_latest.
  destruct (Z.ltb_spec 0 target) as [Hpos|Hneg]; [by right|]. left.
  rewrite paged_series_fetcher_no_target in Hfetch by done.
  injection Hfetch as _ Hsent. by destruct k.
Qed.

(** The same without a word on the order of equal keys: the frame and
    what was cut are the measurements of the pages, in ascending order
    together. *)
Lemma paged_series_fetcher_cut target series k :
  paged_series_fetcher key make_request process session_get target
  = Some (series, make_request <$> seq 1 k) →
  (∀ p, (1 ≤ p ≤ k)%nat → session_get (make_request p) ≠ TransportError) →
  ∃ cut,
    cut ++ series ≡ₚ omap process (pages_from make_request session_get 1 k)
    ∧ Z.of_nat (length series)
      = Z.max 0 target
        `min` Z.of_nat (length (omap process (pages_from make_request session_get 1 k)))
    ∧ (Z.of_nat (length (omap process (pages_from make_request session_get 1 k))) ≤ target
       → cut = []).
Proof.
  intros Hfetch Hok.
  destruct (paged_series_fetcher_keeps_the_latest target series k Hfetch Hok)
    as (cut & Hcut & Hlength & _).
  exists cut. split; [by rewrite <- Hcut, sort_by_Permutation|]. split; [done|].
  intros Hbelow. apply (f_equal length) in Hcut.
  rewrite sort_by_Permutation, length_app in Hcut.
  destruct cut; [done|]. simpl in Hcut. lia.
Qed.

Lemma paged_series_fetcher_latest target series k :
  paged_series_fetcher key make_request process session_get target
  = Some (series, make_request <$> seq 1 k) →
  (∀ p, (1 ≤ p ≤ k)%nat → session_get (make_request p) ≠ TransportError) →
  ∃ cut,
    cut ++ series ≡ₚ omap process (pages_from make_request session_get 1 k)
    ∧ Sorted (key_le key) (cut ++ series)
    ∧ Z.of_nat (length series)
      = Z.max 0 target
        `min` Z.of_nat (length (omap process (pages_from make_request session_get 1 k)))
    ∧ ∀ old kept, old ∈ cut → kept ∈ series → key old ≤ key kept.
Proof.
  intros Hfetch Hok.
  destruct (paged_series_fetcher_keeps_the_latest target series k Hfetch Hok)
    as (cut & Hcut & Hlength & Horder).
  exists cut. split; [by rewrite <- Hcut, sort_by_Permutation|].
  split; [rewrite <- Hcut; apply Sorted_sort_by|]. by split.
Qed.

End PagedSeriesFetcherKeeps.

(** When none of the requests failed, the frame is made of the
    measurements of the records of the pages requested, and of nothing
    else: the frame and what was cut are these measurements, each as often
    as it came; the frame is cut to [target_points] rows when there are
    more, and when there are not more nothing is cut.  For
    [extract_measurements_from_sensor] this is said of a frame that has
    rows (a frame that could not be sorted comes back without rows). *)
Theorem fetch_returns_the_requested_pages
    (to_datetime : pyobj → try Z) (session_get : request → response)
    (sensor_id : Z) (parameter_name : string) (target_points : Z) :
  (∀ series k accumulated,
     accumulated = omap (PointsLA.process_record to_datetime parameter_name)
       (pages_from (PointsLA.measurements_request sensor_id) session_get 1 k) →
     PointsLA.extract_measurements_from_sensor to_datetime session_get
       sensor_id parameter_name target_points
     = Some (series, PointsLA.measurements_request sensor_id <$> seq 1 k) →
     (∀ p, (1 ≤ p ≤ k)%nat →
        session_get (PointsLA.measurements_request sensor_id p) ≠ TransportError) →
     series ≠ [] →
     ∃ cut,
       cut ++ series ≡ₚ accumulated
       ∧ Z.of_nat (length series)
         = Z.max 0 target_points `min` Z.of_nat (length accumulated)
       ∧ (Z.of_nat (length accumulated) ≤ target_points → cut = []))
  ∧ (∀ series k accumulated,
       accumulated = omap (DailyLA.process_record to_datetime parameter_name)
         (pages_from (DailyLA.days_request sensor_id) session_get 1 k) →
       DailyLA.extract_daily_measurements_from_sensor to_datetime session_get
         sensor_id parameter_name target_points
       = Some (series, DailyLA.days_request sensor_id <$> seq 1 k) →
       (∀ p, (1 ≤ p ≤ k)%nat →
          session_get (DailyLA.days_request sensor_id p) ≠ TransportError) →
       ∃ cut,
         cut ++ series ≡ₚ accumulated
         ∧ Z.of_nat (length series)
           = Z.max 0 target_points `min` Z.of_nat (length accumulated)
         ∧ (Z.of_nat (length accumulated) ≤ target_points → cut = [])).
Proof.
  rewrite points_extract_paged, daily_extract_paged.
  split.
  - intros series k accumulated -> Hfetch Hok _.
    by apply (paged_series_fetcher_cut PointsLA.timestamp).
  - intros series k accumulated -> Hfetch Hok.
    by apply (paged_series_fetcher_cut DailyLA.date).
Qed.

Lemma fetch_returns_the_requested_pages_witness :
  ∃ cut,
    cut ++ [ {| PointsLA.timestamp := 1704067200 * ns_per_second; PointsLA.value := num 1 |};
             {| PointsLA.timestamp := 1704070800 * ns_per_second; PointsLA.value := num 3 |};
             {| PointsLA.timestamp := 1704074400 * ns_per_second; PointsLA.value := num 4 |} ]
    ≡ₚ omap (PointsLA.process_record to_datetime_iso "no2")
         (pages_from (PointsLA.measurements_request 25192) bad_record_source 1 3).
Proof.
  destruct (fetch_returns_the_requested_pages to_datetime_iso bad_record_source
              25192 "no2" 10) as [Hpoints _].
  destruct (Hpoints
    [ {| PointsLA.timestamp := 1704067200 * ns_per_second; PointsLA.value := num 1 |};
      {| PointsLA.timestamp := 1704070800 * ns_per_second; PointsLA.value := num 3 |};
      {| PointsLA.timestamp := 1704074400 * ns_per_second; PointsLA.value := num 4 |} ]
    3%nat _ eq_refl) as (cut & Hcut & _).
  - vm_compute. reflexivity.
  - intros p _. unfold bad_record_source. simpl.
    destruct p as [|[|[|p]]]; discriminate.
  - discriminate.
  - by exists cut.
Defined.

(** ** What one record contributes *)

(** A record that is not an object, an object without the key [period],
    and a record whose [value] is missing or null contribute nothing, in
    both fetch functions, and raise nothing. *)
Theorem record_without_timestamp_or_value_is_skipped
    (to_datetime : pyobj → try Z) (parameter_name : string) (record : pyobj) :
  (∀ items, record ≠ PyDict items)
  ∨ (∃ items, record = PyDict items ∧ dict_lookup "period" items = None)
  ∨ py_get record "value" PyNone = Returned PyNone →
  PointsLA.process_record to_datetime parameter_name record = None
  ∧ DailyLA.process_record to_datetime parameter_name record = None.
Proof.
  unfold PointsLA.process_record, DailyLA.process_record,
    PointsLA.record_body, DailyLA.record_body.
  intros [Hnodict | [(items & -> & Hperiod) | Hvalue]].
  - destruct record; try done. by destruct (Hnodict items).
  - simpl. by rewrite Hperiod.
  - destruct (py_get record "period" _) as [period|]; [|done]. simpl.
    destruct (py_get period "datetimeFrom" _) as [datetime_from|]; [|done]. simpl.
    destruct (py_get datetime_from "utc" _) as [timestamp_str|]; [|done]. simpl.
    destruct (negb (truthy timestamp_str)); [done|].
    destruct (to_datetime timestamp_str) as [timestamp|]; [|done]. simpl.
    rewrite Hvalue. simpl.
    by destruct (py_get record "parameter" _) as [parameter|]; [simpl;
      destruct (py_get parameter "units" _)|].
Qed.

Lemma record_without_value_witness :
  PointsLA.process_record to_datetime_iso "no2"
    (api_record "2024-01-01T00:00:00Z" PyNone "ug/m3") = None
  ∧ DailyLA.process_record to_datetime_iso "no2"
      (api_record "2024-01-01T00:00:00Z" PyNone "ug/m3") = None.
Proof.
  apply (record_without_timestamp_or_value_is_skipped to_datetime_iso "no2").
  right. right. reflexivity.
Defined.

(** A record of the API's shape with a timestamp that parses and a
    numeric value contributes exactly one measurement: the parsed
    timestamp (its calendar day, in the daily function) and the value,
    multiplied by the factor of the pollutant when the unit is "ppm" in
    any letter case and left as it is for every other unit.  The daily
    function has factors for NO2 and O3 only.  Without the key
    [parameter] the unit is taken to be "unknown" and the value is kept as
    it is. *)
Theorem well_formed_record_yields_one_measurement
    (to_datetime : pyobj → try Z) (parameter_name utc units : string)
    (t : Z) (v : Qc) :
  utc ≠ "" → to_datetime (PyStr utc) = Returned t →
  PointsLA.process_record to_datetime parameter_name (api_record utc (PyNum v) units)
  = Some {| PointsLA.timestamp := t;
            PointsLA.value :=
              PyNum (if String.eqb (lower units) "ppm" then
                       if String.eqb (lower parameter_name) "no2"
                       then (v * Q2Qc (inject_Z 1880))%Qc
                       else if String.eqb (lower parameter_name) "o3"
                       then (v * Q2Qc (inject_Z 1960))%Qc
                       else if String.eqb (lower parameter_name) "hcho"
                       then (v * Q2Qc (inject_Z 1230))%Qc
                       else v
                     else v) |}
  ∧ DailyLA.process_record to_datetime parameter_name (api_record utc (PyNum v) units)
    = Some {| DailyLA.date := date_of t;
              DailyLA.value :=
                PyNum (if String.eqb (lower units) "ppm" then
                         if String.eqb (lower parameter_name) "no2"
                         then (v * Q2Qc (inject_Z 1880))%Qc
                         else if String.eqb (lower parameter_name) "o3"
                         then (v * Q2Qc (inject_Z 1960))%Qc
                         else v
                       else v) |}
  ∧ PointsLA.process_record to_datetime parameter_name
      (PyDict [("period", PyDict [("datetimeFrom", PyDict [("utc", PyStr utc)])]);
               ("value", PyNum v)])
    = Some {| PointsLA.timestamp := t; PointsLA.value := PyNum v |}
  ∧ DailyLA.process_record to_datetime parameter_name
      (PyDict [("period", PyDict [("datetimeFrom", PyDict [("utc", PyStr utc)])]);
               ("value", PyNum v)])
    = Some {| DailyLA.date := date_of t; DailyLA.value := PyNum v |}.
Proof.
  intros Hutc Hparse.
  unfold PointsLA.process_record, DailyLA.process_record,
    PointsLA.record_body, DailyLA.record_body,
    PointsLA.convert, DailyLA.convert.
  simpl. destruct (String.eqb_spec utc ""); [done|]. simpl.
  rewrite Hparse. simpl.
  repeat split.
  - destruct (String.eqb (lower units) "ppm"); [|done].
    by repeat (destruct (String.eqb (lower parameter_name) _)).
  - destruct (String.eqb (lower units) "ppm"); [|done].
    by repeat (destruct (String.eqb (lower parameter_name) _)).
Qed.

Lemma well_formed_record_witness :
  PointsLA.process_record to_datetime_iso "O3"
    (api_record "2024-01-01T00:00:00Z" (PyNum (Q2Qc (1 # 2))) "PPM")
  = Some {| PointsLA.timestamp := 1704067200 * ns_per_second;
            PointsLA.value := PyNum (Q2Qc (1 # 2) * Q2Qc (inject_Z 1960))%Qc |}.
Proof.
  destruct (well_formed_record_yields_one_measurement to_datetime_iso "O3"
              "2024-01-01T00:00:00Z" "PPM" (1704067200 * ns_per_second) (Q2Qc (1 # 2)))
    as [Hpoints _].
  - discriminate.
  - reflexivity.
  - exact Hpoints.
Defined.

(** ** Left joins on any frames *)

Section MergeLeftFacts.
Context {L R V : Type}.
Variable lkey : L → Z.
Variable rkey : R → Z.
Variable rval : R → V.

Lemma merge_left_no_right (left : list L) :
  merge_left lkey rkey rval left [] = nan_column left.
Proof.
  unfold merge_left, nan_column.
  induction left as [|l left IH]; [done|].
  rewrite bind_cons, IH. reflexivity.
Qed.

(** The rows of a left join: each left row, with a matching value or
    with nothing when there is no match. *)
Lemma merge_left_elem (left : list L) (right : list R) (x : L * option V) :
  x ∈ merge_left lkey rkey rval left right ↔
  x.1 ∈ left ∧ cell_agrees rkey rval right (lkey x.1) x.2.
Proof.
  unfold merge_left. rewrite list_elem_of_bind. split.
  - intros (l & Hx & Hl).
    destruct (filter (λ r, rkey r = lkey l) right) as [|r0 rest] eqn:Hfilter.
    + apply list_elem_of_singleton in Hx as ->. split; [done|]. simpl.
      intros (r & Hkey & Hr)%list_elem_of_fmap.
      by apply (filter_nil_not_elem_of (λ r, rkey r = lkey l) right r Hfilter).
    + apply list_elem_of_fmap in Hx as (r & -> & Hr). split; [done|]. simpl.
      rewrite <- Hfilter in Hr. apply list_elem_of_filter in Hr as [Hkey Hr].
      by exists r.
  - destruct x as [l cell]. simpl. intros [Hl Hcell]. exists l. split; [|done].
    destruct cell as [v|]; simpl in Hcell.
    + destruct Hcell as (r & Hr & Hkey & <-).
      assert (Hin : r ∈ filter (λ r, rkey r = lkey l) right)
        by by apply list_elem_of_filter.
      destruct (filter (λ r, rkey r = lkey l) right) as [|r0 rest];
        [by apply elem_of_nil in Hin|].
      exact (list_elem_of_fmap_2 (λ r, (l, Some (rval r))) (r0 :: rest) r Hin).
    + destruct (filter (λ r, rkey r = lkey l) right) as [|r0 rest] eqn:Hfilter;
        [by apply list_elem_of_singleton|].
      exfalso. apply Hcell.
      assert (Hin : r0 ∈ filter (λ r, rkey r = lkey l) right)
        by (rewrite Hfilter; left).
      apply list_elem_of_filter in Hin as [Hkey Hin].
      rewrite <- Hkey. by apply list_elem_of_fmap_2.
Qed.

(** Every left row is in the join at least once. *)
Lemma merge_left_covers (left : list L) (right : list R) (l : L) :
  l ∈ left → ∃ cell, (l, cell) ∈ merge_left lkey rkey rval left right.
Proof.
  intros Hl. unfold merge_left.
  destruct (filter (λ r, rkey r = lkey l) right) as [|r0 rest] eqn:Hfilter.
  - exists None. apply list_elem_of_bind. exists l. rewrite Hfilter.
    split; [by apply list_elem_of_singleton|done].
  - exists (Some (rval r0)). apply list_elem_of_bind. exists l. rewrite Hfilter.
    split; [|done]. apply list_elem_of_fmap. exists r0. split; [done|left].
Qed.

Lemma merge_left_keys_elem (left : list L) (right : list R) (k : Z) :
  k ∈ (λ x, lkey x.1) <$> merge_left lkey rkey rval left right ↔ k ∈ lkey <$> left.
Proof.
  rewrite !list_elem_of_fmap. split.
  - intros (x & -> & [Hx _]%merge_left_elem). by exists x.1.
  - intros (l & -> & Hl).
    destruct (merge_left_covers left right l Hl) as [cell Hcell].
    by exists (l, cell).
Qed.

(** A left join keeps the left rows in their order. *)
Lemma merge_left_keys_sorted (left : list L) (right : list R) :
  StronglySorted Z.le (lkey <$> left) →
  StronglySorted Z.le ((λ x, lkey x.1) <$> merge_left lkey rkey rval left right).
Proof.
  induction left as [|l left IH]; [constructor|].
  rewrite fmap_cons. intros [Hhead Hsorted]%StronglySorted_cons.
  replace (merge_left lkey rkey rval (l :: left) right)
    with (merge_left lkey rkey rval [l] right ++ merge_left lkey rkey rval left right)
    by (unfold merge_left; symmetry; apply (bind_app _ [l] left)).
  rewrite fmap_app. apply StronglySorted_app_2.
  - intros k1 k2 Hk1 Hk2.
    apply merge_left_keys_elem in Hk1, Hk2.
    apply list_elem_of_singleton in Hk1 as ->.
    rewrite Forall_forall in Hhead. by apply Hhead.
  - assert (Hsame : Forall (λ k, k = lkey l)
                      ((λ x, lkey x.1) <$> merge_left lkey rkey rval [l] right)).
    { apply Forall_forall. intros k Hk%merge_left_keys_elem.
      by apply list_elem_of_singleton in Hk. }
    induction Hsame as [|k ks -> Hks IHks]; constructor; [done|].
    eapply Forall_impl; [exact Hks|]. intros ? ->. reflexivity.
  - by apply IH.
Qed.

(** A left join never has fewer rows than the left frame. *)
Lemma merge_left_length (left : list L) (right : list R) :
  (length left ≤ length (merge_left lkey rkey rval left right))%nat.
Proof.
  unfold merge_left. induction left as [|l left IH]; [done|].
  rewrite bind_cons, length_app.
  set (n := length (left ≫= _)) in *.
  destruct (filter (λ r, rkey r = lkey l) right) as [|r0 rest];
    [|rewrite length_fmap]; simpl length; lia.
Qed.

End MergeLeftFacts.

Lemma points_add_column_merge_left {L : Type} (lkey : L → Z) (df_combined : list L)
    (df : list PointsLA.measurement) :
  PointsLA.add_column lkey df_combined df =
  merge_left lkey PointsLA.timestamp PointsLA.value df_combined df.
Proof.
  unfold PointsLA.add_column. destruct df as [|m df]; [|done].
  simpl. by rewrite merge_left_no_right.
Qed.

Lemma daily_add_column_merge_left {L : Type} (lkey : L → Z) (df_combined : list L)
    (df : list DailyLA.measurement) :
  DailyLA.add_column lkey df_combined df =
  merge_left lkey DailyLA.date DailyLA.value df_combined df.
Proof.
  unfold DailyLA.add_column. destruct df as [|m df]; [|done].
  simpl. by rewrite merge_left_no_right.
Qed.

Lemma daily_update_dates_union (all_dates : gset Z) (df : list DailyLA.measurement) :
  DailyLA.update_dates all_dates df = all_dates ∪ list_to_set (DailyLA.date <$> df).
Proof.
  unfold DailyLA.update_dates. destruct df as [|m df]; [|done].
  simpl. by rewrite (right_id_L ∅ (∪)).
Qed.

Lemma sorted_keys_ascending (s : gset Z) : StronglySorted Z.le (sorted_keys s).
Proof. apply (Sorted_StronglySorted _), sorted_keys_Sorted. Qed.

(** ** The combined tables, for any frames *)

Lemma points_combine_merges (df_no2 df_o3 df_hcho : list PointsLA.measurement) :
  PointsLA.combine df_no2 df_o3 df_hcho
  = (λ '(t, no2, o3, hcho), PointsLA.CombinedRow t no2 o3 hcho)
      <$> merge_left (fst ∘ fst) PointsLA.timestamp PointsLA.value
            (merge_left fst PointsLA.timestamp PointsLA.value
               (merge_left id PointsLA.timestamp PointsLA.value
                  (sorted_keys (list_to_set (PointsLA.timestamp <$> df_no2)
                                ∪ list_to_set (PointsLA.timestamp <$> df_o3)
                                ∪ list_to_set (PointsLA.timestamp <$> df_hcho)))
                  df_no2)
               df_o3)
            df_hcho.
Proof.
  unfold PointsLA.combine.
  by rewrite !update_timestamps_union, (left_id_L ∅ (∪)), !points_add_column_merge_left.
Qed.

Lemma points_combine_keys (m3 : list (Z * option pyobj * option pyobj * option pyobj)) :
  PointsLA.row_timestamp
    <$> ((λ '(t, no2, o3, hcho), PointsLA.CombinedRow t no2 o3 hcho) <$> m3)
  = (λ x, (fst ∘ fst) x.1) <$> m3.
Proof.
  rewrite <- list_fmap_compose. apply list_fmap_ext.
  by intros i [[[t no2] o3] hcho] _.
Qed.

Lemma points_combine_sorted (df_no2 df_o3 df_hcho : list PointsLA.measurement) :
  StronglySorted Z.le
    (PointsLA.row_timestamp <$> PointsLA.combine df_no2 df_o3 df_hcho).
Proof.
  rewrite points_combine_merges, points_combine_keys.
  set (keys := sorted_keys _).
  set (m1 := merge_left id PointsLA.timestamp PointsLA.value keys df_no2).
  set (m2 := merge_left fst PointsLA.timestamp PointsLA.value m1 df_o3).
  apply merge_left_keys_sorted.
  change (StronglySorted Z.le ((λ x, fst x.1) <$> m2)).
  apply merge_left_keys_sorted.
  change (StronglySorted Z.le ((λ x, id x.1) <$> m1)).
  apply merge_left_keys_sorted.
  rewrite list_fmap_id. apply sorted_keys_ascending.
Qed.

Lemma points_combine_cells (df_no2 df_o3 df_hcho : list PointsLA.measurement)
    (row : PointsLA.combined_row) :
  row ∈ PointsLA.combine df_no2 df_o3 df_hcho →
  cell_agrees PointsLA.timestamp PointsLA.value df_no2
    (PointsLA.row_timestamp row) (PointsLA.no2_ug_m3 row)
  ∧ cell_agrees PointsLA.timestamp PointsLA.value df_o3
      (PointsLA.row_timestamp row) (PointsLA.o3_ug_m3 row)
  ∧ cell_agrees PointsLA.timestamp PointsLA.value df_hcho
      (PointsLA.row_timestamp row) (PointsLA.hcho_ug_m3 row).
Proof.
  rewrite points_combine_merges.
  intros (x & -> & Hx)%list_elem_of_fmap.
  apply merge_left_elem in Hx as [Hx2 Hhcho].
  apply merge_left_elem in Hx2 as [Hx1 Ho3].
  apply merge_left_elem in Hx1 as [_ Hno2].
  by destruct x as [[[t no2] o3] hcho].
Qed.

(** For any three frames, with or without repeated timestamps: the rows
    of the combined table are in ascending order of timestamp; their
    timestamps are those of the three frames and no others; and every
    cell is the value of a measurement of its pollutant's frame at the
    row's timestamp, or is absent when that frame has none there. *)
Theorem combine_is_ordered_union_with_faithful_cells
    (df_no2 df_o3 df_hcho : list PointsLA.measurement) :
  StronglySorted Z.le
    (PointsLA.row_timestamp <$> PointsLA.combine df_no2 df_o3 df_hcho)
  ∧ (∀ t, t ∈ PointsLA.row_timestamp <$> PointsLA.combine df_no2 df_o3 df_hcho
          ↔ t ∈ PointsLA.timestamp <$> df_no2 ++ df_o3 ++ df_hcho)
  ∧ (∀ row, row ∈ PointsLA.combine df_no2 df_o3 df_hcho →
       cell_agrees PointsLA.timestamp PointsLA.value df_no2
         (PointsLA.row_timestamp row) (PointsLA.no2_ug_m3 row)
       ∧ cell_agrees PointsLA.timestamp PointsLA.value df_o3
           (PointsLA.row_timestamp row) (PointsLA.o3_ug_m3 row)
       ∧ cell_agrees PointsLA.timestamp PointsLA.value df_hcho
           (PointsLA.row_timestamp row) (PointsLA.hcho_ug_m3 row)).
Proof.
  split; [apply points_combine_sorted|split; [|apply points_combine_cells]].
  intros t. rewrite points_combine_merges, points_combine_keys.
  set (keys := sorted_keys _).
  set (m1 := merge_left id PointsLA.timestamp PointsLA.value keys df_no2).
  set (m2 := merge_left fst PointsLA.timestamp PointsLA.value m1 df_o3).
  rewrite merge_left_keys_elem.
  change (t ∈ (λ x, fst x.1) <$> m2 ↔ t ∈ PointsLA.timestamp <$> df_no2 ++ df_o3 ++ df_hcho).
  unfold m2. rewrite merge_left_keys_elem.
  change (t ∈ (λ x, id x.1) <$> m1 ↔ t ∈ PointsLA.timestamp <$> df_no2 ++ df_o3 ++ df_hcho).
  unfold m1. rewrite merge_left_keys_elem, list_fmap_id.
  unfold keys. rewrite sorted_keys_elem_of, !fmap_app, !elem_of_app,
    !elem_of_union, !elem_of_list_to_set. tauto.
Qed.

Lemma daily_combine_merges (df_no2 df_o3 : list DailyLA.measurement) :
  DailyLA.combine df_no2 df_o3
  = (λ '(d, no2, o3), DailyLA.CombinedRow d no2 o3)
      <$> merge_left fst DailyLA.date DailyLA.value
            (merge_left id DailyLA.date DailyLA.value
               (sorted_keys (list_to_set (DailyLA.date <$> df_no2)
                             ∪ list_to_set (DailyLA.date <$> df_o3)))
               df_no2)
            df_o3.
Proof.
  unfold DailyLA.combine.
  by rewrite !daily_update_dates_union, (left_id_L ∅ (∪)), !daily_add_column_merge_left.
Qed.

Lemma daily_combine_keys (m2 : list (Z * option pyobj * option pyobj)) :
  DailyLA.row_date <$> ((λ '(d, no2, o3), DailyLA.CombinedRow d no2 o3) <$> m2)
  = (λ x, fst x.1) <$> m2.
Proof.
  rewrite <- list_fmap_compose. apply list_fmap_ext.
  by intros i [[d no2] o3] _.
Qed.

Lemma daily_combine_sorted (df_no2 df_o3 : list DailyLA.measurement) :
  StronglySorted Z.le (DailyLA.row_date <$> DailyLA.combine df_no2 df_o3).
Proof.
  rewrite daily_combine_merges, daily_combine_keys.
  set (keys := sorted_keys _).
  set (m1 := merge_left id DailyLA.date DailyLA.value keys df_no2).
  apply merge_left_keys_sorted.
  change (StronglySorted Z.le ((λ x, id x.1) <$> m1)).
  apply merge_left_keys_sorted.
  rewrite list_fmap_id. apply sorted_keys_ascending.
Qed.

Lemma daily_combine_cells (df_no2 df_o3 : list DailyLA.measurement)
    (row : DailyLA.combined_row) :
  row ∈ DailyLA.combine df_no2 df_o3 →
  cell_agrees DailyLA.date DailyLA.value df_no2
    (DailyLA.row_date row) (DailyLA.no2_ug_m3 row)
  ∧ cell_agrees DailyLA.date DailyLA.value df_o3
      (DailyLA.row_date row) (DailyLA.o3_ug_m3 row).
Proof.
  rewrite daily_combine_merges.
  intros (x & -> & Hx)%list_elem_of_fmap.
  apply merge_left_elem in Hx as [Hx1 Ho3].
  apply merge_left_elem in Hx1 as [_ Hno2].
  by destruct x as [[d no2] o3].
Qed.

(** For any two daily frames, with or without repeated dates: the rows
    of the combined daily table are in ascending order of date; their
    dates are those of the two frames and no others; and every cell is
    the value of a measurement of its pollutant's frame at the row's
    date, or is absent when that frame has none there. *)
Theorem daily_combine_is_ordered_union_with_faithful_cells
    (df_no2 df_o3 : list DailyLA.measurement) :
  StronglySorted Z.le (DailyLA.row_date <$> DailyLA.combine df_no2 df_o3)
  ∧ (∀ d, d ∈ DailyLA.row_date <$> DailyLA.combine df_no2 df_o3
          ↔ d ∈ DailyLA.date <$> df_no2 ++ df_o3)
  ∧ (∀ row, row ∈ DailyLA.combine df_no2 df_o3 →
       cell_agrees DailyLA.date DailyLA.value df_no2
         (DailyLA.row_date row) (DailyLA.no2_ug_m3 row)
       ∧ cell_agrees DailyLA.date DailyLA.value df_o3
           (DailyLA.row_date row) (DailyLA.o3_ug_m3 row)).
Proof.
  split; [apply daily_combine_sorted|split; [|apply daily_combine_cells]].
  intros d. rewrite daily_combine_merges, daily_combine_keys.
  set (keys := sorted_keys _).
  set (m1 := merge_left id DailyLA.date DailyLA.value keys df_no2).
  rewrite merge_left_keys_elem.
  change (d ∈ (λ x, id x.1) <$> m1 ↔ d ∈ DailyLA.date <$> df_no2 ++ df_o3).
  unfold m1. rewrite merge_left_keys_elem, list_fmap_id.
  unfold keys. rewrite sorted_keys_elem_of, !fmap_app, !elem_of_app,
    !elem_of_union, !elem_of_list_to_set. tauto.
Qed.

(** ** The two extraction functions as a whole *)

Lemma paged_series_fetcher_nothing {M : Type} (key : M → Z)
    (make_request : nat → request) (process : pyobj → option M)
    (session_get : request → response) (target : Z) :
  0 < target →
  session_get (make_request 1%nat) = TransportError
  ∨ session_get (make_request 1%nat) = Results [] →
  paged_series_fetcher key make_request process session_get target
  = Some ([], [make_request 1%nat]).
Proof.
  intros Hpos Hget. unfold paged_series_fetcher.
  change 50%nat with (S 49). rewrite paged_loop_unfold. simpl length.
  destruct (Z.ltb_spec (Z.of_nat 0) target); [|lia].
  by destruct Hget as [-> | ->].
Qed.

(** Every table that [extract_1000_points_los_angeles] produces has at
    most 10000 rows, in ascending order of timestamp, and its HCHO column
    is empty in every row: no HCHO sensor is configured. *)
Theorem points_table_bounded_ordered_without_hcho
    (to_datetime : pyobj → try Z) (session_get : request → response)
    (table : list PointsLA.combined_row) :
  PointsLA.extract_1000_points_los_angeles to_datetime session_get = Some table →
  Z.of_nat (length table) ≤ 10000
  ∧ StronglySorted Z.le (PointsLA.row_timestamp <$> table)
  ∧ ∀ row, row ∈ table → PointsLA.hcho_ug_m3 row = None.
Proof.
  unfold PointsLA.extract_1000_points_los_angeles.
  destruct (PointsLA.extract_measurements_from_sensor _ _ 25192 _ _)
    as [[df_no2 sent1]|]; [|done].
  destruct (PointsLA.extract_measurements_from_sensor _ _ 25193 _ _)
    as [[df_o3 sent2]|]; [|done].
  simpl. intros [= <-].
  pose proof (points_combine_sorted df_no2 df_o3 []) as Hsorted.
  pose proof (points_combine_cells df_no2 df_o3 []) as Hcells.
  destruct (trim_suffix 10000 (PointsLA.combine df_no2 df_o3 [])) as [older Holder].
  split; [|split].
  - by apply trim_bound.
  - rewrite Holder, fmap_app in Hsorted. by apply StronglySorted_app_1_r in Hsorted.
  - intros row Hrow.
    assert (Hin : row ∈ PointsLA.combine df_no2 df_o3 [])
      by (rewrite Holder; apply elem_of_app; by right).
    destruct (Hcells row Hin) as (_ & _ & Hhcho).
    destruct (PointsLA.hcho_ug_m3 row); [|done].
    destruct Hhcho as (r & Hr & _). by apply elem_of_nil in Hr.
Qed.

Lemma points_table_witness :
  Z.of_nat 4 ≤ 10000
  ∧ StronglySorted Z.le
      [ 1704067200 * ns_per_second; 1704070800 * ns_per_second;
        1704070800 * ns_per_second; 1704074400 * ns_per_second ]
  ∧ ∀ row,
      row ∈ [ PointsLA.CombinedRow (1704067200 * ns_per_second) (Some (num 5)) None None;
              PointsLA.CombinedRow (1704070800 * ns_per_second) (Some (num 6)) None None;
              PointsLA.CombinedRow (1704070800 * ns_per_second) (Some (num 6)) None None;
              PointsLA.CombinedRow (1704074400 * ns_per_second) (Some (num 7)) None None ] →
      PointsLA.hcho_ug_m3 row = None.
Proof.
  apply (points_table_bounded_ordered_without_hcho to_datetime_iso overlapping_source
    [ PointsLA.CombinedRow (1704067200 * ns_per_second) (Some (num 5)) None None;
      PointsLA.CombinedRow (1704070800 * ns_per_second) (Some (num 6)) None None;
      PointsLA.CombinedRow (1704070800 * ns_per_second) (Some (num 6)) None None;
      PointsLA.CombinedRow (1704074400 * ns_per_second) (Some (num 7)) None None ]).
  vm_compute. reflexivity.
Defined.

(** [extract_1000_daily_points_los_angeles] always produces a table of at
    most 1000 rows, in ascending order of date. *)
Theorem daily_table_bounded_ordered
    (to_datetime : pyobj → try Z) (session_get : request → response) :
  ∃ table,
    DailyLA.extract_1000_daily_points_los_angeles to_datetime session_get = Some table
    ∧ Z.of_nat (length table) ≤ 1000
    ∧ StronglySorted Z.le (DailyLA.row_date <$> table).
Proof.
  unfold DailyLA.extract_1000_daily_points_los_angeles.
  rewrite !daily_extract_paged.
  destruct (paged_series_fetcher_returns DailyLA.date
              (DailyLA.days_request 25192)
              (DailyLA.process_record to_datetime "no2") session_get 1000)
    as (df_no2 & sent1 & -> & _).
  destruct (paged_series_fetcher_returns DailyLA.date
              (DailyLA.days_request 25193)
              (DailyLA.process_record to_datetime "o3") session_get 1000)
    as (df_o3 & sent2 & -> & _).
  simpl. eexists. split; [done|].
  pose proof (daily_combine_sorted df_no2 df_o3) as Hsorted.
  destruct (trim_suffix 1000 (DailyLA.combine df_no2 df_o3)) as [older Holder].
  split.
  - by apply trim_bound.
  - rewrite Holder, fmap_app in Hsorted. by apply StronglySorted_app_1_r in Hsorted.
Qed.

(** When the first request for each of the two sensors fails or comes
    back empty, the table is empty: a table is produced all the same. *)
Theorem tables_empty_when_nothing_arrives
    (to_datetime : pyobj → try Z) (session_get : request → response) :
  ((session_get (PointsLA.measurements_request 25192 1) = TransportError
    ∨ session_get (PointsLA.measurements_request 25192 1) = Results []) →
   (session_get (PointsLA.measurements_request 25193 1) = TransportError
    ∨ session_get (PointsLA.measurements_request 25193 1) = Results []) →
   PointsLA.extract_1000_points_los_angeles to_datetime session_get = Some [])
  ∧ ((session_get (DailyLA.days_request 25192 1) = TransportError
      ∨ session_get (DailyLA.days_request 25192 1) = Results []) →
     (session_get (DailyLA.days_request 25193 1) = TransportError
      ∨ session_get (DailyLA.days_request 25193 1) = Results []) →
     DailyLA.extract_1000_daily_points_los_angeles to_datetime session_get = Some []).
Proof.
  split; intros Hno2 Ho3.
  - unfold PointsLA.extract_1000_points_los_angeles.
    rewrite !points_extract_paged.
    by rewrite !paged_series_fetcher_nothing.
  - unfold DailyLA.extract_1000_daily_points_los_angeles.
    rewrite !daily_extract_paged.
    by rewrite !paged_series_fetcher_nothing.
Qed.

Lemma tables_empty_witness :
  PointsLA.extract_1000_points_los_angeles to_datetime_iso down_source = Some []
  ∧ DailyLA.extract_1000_daily_points_los_angeles to_datetime_iso exhausted_source
    = Some [].
Proof.
  split.
  - apply (tables_empty_when_nothing_arrives to_datetime_iso down_source);
      left; reflexivity.
  - apply (tables_empty_when_nothing_arrives to_datetime_iso exhausted_source);
      right; reflexivity.
Defined.

(** ** More on the daily aggregation *)

Lemma date_of_midnight (d : Z) : date_of (midnight d) = d.
Proof. unfold date_of, midnight. by apply Z.div_mul. Qed.

Lemma midnight_date_of_bounds (t : Z) :
  midnight (date_of t) ≤ t < midnight (date_of t) + ns_per_day.
Proof.
  unfold date_of, midnight.
  assert (0 < ns_per_day) by done.
  pose proof (Z.div_mod t ns_per_day).
  pose proof (Z.mod_pos_bound t ns_per_day).
  lia.
Qed.

Lemma round3_idempotent (q : Qc) :
  DailyNO2.round3 (DailyNO2.round3 q) = DailyNO2.round3 q.
Proof. unfold DailyNO2.round3 at 2 3. apply round3_thousandths. Qed.

(** A frame with one row for each day, in ascending order of day, is
    aggregated row by row. *)
Lemma create_daily_no2_row_by_row (df : list DailyNO2.row) :
  df ≠ [] →
  StronglySorted Z.lt ((λ r, date_of (DailyNO2.timestamp r)) <$> df) →
  DailyNO2.create_daily_no2 df =
  Returned
    ((λ r, {| DailyNO2.timestamp := midnight (date_of (DailyNO2.timestamp r));
              DailyNO2.no2_ug_m3 := DailyNO2.round3 <$> DailyNO2.no2_ug_m3 r |}) <$> df).
Proof.
  intros Hdf Hdays.
  rewrite create_daily_no2_rows, sorted_keys_of_ascending by done. f_equal.
  rewrite <- list_fmap_compose.
  apply list_fmap_ext. intros i r Hr%list_elem_of_lookup_2. simpl.
  unfold daily_row.
  rewrite (filter_unique_key (λ r, date_of (DailyNO2.timestamp r)) df r);
    [|by apply ascending_NoDup|done].
  simpl. by rewrite mean_single.
Qed.

(** What [create_daily_no2] returns, it returns for a frame that has
    rows, and it is the frame of the rows of the days of that frame. *)
Lemma create_daily_no2_returned (df daily : list DailyNO2.row) :
  DailyNO2.create_daily_no2 df = Returned daily →
  df ≠ []
  ∧ daily = daily_row df
              <$> sorted_keys (list_to_set ((λ r, date_of (DailyNO2.timestamp r)) <$> df)).
Proof.
  intros Hdaily. assert (Hdf : df ≠ []) by (by intros ->).
  split; [done|]. rewrite create_daily_no2_rows in Hdaily by done.
  by injection Hdaily.
Qed.

(** On a frame that has rows, the daily frame has one row for each
    distinct day of the hourly frame, so never more rows than the hourly
    frame. *)
Theorem daily_frame_one_row_per_distinct_day (df : list DailyNO2.row) :
  df ≠ [] →
  ∃ daily,
    DailyNO2.create_daily_no2 df = Returned daily
    ∧ length daily
      = size (list_to_set ((λ r, date_of (DailyNO2.timestamp r)) <$> df) : gset Z)
    ∧ (length daily ≤ length df)%nat.
Proof.
  intros Hdf. eexists. split; [by apply create_daily_no2_rows|].
  rewrite length_fmap.
  set (days := (λ r, date_of (DailyNO2.timestamp r)) <$> df).
  split.
  - unfold sorted_keys. by rewrite merge_sort_Permutation.
  - replace (length df) with (length days) by apply length_fmap.
    apply submseteq_length, NoDup_submseteq; [apply sorted_keys_NoDup|].
    intros d Hd. by apply sorted_keys_elem_of, elem_of_list_to_set in Hd.
Qed.

Lemma daily_frame_one_row_witness :
  ∃ daily,
    DailyNO2.create_daily_no2 two_readings = Returned daily
    ∧ length daily = 1%nat.
Proof.
  destruct (daily_frame_one_row_per_distinct_day two_readings)
    as (daily & Hdaily & Hlength & _).
  - discriminate.
  - exists daily. split; [exact Hdaily|]. rewrite Hlength. vm_compute. reflexivity.
Defined.

(** Aggregating a daily frame that [create_daily_no2] produced gives
    that frame back. *)
Theorem create_daily_no2_twice (df daily : list DailyNO2.row) :
  DailyNO2.create_daily_no2 df = Returned daily →
  DailyNO2.create_daily_no2 daily = Returned daily.
Proof.
  intros (Hdf & ->)%create_daily_no2_returned.
  set (days := sorted_keys _).
  assert (Hdays : days ≠ []).
  { destruct df as [|h df]; [done|]. intros Hnil.
    assert (Hin : date_of (DailyNO2.timestamp h) ∈ days)
      by (apply sorted_keys_elem_of, elem_of_list_to_set; left).
    rewrite Hnil in Hin. by apply elem_of_nil in Hin. }
  rewrite create_daily_no2_row_by_row.
  - f_equal. rewrite <- (list_fmap_id (daily_row df <$> days)) at 2.
    apply list_fmap_ext. intros i r Hr%list_elem_of_lookup_2. simpl.
    apply list_elem_of_fmap in Hr as (d & -> & _). unfold daily_row. simpl.
    rewrite date_of_midnight. f_equal.
    destruct (DailyNO2.mean _) as [v|]; [|done]. simpl.
    by rewrite round3_idempotent.
  - by destruct days.
  - rewrite <- list_fmap_compose.
    erewrite list_fmap_ext; [|intros i d _; simpl; apply date_of_midnight].
    rewrite list_fmap_id. apply sorted_keys_strictly_ascending.
Qed.

Lemma create_daily_no2_twice_witness :
  DailyNO2.create_daily_no2
    [ {| DailyNO2.timestamp := midnight 19723;
         DailyNO2.no2_ug_m3 := Some (Q2Qc (15000 # 1000)) |} ]
  = Returned [ {| DailyNO2.timestamp := midnight 19723;
                  DailyNO2.no2_ug_m3 := Some (Q2Qc (15000 # 1000)) |} ].
Proof.
  apply (create_daily_no2_twice two_readings). vm_compute. reflexivity.
Defined.

(** Every row of the hourly frame lies in the day of a row of the daily
    frame: at or after its midnight and less than 24 hours later. *)
Theorem hourly_row_within_its_daily_row (df : list DailyNO2.row) (h : DailyNO2.row) :
  h ∈ df →
  ∃ daily r,
    DailyNO2.create_daily_no2 df = Returned daily
    ∧ r ∈ daily
    ∧ DailyNO2.timestamp r = midnight (date_of (DailyNO2.timestamp h))
    ∧ DailyNO2.timestamp r ≤ DailyNO2.timestamp h
        < DailyNO2.timestamp r + ns_per_day.
Proof.
  intros Hh. eexists. exists (daily_row df (date_of (DailyNO2.timestamp h))).
  split; [apply create_daily_no2_rows; by intros ->; apply elem_of_nil in Hh|].
  split; [|split; [done|apply midnight_date_of_bounds]].
  apply list_elem_of_fmap_2.
  apply sorted_keys_elem_of, elem_of_list_to_set.
  by apply (list_elem_of_fmap_2 (λ r, date_of (DailyNO2.timestamp r))).
Qed.

Lemma hourly_row_within_its_daily_row_witness :
  ∃ daily r,
    DailyNO2.create_daily_no2 two_readings = Returned daily
    ∧ r ∈ daily
    ∧ DailyNO2.timestamp r = midnight (date_of (midnight 19723 + hours 14))
    ∧ DailyNO2.timestamp r ≤ midnight 19723 + hours 14
        < DailyNO2.timestamp r + ns_per_day.
Proof.
  apply (hourly_row_within_its_daily_row two_readings
           {| DailyNO2.timestamp := midnight 19723 + hours 14;
              DailyNO2.no2_ug_m3 := Some (Q2Qc 20) |}).
  apply list_elem_of_In. right. left. reflexivity.
Defined.

Lemma omap_id_nil {A : Type} (cells : list (option A)) :
  omap id cells = [] ↔ Forall (λ cell, cell = None) cells.
Proof.
  induction cells as [|[a|] cells IH]; csimpl.
  - split; [constructor|done].
  - split; [done|]. intros Hall. apply Forall_cons_1 in Hall as [Ha _]. done.
  - rewrite IH. split.
    + intros Hall. by constructor.
    + intros Hall. by apply Forall_cons_1 in Hall as [_ Hall].
Qed.

Lemma daily_row_absent_iff (df : list DailyNO2.row) (d : Z) :
  DailyNO2.no2_ug_m3 (daily_row df d) = None
  ↔ ∀ h, h ∈ df → date_of (DailyNO2.timestamp h) = d → DailyNO2.no2_ug_m3 h = None.
Proof.
  unfold daily_row. simpl.
  set (cells := DailyNO2.no2_ug_m3 <$> filter _ df).
  assert (Hmean : DailyNO2.round3 <$> DailyNO2.mean cells = None
                  ↔ omap id cells = []).
  { unfold DailyNO2.mean. case_bool_decide; [done|]. split; done. }
  rewrite Hmean, omap_id_nil. unfold cells.
  rewrite Forall_fmap, Forall_forall. split.
  - intros Hall h Hh Hd. apply (Hall h). by apply list_elem_of_filter.
  - intros Hall h [Hd Hh]%list_elem_of_filter. by apply Hall.
Qed.

(** The value of a row of the daily frame is absent exactly when none of
    the hourly rows of its day has a value: empty cells are left out of
    the mean, they do not count as zero, and a day with only empty cells
    still gets its row. *)
Theorem daily_value_absent_iff_day_without_value
    (df daily : list DailyNO2.row) (r : DailyNO2.row) :
  DailyNO2.create_daily_no2 df = Returned daily →
  r ∈ daily →
  DailyNO2.no2_ug_m3 r = None
  ↔ ∀ h, h ∈ df →
      date_of (DailyNO2.timestamp h) = date_of (DailyNO2.timestamp r) →
      DailyNO2.no2_ug_m3 h = None.
Proof.
  intros (_ & ->)%create_daily_no2_returned (d & -> & _)%list_elem_of_fmap.
  rewrite daily_row_absent_iff. unfold daily_row. simpl.
  by rewrite date_of_midnight.
Qed.

Lemma daily_value_absent_witness :
  DailyNO2.no2_ug_m3
    {| DailyNO2.timestamp := midnight 19724; DailyNO2.no2_ug_m3 := None |} = None
  ↔ ∀ h, h ∈ day_without_values →
      date_of (DailyNO2.timestamp h)
      = date_of (DailyNO2.timestamp
                   {| DailyNO2.timestamp := midnight 19724; DailyNO2.no2_ug_m3 := None |}) →
      DailyNO2.no2_ug_m3 h = None.
Proof.
  apply (daily_value_absent_iff_day_without_value day_without_values
           [ {| DailyNO2.timestamp := midnight 19724; DailyNO2.no2_ug_m3 := None |} ]).
  - vm_compute. reflexivity.
  - apply list_elem_of_In. left. reflexivity.
Defined.

(** Rounding to three decimal digits gives a whole number of
    thousandths, moves a value by at most half a thousandth, up or down,
    and changes nothing when it is done again. *)
Theorem round3_moves_at_most_half_a_thousandth (q : Qc) :
  (∃ n : Z, DailyNO2.round3 q = Q2Qc (n # 1000))
  ∧ (DailyNO2.round3 q - q <= Q2Qc (1 # 2000))%Qc
  ∧ (q - DailyNO2.round3 q <= Q2Qc (1 # 2000))%Qc
  ∧ DailyNO2.round3 (DailyNO2.round3 q) = DailyNO2.round3 q.
Proof.
  split; [by eexists|].
  destruct (round3_close q) as [Hup Hdown].
  repeat split; [exact Hup|exact Hdown|apply round3_idempotent].
Qed.

Lemma combine_distinct_timestamps_witness :
  PointsLA.combine series_a series_b [] =
  [ PointsLA.CombinedRow 1 (Some (num 5)) None None;
    PointsLA.CombinedRow 2 (Some (num 6)) (Some (num 7)) None;
    PointsLA.CombinedRow 3 None (Some (num 8)) None ].
Proof.
  destruct (combine_distinct_timestamps series_a series_b []) as [Hcombine _].
  - apply (bool_decide_unpack _). vm_compute. reflexivity.
  - apply (bool_decide_unpack _). vm_compute. reflexivity.
  - constructor.
  - rewrite Hcombine. vm_compute. reflexivity.
Defined.

(** ** Splitting the stored table *)

Lemma column_position_present (name : string) (columns : list string) :
  name ∈ columns → is_Some (SplitAirQuality.column_position name columns).
Proof.
  intros Hin. unfold SplitAirQuality.column_position.
  destruct (list_find_elem_of (λ c, c = name) columns name Hin eq_refl) as [[p c] ->].
  by eexists.
Qed.

Lemma column_position_missing (name : string) (columns : list string) :
  name ∉ columns → SplitAirQuality.column_position name columns = None.
Proof.
  intros Hnotin. unfold SplitAirQuality.column_position.
  assert (list_find (λ c, c = name) columns = None) as ->; [|done].
  apply list_find_None, Forall_forall. by intros c Hc ->.
Qed.

Lemma select_two_columns (df : SplitAirQuality.frame) (a b : string) :
  a ∈ SplitAirQuality.columns df → b ∈ SplitAirQuality.columns df →
  SplitAirQuality.select [a; b] df = Returned (two_columns df a b).
Proof.
  intros [pa Ha]%column_position_present [pb Hb]%column_position_present.
  unfold SplitAirQuality.select, two_columns, cell_under.
  csimpl. rewrite Ha, Hb. csimpl. reflexivity.
Qed.

Lemma select_missing_column (df : SplitAirQuality.frame) (names : list string)
    (name : string) :
  name ∈ names → name ∉ SplitAirQuality.columns df →
  SplitAirQuality.select names df = Raised.
Proof.
  intros Hin Hmissing%column_position_missing. unfold SplitAirQuality.select.
  assert (mapM (M := option)
            (λ name, SplitAirQuality.column_position name (SplitAirQuality.columns df))
            names = None) as ->; [|done].
  apply mapM_None_2, Exists_exists. by exists name.
Qed.

Lemma column_position_at (name : string) (columns : list string) (j : nat) :
  NoDup columns → columns !! j = Some name →
  SplitAirQuality.column_position name columns = Some j.
Proof.
  intros Hnodup Hj. unfold SplitAirQuality.column_position.
  destruct (list_find (λ c, c = name) columns) as [[i c]|] eqn:Hfind.
  - apply list_find_Some in Hfind as (Hi & -> & _). simpl. f_equal.
    by apply (NoDup_lookup columns i j name).
  - apply list_find_None in Hfind. rewrite Forall_forall in Hfind.
    destruct (Hfind name); [|done]. by apply list_elem_of_lookup_2 in Hj.
Qed.

(** With the three columns in the stored table, wherever they stand in
    it, the split returns normally and writes two files: under the NO2
    path the table of the two columns "timestamp" and "no2_ug_m3", under
    the O3 path that of "timestamp" and "o3_ug_m3".  Each has one row for
    every row of the stored table, in the same order, holding the two
    cells that row has in the positions of these columns. *)
Theorem split_writes_both_projections
    (files : gmap string SplitAirQuality.frame) (df : SplitAirQuality.frame)
    (t n o : nat) :
  files !! SplitAirQuality.input_file = Some df →
  NoDup (SplitAirQuality.columns df) →
  SplitAirQuality.columns df !! t = Some "timestamp" →
  SplitAirQuality.columns df !! n = Some "no2_ug_m3" →
  SplitAirQuality.columns df !! o = Some "o3_ug_m3" →
  SplitAirQuality.split_air_quality_data files
  = (<[SplitAirQuality.o3_output :=
         {| SplitAirQuality.columns := ["timestamp"; "o3_ug_m3"];
            SplitAirQuality.rows :=
              (λ row, [default PyNone (row !! t); default PyNone (row !! o)])
                <$> SplitAirQuality.rows df |}]>
       (<[SplitAirQuality.no2_output :=
            {| SplitAirQuality.columns := ["timestamp"; "no2_ug_m3"];
               SplitAirQuality.rows :=
                 (λ row, [default PyNone (row !! t); default PyNone (row !! n)])
                   <$> SplitAirQuality.rows df |}]> files),
     Returned ()).
Proof.
  intros Hfile Hnodup Ht Hn Ho.
  unfold SplitAirQuality.split_air_quality_data, SplitAirQuality.select.
  rewrite Hfile. csimpl.
  rewrite (column_position_at _ _ t Hnodup Ht), (column_position_at _ _ n Hnodup Hn),
    (column_position_at _ _ o Hnodup Ho).
  reflexivity.
Qed.

Lemma split_writes_both_projections_witness :
  SplitAirQuality.split_air_quality_data
    {[ SplitAirQuality.input_file := stored_table ]}
  = (<[SplitAirQuality.o3_output :=
         {| SplitAirQuality.columns := ["timestamp"; "o3_ug_m3"];
            SplitAirQuality.rows :=
              [ [PyStr "2024-01-01 00:00:00+00:00"; PyNone];
                [PyStr "2024-01-01 01:00:00+00:00"; num 7] ] |}]>
       (<[SplitAirQuality.no2_output :=
            {| SplitAirQuality.columns := ["timestamp"; "no2_ug_m3"];
               SplitAirQuality.rows :=
                 [ [PyStr "2024-01-01 00:00:00+00:00"; num 5];
                   [PyStr "2024-01-01 01:00:00+00:00"; PyNone] ] |}]>
          {[ SplitAirQuality.input_file := stored_table ]}),
     Returned ()).
Proof.
  apply (split_writes_both_projections
           {[ SplitAirQuality.input_file := stored_table ]} stored_table
           0%nat 1%nat 2%nat).
  - reflexivity.
  - apply (bool_decide_unpack _). vm_compute. reflexivity.
  - reflexivity.
  - reflexivity.
  - reflexivity.
Defined.

(** A missing column makes the split raise.  Without the timestamp or
    the NO2 column nothing is written.  With both of them but without the
    O3 column the NO2 file has been written by the time the call raises,
    and nothing is written under the O3 path. *)
Theorem split_raises_on_missing_column
    (files : gmap string SplitAirQuality.frame) (df : SplitAirQuality.frame) :
  files !! SplitAirQuality.input_file = Some df →
  ("timestamp" ∉ SplitAirQuality.columns df ∨ "no2_ug_m3" ∉ SplitAirQuality.columns df →
   SplitAirQuality.split_air_quality_data files = (files, Raised))
  ∧ ("timestamp" ∈ SplitAirQuality.columns df →
     "no2_ug_m3" ∈ SplitAirQuality.columns df →
     "o3_ug_m3" ∉ SplitAirQuality.columns df →
     SplitAirQuality.split_air_quality_data files
     = (<[SplitAirQuality.no2_output := two_columns df "timestamp" "no2_ug_m3"]> files,
        Raised)).
Proof.
  intros Hfile. unfold SplitAirQuality.split_air_quality_data. rewrite Hfile. split.
  - intros [Hts | Hno2].
    + by rewrite (select_missing_column df _ "timestamp") by (done || by left).
    + rewrite (select_missing_column df _ "no2_ug_m3"); [done| |done].
      right. left.
  - intros Hts Hno2 Ho3. rewrite select_two_columns by done.
    rewrite (select_missing_column df _ "o3_ug_m3"); [done| |done].
    right. left.
Qed.

Lemma split_raises_on_missing_column_witness :
  SplitAirQuality.split_air_quality_data
    {[ SplitAirQuality.input_file := stored_table_without_o3 ]}
  = (<[SplitAirQuality.no2_output
       := two_columns stored_table_without_o3 "timestamp" "no2_ug_m3"]>
       {[ SplitAirQuality.input_file := stored_table_without_o3 ]},
     Raised).
Proof.
  destruct (split_raises_on_missing_column
              {[ SplitAirQuality.input_file := stored_table_without_o3 ]}
              stored_table_without_o3) as [_ Hpartial].
  - reflexivity.
  - apply Hpartial.
    + apply (bool_decide_unpack _). vm_compute. reflexivity.
    + apply (bool_decide_unpack _). vm_compute. reflexivity.
    + apply (bool_decide_unpack _). vm_compute. reflexivity.
Defined.

(** The split writes under its two output paths and nowhere else: every
    other path, the input file among them, holds after the call what it
    held before, whether the call returned or raised. *)
Theorem split_touches_only_its_outputs
    (files : gmap string SplitAirQuality.frame) (path : string) :
  path ≠ SplitAirQuality.no2_output → path ≠ SplitAirQuality.o3_output →
  (SplitAirQuality.split_air_quality_data files).1 !! path = files !! path.
Proof.
  intros Hno2 Ho3. unfold SplitAirQuality.split_air_quality_data.
  destruct (files !! SplitAirQuality.input_file) as [df|]; [|done].
  destruct (SplitAirQuality.select ["timestamp"; "no2_ug_m3"] df); [|done].
  destruct (SplitAirQuality.select ["timestamp"; "o3_ug_m3"] df); simpl.
  - by rewrite !lookup_insert_ne.
  - by rewrite lookup_insert_ne.
Qed.

Lemma split_touches_only_its_outputs_witness :
  (SplitAirQuality.split_air_quality_data
     {[ SplitAirQuality.input_file := stored_table ]}).1 !! SplitAirQuality.input_file
  = ({[ SplitAirQuality.input_file := stored_table ]} : gmap string SplitAirQuality.frame)
      !! SplitAirQuality.input_file.
Proof.
  apply (split_touches_only_its_outputs
           {[ SplitAirQuality.input_file := stored_table ]} SplitAirQuality.input_file);
    discriminate.
Defined.

(** Running the split a second time changes nothing more: the files and
    the outcome are those of the first run. *)
Theorem split_twice (files : gmap string SplitAirQuality.frame) :
  SplitAirQuality.split_air_quality_data
    (SplitAirQuality.split_air_quality_data files).1
  = SplitAirQuality.split_air_quality_data files.
Proof.
  assert (Hinput : ∀ (m : gmap string SplitAirQuality.frame) path x,
            path = SplitAirQuality.no2_output ∨ path = SplitAirQuality.o3_output →
            <[path := x]> m !! SplitAirQuality.input_file
            = m !! SplitAirQuality.input_file).
  { intros m path x [-> | ->]; by rewrite lookup_insert_ne. }
  unfold SplitAirQuality.split_air_quality_data at 2.
  destruct (files !! SplitAirQuality.input_file) as [df|] eqn:Hfile.
  2:{ simpl. unfold SplitAirQuality.split_air_quality_data. by rewrite Hfile. }
  destruct (SplitAirQuality.select ["timestamp"; "no2_ug_m3"] df) as [no2_df|] eqn:Hsel1.
  2:{ simpl. unfold SplitAirQuality.split_air_quality_data. by rewrite Hfile, Hsel1. }
  destruct (SplitAirQuality.select ["timestamp"; "o3_ug_m3"] df) as [o3_df|] eqn:Hsel2;
    simpl; unfold SplitAirQuality.split_air_quality_data.
  - rewrite !Hinput, Hfile, Hsel1, Hsel2 by auto.
    f_equal.
    rewrite (insert_insert_ne _ SplitAirQuality.no2_output SplitAirQuality.o3_output)
      by done.
    by rewrite !insert_insert_eq.
  - rewrite !Hinput, Hfile, Hsel1, Hsel2 by auto.
    by rewrite insert_insert_eq.
Qed.

Example split_example :
  SplitAirQuality.split_air_quality_data
    {[ SplitAirQuality.input_file := stored_table ]}
  = (<[ SplitAirQuality.o3_output :=
          {| SplitAirQuality.columns := ["timestamp"; "o3_ug_m3"];
             SplitAirQuality.rows :=
               [ [PyStr "2024-01-01 00:00:00+00:00"; PyNone];
                 [PyStr "2024-01-01 01:00:00+00:00"; num 7] ] |} ]>
       (<[ SplitAirQuality.no2_output := stored_table_without_o3 ]>
          {[ SplitAirQuality.input_file := stored_table ]}),
     Returned ()).
Proof. vm_compute. reflexivity. Qed.

(** When none of its requests failed, a fetch returns the latest of the
    measurements of the pages it requested: the frame and what was cut
    are these measurements; together they are in ascending order, the cut
    ones first, so that no row that was cut is later than a row that was
    kept; and the frame has [target_points] rows, or all of them when
    there are fewer.  For [extract_measurements_from_sensor] this is said
    of a frame that has rows (a frame that could not be sorted comes back
    without rows). *)
Theorem fetch_keeps_the_latest_measurements
    (to_datetime : pyobj → try Z) (session_get : request → response)
    (sensor_id : Z) (parameter_name : string) (target_points : Z) :
  (∀ series k accumulated,
     accumulated = omap (PointsLA.process_record to_datetime parameter_name)
       (pages_from (PointsLA.measurements_request sensor_id) session_get 1 k) →
     PointsLA.extract_measurements_from_sensor to_datetime session_get
       sensor_id parameter_name target_points
     = Some (series, PointsLA.measurements_request sensor_id <$> seq 1 k) →
     (∀ p, (1 ≤ p ≤ k)%nat →
        session_get (PointsLA.measurements_request sensor_id p) ≠ TransportError) →
     series ≠ [] →
     ∃ cut,
       cut ++ series ≡ₚ accumulated
       ∧ Sorted PointsLA.timestamp_le (cut ++ series)
       ∧ Z.of_nat (length series)
         = Z.max 0 target_points `min` Z.of_nat (length accumulated)
       ∧ ∀ old kept, old ∈ cut → kept ∈ series →
           PointsLA.timestamp old ≤ PointsLA.timestamp kept)
  ∧ (∀ series k accumulated,
       accumulated = omap (DailyLA.process_record to_datetime parameter_name)
         (pages_from (DailyLA.days_request sensor_id) session_get 1 k) →
       DailyLA.extract_daily_measurements_from_sensor to_datetime session_get
         sensor_id parameter_name target_points
       = Some (series, DailyLA.days_request sensor_id <$> seq 1 k) →
       (∀ p, (1 ≤ p ≤ k)%nat →
          session_get (DailyLA.days_request sensor_id p) ≠ TransportError) →
       ∃ cut,
         cut ++ series ≡ₚ accumulated
         ∧ Sorted DailyLA.date_le (cut ++ series)
         ∧ Z.of_nat (length series)
           = Z.max 0 target_points `min` Z.of_nat (length accumulated)
         ∧ ∀ old kept, old ∈ cut → kept ∈ series →
             DailyLA.date old ≤ DailyLA.date kept).
Proof.
  rewrite points_extract_paged, daily_extract_paged.
  split.
  - intros series k accumulated -> Hfetch Hok _.
    by apply (paged_series_fetcher_latest PointsLA.timestamp).
  - intros series k accumulated -> Hfetch Hok.
    by apply (paged_series_fetcher_latest DailyLA.date).
Qed.

Lemma fetch_keeps_the_latest_witness :
  ∃ cut,
    cut ++ ((λ i, {| PointsLA.timestamp := (1704067200 + i) * ns_per_second;
                     PointsLA.value := num i |}) <$> range 3 4)
    ≡ₚ omap (PointsLA.process_record to_datetime_iso "no2")
         (pages_from (PointsLA.measurements_request 25192) small_three_page_source 1 2)
    ∧ length cut = 2%nat.
Proof.
  destruct (fetch_keeps_the_latest_measurements to_datetime_iso small_three_page_source
              25192 "no2" 4) as [Hpoints _].
  destruct (Hpoints
    ((λ i, {| PointsLA.timestamp := (1704067200 + i) * ns_per_second;
              PointsLA.value := num i |}) <$> range 3 4)
    2%nat _ eq_refl) as (cut & Hcut & _).
  - vm_compute. reflexivity.
  - intros p _. unfold small_three_page_source. simpl.
    destruct p as [|[|[|[|p]]]]; discriminate.
  - discriminate.
  - exists cut. split; [exact Hcut|].
    apply Permutation_length in Hcut. rewrite length_app, length_fmap in Hcut.
    replace (length (omap _ _)) with 6%nat in Hcut by (vm_compute; reflexivity).
    simpl in Hcut. lia.
Defined.

(** ** The daily table on frames without repeated dates *)

Lemma value_at_absent_iff {R V : Type} (rkey : R → Z) (rval : R → V)
    (right : list R) (k : Z) :
  rval <$> head (filter (λ r, rkey r = k) right) = None ↔ k ∉ rkey <$> right.
Proof.
  destruct (filter (λ r, rkey r = k) right) as [|r rest] eqn:Hfilter.
  - split; [|done]. intros _ (r & -> & Hr)%list_elem_of_fmap.
    by apply (filter_nil_not_elem_of (λ r0, rkey r0 = rkey r) right r Hfilter).
  - split; [done|]. intros Hnotin. exfalso. apply Hnotin.
    assert (Hr : r ∈ filter (λ r, rkey r = k) right) by (rewrite Hfilter; left).
    apply list_elem_of_filter in Hr as [<- Hr]. by apply list_elem_of_fmap_2.
Qed.

(** When neither daily frame repeats a date, the combined daily table
    has exactly one row for each date of their union, in strictly
    ascending order, and the cell of a pollutant is the value its frame
    holds at the row's date, absent exactly when the frame has no row of
    that date. *)
Theorem daily_combine_distinct_dates (df_no2 df_o3 : list DailyLA.measurement) :
  NoDup (DailyLA.date <$> df_no2) →
  NoDup (DailyLA.date <$> df_o3) →
  DailyLA.combine df_no2 df_o3
  = (λ d, DailyLA.CombinedRow d (daily_value_at df_no2 d) (daily_value_at df_o3 d))
      <$> sorted_keys (list_to_set (DailyLA.date <$> df_no2)
                       ∪ list_to_set (DailyLA.date <$> df_o3))
  ∧ StronglySorted Z.lt (DailyLA.row_date <$> DailyLA.combine df_no2 df_o3)
  ∧ length (DailyLA.combine df_no2 df_o3)
    = size (list_to_set (DailyLA.date <$> df_no2 ++ df_o3) : gset Z)
  ∧ (∀ df d, daily_value_at df d = None ↔ d ∉ DailyLA.date <$> df).
Proof.
  intros Hno2 Ho3.
  set (days := list_to_set (DailyLA.date <$> df_no2)
               ∪ list_to_set (DailyLA.date <$> df_o3) : gset Z).
  assert (Hcombine :
    DailyLA.combine df_no2 df_o3
    = (λ d, DailyLA.CombinedRow d (daily_value_at df_no2 d) (daily_value_at df_o3 d))
        <$> sorted_keys days).
  { rewrite daily_combine_merges, !merge_left_distinct by done.
    rewrite <- !list_fmap_compose. reflexivity. }
  assert (Hkeys : DailyLA.row_date <$> DailyLA.combine df_no2 df_o3 = sorted_keys days).
  { rewrite Hcombine, <- list_fmap_compose. apply list_fmap_id. }
  split; [exact Hcombine|].
  split; [rewrite Hkeys; apply sorted_keys_strictly_ascending|].
  split.
  - rewrite Hcombine, length_fmap. unfold sorted_keys, days.
    by rewrite merge_sort_Permutation, fmap_app, list_to_set_app_L.
  - intros df d. apply value_at_absent_iff.
Qed.

Lemma daily_combine_distinct_dates_witness :
  DailyLA.combine daily_series_a daily_series_b =
  [ DailyLA.CombinedRow 19723 (Some (num 5)) None;
    DailyLA.CombinedRow 19724 (Some (num 6)) (Some (num 7));
    DailyLA.CombinedRow 19725 None (Some (num 8)) ].
Proof.
  destruct (daily_combine_distinct_dates daily_series_a daily_series_b) as [Hcombine _].
  - apply (bool_decide_unpack _). vm_compute. reflexivity.
  - apply (bool_decide_unpack _). vm_compute. reflexivity.
  - rewrite Hcombine. vm_compute. reflexivity.
Defined.

(** ** Where the cells of the tables come from *)

Lemma response_failed_dec (r : response) :
  {r ≠ TransportError} + {r = TransportError}.
Proof. destruct r; [by right|by left]. Qed.

Section PagedSeriesFetcherOrigin.
Context {M : Type}.
Variable key : M → Z.
Variable make_request : nat → request.
Variable process : pyobj → option M.
Variable session_get : request → response.

Lemma sort_trim_elem_of (target : Z) (acc : list M) (m : M) :
  m ∈ sort_trim key target acc → m ∈ acc.
Proof.
  unfold sort_trim. destruct (0 <? Z.of_nat (length acc)); [|done].
  destruct (trim_suffix target (sort_by key acc)) as [older Holder].
  intros Hm. rewrite <- (sort_by_Permutation key acc), Holder.
  apply elem_of_app. by right.
Qed.

(** Every measurement of the frame comes from a record of a page that
    was requested and arrived. *)
Lemma paged_series_fetcher_origin target series sent m :
  paged_series_fetcher key make_request process session_get target
  = Some (series, sent) →
  m ∈ series →
  ∃ p results record,
    (1 ≤ p ≤ 50)%nat ∧ make_request p ∈ sent
    ∧ session_get (make_request p) = Results results
    ∧ record ∈ results ∧ process record = Some m.
Proof.
  intros Hfetch Hm.
  destruct (paged_series_fetcher_trace key make_request process session_get target)
    as (series' & k & Hfetch' & Hk & _ & Hseries).
  rewrite Hfetch in Hfetch'. injection Hfetch' as <- ->.
  destruct (Forall_Exists_dec
              (λ p, session_get (make_request p) ≠ TransportError)
              (λ p, session_get (make_request p) = TransportError)
              (λ p, response_failed_dec (session_get (make_request p)))
              (seq 1 k)) as [Hok | Hfail].
  - rewrite Hseries in Hm.
    2:{ intros p Hp. rewrite Forall_forall in Hok. apply Hok, elem_of_seq. lia. }
    apply sort_trim_elem_of, list_elem_of_omap in Hm as (record & Hrecord & Hprocess).
    apply list_elem_of_bind in Hrecord as (p & Hrecord & Hp).
    destruct (session_get (make_request p)) as [|results] eqn:Hget;
      [by apply elem_of_nil in Hrecord|].
    exists p, results, record. apply elem_of_seq in Hp.
    split; [lia|]. split; [|done].
    apply list_elem_of_fmap_2, elem_of_seq. lia.
  - rewrite (paged_series_fetcher_failure key make_request process session_get
               target series _ Hfetch) in Hm; [by apply elem_of_nil in Hm|].
    apply Exists_exists in Hfail as (p & Hp & Hfail).
    exists (make_request p). split; [|done]. by apply list_elem_of_fmap_2.
Qed.

End PagedSeriesFetcherOrigin.

(** Every value of the table of [extract_1000_points_los_angeles] comes
    from the source: a NO2 cell is the measurement that a record of an
    arrived page of sensor 25192 yields, an O3 cell one of sensor 25193,
    and the timestamp of the row is that of the record. *)
Theorem points_table_cells_come_from_the_source
    (to_datetime : pyobj → try Z) (session_get : request → response)
    (table : list PointsLA.combined_row) (row : PointsLA.combined_row) :
  PointsLA.extract_1000_points_los_angeles to_datetime session_get = Some table →
  row ∈ table →
  (∀ v, PointsLA.no2_ug_m3 row = Some v →
     ∃ p results record,
       (1 ≤ p ≤ 50)%nat
       ∧ session_get (PointsLA.measurements_request 25192 p) = Results results
       ∧ record ∈ results
       ∧ PointsLA.process_record to_datetime "no2" record
         = Some {| PointsLA.timestamp := PointsLA.row_timestamp row;
                   PointsLA.value := v |})
  ∧ (∀ v, PointsLA.o3_ug_m3 row = Some v →
       ∃ p results record,
         (1 ≤ p ≤ 50)%nat
         ∧ session_get (PointsLA.measurements_request 25193 p) = Results results
         ∧ record ∈ results
         ∧ PointsLA.process_record to_datetime "o3" record
           = Some {| PointsLA.timestamp := PointsLA.row_timestamp row;
                     PointsLA.value := v |}).
Proof.
  unfold PointsLA.extract_1000_points_los_angeles.
  rewrite !points_extract_paged.
  destruct (paged_series_fetcher PointsLA.timestamp (PointsLA.measurements_request 25192)
              _ _ _) as [[df_no2 sent1]|] eqn:Hno2; [|done].
  destruct (paged_series_fetcher PointsLA.timestamp (PointsLA.measurements_request 25193)
              _ _ _) as [[df_o3 sent2]|] eqn:Ho3; [|done].
  simpl. intros [= <-] Hrow.
  destruct (trim_suffix 10000 (PointsLA.combine df_no2 df_o3 [])) as [older Holder].
  assert (Hin : row ∈ PointsLA.combine df_no2 df_o3 [])
    by (rewrite Holder; apply elem_of_app; by right).
  destruct (points_combine_cells df_no2 df_o3 [] row Hin) as (Hcell1 & Hcell2 & _).
  split; intros v Hv.
  - rewrite Hv in Hcell1. destruct Hcell1 as ([t v'] & Hm & Ht & Hv'). simpl in *. subst.
    destruct (paged_series_fetcher_origin _ _ _ _ _ _ _ _ Hno2 Hm)
      as (p & results & record & ? & _ & ? & ? & ?).
    by exists p, results, record.
  - rewrite Hv in Hcell2. destruct Hcell2 as ([t v'] & Hm & Ht & Hv'). simpl in *. subst.
    destruct (paged_series_fetcher_origin _ _ _ _ _ _ _ _ Ho3 Hm)
      as (p & results & record & ? & _ & ? & ? & ?).
    by exists p, results, record.
Qed.

(** The same for the table of [extract_1000_daily_points_los_angeles], on
    the endpoint of the daily means. *)
Theorem daily_table_cells_come_from_the_source
    (to_datetime : pyobj → try Z) (session_get : request → response)
    (table : list DailyLA.combined_row) (row : DailyLA.combined_row) :
  DailyLA.extract_1000_daily_points_los_angeles to_datetime session_get = Some table →
  row ∈ table →
  (∀ v, DailyLA.no2_ug_m3 row = Some v →
     ∃ p results record,
       (1 ≤ p ≤ 50)%nat
       ∧ session_get (DailyLA.days_request 25192 p) = Results results
       ∧ record ∈ results
       ∧ DailyLA.process_record to_datetime "no2" record
         = Some {| DailyLA.date := DailyLA.row_date row; DailyLA.value := v |})
  ∧ (∀ v, DailyLA.o3_ug_m3 row = Some v →
       ∃ p results record,
         (1 ≤ p ≤ 50)%nat
         ∧ session_get (DailyLA.days_request 25193 p) = Results results
         ∧ record ∈ results
         ∧ DailyLA.process_record to_datetime "o3" record
           = Some {| DailyLA.date := DailyLA.row_date row; DailyLA.value := v |}).
Proof.
  unfold DailyLA.extract_1000_daily_points_los_angeles.
  rewrite !daily_extract_paged.
  destruct (paged_series_fetcher DailyLA.date (DailyLA.days_request 25192)
              _ _ _) as [[df_no2 sent1]|] eqn:Hno2; [|done].
  destruct (paged_series_fetcher DailyLA.date (DailyLA.days_request 25193)
              _ _ _) as [[df_o3 sent2]|] eqn:Ho3; [|done].
  simpl. intros [= <-] Hrow.
  destruct (trim_suffix 1000 (DailyLA.combine df_no2 df_o3)) as [older Holder].
  assert (Hin : row ∈ DailyLA.combine df_no2 df_o3)
    by (rewrite Holder; apply elem_of_app; by right).
  destruct (daily_combine_cells df_no2 df_o3 row Hin) as (Hcell1 & Hcell2).
  split; intros v Hv.
  - rewrite Hv in Hcell1. destruct Hcell1 as ([d v'] & Hm & Hd & Hv'). simpl in *. subst.
    destruct (paged_series_fetcher_origin _ _ _ _ _ _ _ _ Hno2 Hm)
      as (p & results & record & ? & _ & ? & ? & ?).
    by exists p, results, record.
  - rewrite Hv in Hcell2. destruct Hcell2 as ([d v'] & Hm & Hd & Hv'). simpl in *. subst.
    destruct (paged_series_fetcher_origin _ _ _ _ _ _ _ _ Ho3 Hm)
      as (p & results & record & ? & _ & ? & ? & ?).
    by exists p, results, record.
Qed.

Lemma points_table_cells_witness :
  ∃ p results record,
    (1 ≤ p ≤ 50)%nat
    ∧ overlapping_source (PointsLA.measurements_request 25192 p) = Results results
    ∧ record ∈ results
    ∧ PointsLA.process_record to_datetime_iso "no2" record
      = Some {| PointsLA.timestamp := 1704067200 * ns_per_second;
                PointsLA.value := num 5 |}.
Proof.
  destruct (points_table_cells_come_from_the_source to_datetime_iso overlapping_source
    [ PointsLA.CombinedRow (1704067200 * ns_per_second) (Some (num 5)) None None;
      PointsLA.CombinedRow (1704070800 * ns_per_second) (Some (num 6)) None None;
      PointsLA.CombinedRow (1704070800 * ns_per_second) (Some (num 6)) None None;
      PointsLA.CombinedRow (1704074400 * ns_per_second) (Some (num 7)) None None ]
    (PointsLA.CombinedRow (1704067200 * ns_per_second) (Some (num 5)) None None))
    as [Hno2 _].
  - vm_compute. reflexivity.
  - apply list_elem_of_In. left. reflexivity.
  - apply (Hno2 (num 5)). reflexivity.
Defined.

Lemma daily_table_cells_witness :
  ∃ p results record,
    (1 ≤ p ≤ 50)%nat
    ∧ overlapping_source (DailyLA.days_request 25192 p) = Results results
    ∧ record ∈ results
    ∧ DailyLA.process_record to_datetime_iso "no2" record
      = Some {| DailyLA.date := 19723; DailyLA.value := num 7 |}.
Proof.
  destruct (daily_table_cells_come_from_the_source to_datetime_iso overlapping_source
    [ DailyLA.CombinedRow 19723 (Some (num 5)) None;
      DailyLA.CombinedRow 19723 (Some (num 6)) None;
      DailyLA.CombinedRow 19723 (Some (num 6)) None;
      DailyLA.CombinedRow 19723 (Some (num 7)) None ]
    (DailyLA.CombinedRow 19723 (Some (num 7)) None))
    as [Hno2 _].
  - vm_compute. reflexivity.
  - apply list_elem_of_In. do 3 right. left. reflexivity.
  - apply (Hno2 (num 7)). reflexivity.
Defined.

(** ** The daily value and the hourly values of its day *)

Lemma Qc_of_nat_S (k : nat) :
  Q2Qc (inject_Z (Z.of_nat (S k))) = (1 + Q2Qc (inject_Z (Z.of_nat k)))%Qc.
Proof.
  apply Qc_is_canon. rewrite Nat2Z.inj_succ. simpl this.
  rewrite !Qred_correct. unfold Qeq, Qplus, inject_Z. simpl Qnum. simpl Qden.
  rewrite Pos.mul_1_r. lia.
Qed.

Lemma Qc_of_nat_pos (k : nat) : (0 < k)%nat → (0 < Q2Qc (inject_Z (Z.of_nat k)))%Qc.
Proof.
  intros Hk. unfold Qclt. simpl this. rewrite Qred_inject_Z.
  unfold Qlt, inject_Z. simpl Qnum. simpl Qden. lia.
Qed.

Lemma sum_between (lo hi : Qc) (values : list Qc) :
  Forall (λ x, (lo <= x)%Qc ∧ (x <= hi)%Qc) values →
  (lo * Q2Qc (inject_Z (Z.of_nat (length values))) <= DailyNO2.sum values)%Qc
  ∧ (DailyNO2.sum values <= hi * Q2Qc (inject_Z (Z.of_nat (length values))))%Qc.
Proof.
  induction 1 as [|x values [Hlo Hhi] _ [IHlo IHhi]].
  - unfold DailyNO2.sum. simpl. change (Q2Qc (inject_Z 0)) with 0%Qc.
    rewrite !Qcmult_0_r. split; apply Qcle_refl.
  - unfold DailyNO2.sum in *. cbn [foldr length].
    rewrite Qc_of_nat_S, !Qcmult_plus_distr_r, !Qcmult_1_r.
    split; by apply Qcplus_le_compat.
Qed.

(** The mean of the values present lies between any lower and any upper
    bound of these values. *)
Lemma mean_between (lo hi : Qc) (cells : list (option Qc)) (m : Qc) :
  DailyNO2.mean cells = Some m →
  (∀ x, Some x ∈ cells → (lo <= x)%Qc ∧ (x <= hi)%Qc) →
  (lo <= m)%Qc ∧ (m <= hi)%Qc.
Proof.
  unfold DailyNO2.mean. case_bool_decide as Hvalues; [done|].
  intros [= <-] Hbounds.
  set (values := omap id cells) in *.
  set (n := Q2Qc (inject_Z (Z.of_nat (length values)))).
  assert (Hn : (0 < n)%Qc).
  { apply Qc_of_nat_pos. destruct values; [done|simpl; lia]. }
  assert (Hne : n ≠ 0%Qc) by (symmetry; by apply Qclt_not_eq).
  destruct (sum_between lo hi values) as [Hlo Hhi].
  { apply Forall_forall. intros x (cell & Hcell & Hx)%list_elem_of_omap.
    simpl in Hx. subst cell. by apply Hbounds. }
  assert (Hmean : (DailyNO2.sum values / n * n)%Qc = DailyNO2.sum values).
  { rewrite Qcmult_comm. by apply Qcmult_div_r. }
  split; apply (Qcmult_lt_0_le_reg_r _ _ n Hn); by rewrite Hmean.
Qed.

(** The value of a row of the daily frame is never farther than half a
    thousandth outside the range of the hourly values of its day: with
    every hourly value of the day between [lo] and [hi], the daily value
    is between [lo - 0.0005] and [hi + 0.0005]. *)
Theorem daily_value_within_range_of_its_day
    (df daily : list DailyNO2.row) (r : DailyNO2.row) (v lo hi : Qc) :
  DailyNO2.create_daily_no2 df = Returned daily →
  r ∈ daily →
  DailyNO2.no2_ug_m3 r = Some v →
  (∀ h x, h ∈ df →
     date_of (DailyNO2.timestamp h) = date_of (DailyNO2.timestamp r) →
     DailyNO2.no2_ug_m3 h = Some x → (lo <= x)%Qc ∧ (x <= hi)%Qc) →
  (lo - Q2Qc (1 # 2000) <= v)%Qc ∧ (v <= hi + Q2Qc (1 # 2000))%Qc.
Proof.
  intros (_ & ->)%create_daily_no2_returned (d & -> & _)%list_elem_of_fmap.
  unfold daily_row. simpl. rewrite date_of_midnight.
  destruct (DailyNO2.mean _) as [m|] eqn:Hmean; [|done].
  simpl. intros [= <-] Hday.
  destruct (mean_between lo hi _ m Hmean) as [Hlo Hhi].
  { intros x (h & Hx & [Hd Hh]%list_elem_of_filter)%list_elem_of_fmap.
    by apply (Hday h). }
  destruct (round3_close m) as [Hup Hdown].
  revert Hlo Hhi Hup Hdown.
  unfold Qcle, Qcminus, Qcplus, Qcopp. simpl this.
  rewrite !Qred_correct.
  generalize (this (DailyNO2.round3 m)) (this m) (this lo) (this hi).
  intros rounded mean low high. lra.
Qed.

Lemma daily_value_within_range_witness :
  (Q2Qc 10 - Q2Qc (1 # 2000) <= Q2Qc (15000 # 1000))%Qc ∧ (Q2Qc (15000 # 1000) <= Q2Qc 20 + Q2Qc (1 # 2000))%Qc.
Proof.
  apply (daily_value_within_range_of_its_day two_readings
           [ {| DailyNO2.timestamp := midnight 19723;
                DailyNO2.no2_ug_m3 := Some (Q2Qc (15000 # 1000)) |} ]
           {| DailyNO2.timestamp := midnight 19723;
              DailyNO2.no2_ug_m3 := Some (Q2Qc (15000 # 1000)) |}
           (Q2Qc (15000 # 1000)) (Q2Qc 10) (Q2Qc 20)).
  - vm_compute. reflexivity.
  - apply list_elem_of_In. left. reflexivity.
  - reflexivity.
  - intros h x Hh _ Hx. apply list_elem_of_In in Hh.
    destruct Hh as [<- | [<- | []]]; injection Hx as <-; split; discriminate.
Defined.
